(** * Lernify Road API: a shallow embedding of [main.py] and [schemas.py]

    The request handlers of [main.py] are embedded as state-passing functions
    over a document store in the style of pymongo: a collection is the list of
    its documents in insertion order, a document is a finite map from field
    names to values.  Handlers return the store they leave behind together
    with either their return value or the [HTTPException] they raise; a write
    made before a [raise] stays in the store, as it does in the source.

    [db], which [main.py] imports from [database.py], is the pymongo database
    handle; its collections are the fields of [Store].  Python's
    [int(0.6 * total)] is embedded with the binary64 operations of the
    standard library's [SpecFloat]. *)

From Stdlib Require Import ZArith Lia Floats.SpecFloat QArith.QArith_base QArith.Qround.
From stdpp Require Import gmap strings list pretty.

Open Scope Z_scope.

(** ** Python floats (binary64) *)

Module PyFloat.

Definition prec : Z := 53.
Definition emax : Z := 1024.

(** [float(n)] for a Python integer: correctly rounded, [OverflowError]
    (here [None]) when the integer is beyond the doubles. *)
Definition float_of_int (n : Z) : option spec_float :=
  match binary_normalize prec emax n 0 false with
  | S754_infinity _ => None
  | f => Some f
  end.

(** The literal [0.6]: the double nearest to 6/10,
    [0x1.3333333333333p-1]. *)
Definition float_0_6 : spec_float := S754_finite false 5404319552844595 (-53).

Definition float_mul : spec_float -> spec_float -> spec_float := SFmul prec emax.

(** [int(f)]: truncation towards zero; raises on infinities and NaN. *)
Definition int_of_float (f : spec_float) : option Z :=
  match f with
  | S754_zero _ => Some 0
  | S754_finite s m e => Some (cond_Zopp s (Z.shiftl (Zpos m) e))
  | S754_infinity _ | S754_nan => None
  end.

(** [int(0.6 * total)] as the source computes it: the integer is converted to
    a double, multiplied by the double nearest to 0.6, and truncated. *)
Definition int_0_6_times (total : Z) : option Z :=
  match float_of_int total with
  | None => None
  | Some f => int_of_float (float_mul float_0_6 f)
  end.

(** [j] halvings of a non-negative mantissa, as a closed form. *)
Definition shr_closed (M : Z) (j : nat) : shr_record :=
  {| shr_m := M / 2 ^ Z.of_nat j;
     shr_r := Z.odd (M / 2 ^ (Z.of_nat j - 1));
     shr_s := negb (M mod 2 ^ (Z.of_nat j - 1) =? 0) |}.

(** The mantissa kept by [binary_round_aux] after dropping [j] low bits of [M]
    with round-half-to-even. *)
Definition rne (M : Z) (j : nat) : Z :=
  round_nearest_even (shr_m (shr_closed M j)) (loc_of_shr_record (shr_closed M j)).

End PyFloat.

(** ** Documents and the store *)

(** A bson [ObjectId], abstracted to the rank of its generation. *)
Definition ObjectId : Type := nat.

(** A quiz question [{"q": .., "options": [..], "answerIndex": ..}];
    [answerIndex] is what [q.get("answerIndex")] returns, [None] when the key
    is absent. *)
Record Question : Type := {
  q : string;
  options : list string;
  answerIndex : option Z
}.

(** [schemas.RoadmapStep] *)
Record RoadmapStep : Type := {
  order : Z;
  title : string;
  description : string;
  videos : list string;
  questions : list Question
}.

#[global] Instance Question_eq_dec : EqDecision Question.
Proof. solve_decision. Defined.

#[global] Instance RoadmapStep_eq_dec : EqDecision RoadmapStep.
Proof. solve_decision. Defined.

(** The values stored under the fields of the documents of this program. *)
Inductive value : Type :=
  | VNone
  | VBool (b : bool)
  | VInt (z : Z)
  | VStr (s : string)
  | VOid (o : ObjectId)
  | VInts (l : list Z)
  | VScores (m : gmap string Z)
  | VSteps (l : list RoadmapStep).

#[global] Instance value_eq_dec : EqDecision value.
Proof. solve_decision. Defined.

(** What the handlers call into and this file leaves abstract:
    [hashlib.sha256(..).hexdigest()], the parser [ObjectId(s)] ([None] when
    it raises), [str(ObjectId)], and [str] of a list or a dictionary (their
    [repr]). *)
Class Externals : Type := {
  sha256_hexdigest : string -> string;
  ObjectId_parse : string -> option ObjectId;
  ObjectId_str : ObjectId -> string;
  container_str : value -> string
}.

Abbreviation document := (gmap string value).
Abbreviation collection := (list (gmap string value)).

(** The collections of [db], and the rank of the next generated [ObjectId]. *)
Record Store : Type := {
  db_user : collection;
  db_roadmap : collection;
  db_progress : collection;
  db_assessmentresult : collection;
  db_next_oid : ObjectId
}.

Definition empty_store : Store :=
  {| db_user := []; db_roadmap := []; db_progress := [];
     db_assessmentresult := []; db_next_oid := 0%nat |}.

Definition set_user (c : collection) (n : ObjectId) (st : Store) : Store :=
  {| db_user := c; db_roadmap := db_roadmap st; db_progress := db_progress st;
     db_assessmentresult := db_assessmentresult st; db_next_oid := n |}.

Definition set_roadmap (c : collection) (n : ObjectId) (st : Store) : Store :=
  {| db_user := db_user st; db_roadmap := c; db_progress := db_progress st;
     db_assessmentresult := db_assessmentresult st; db_next_oid := n |}.

Definition set_progress (c : collection) (n : ObjectId) (st : Store) : Store :=
  {| db_user := db_user st; db_roadmap := db_roadmap st; db_progress := c;
     db_assessmentresult := db_assessmentresult st; db_next_oid := n |}.

Definition set_assessmentresult (c : collection) (n : ObjectId) (st : Store) : Store :=
  {| db_user := db_user st; db_roadmap := db_roadmap st; db_progress := db_progress st;
     db_assessmentresult := c; db_next_oid := n |}.

(** ** pymongo *)

(** An equality filter [{k1: v1, ..}] selects the documents that carry each of
    its fields with that value. *)
Definition matches (flt d : document) : bool := bool_decide (flt ⊆ d).

(** [coll.find_one(flt)]: the first match in insertion order. *)
Definition find_one (coll : collection) (flt : document) : option document :=
  find (matches flt) coll.

(** [coll.insert_one(d)]: the document receives an [_id] unless it has one,
    and goes to the end of the collection.  Returns the collection, the
    document as stored (pymongo writes the [_id] into the caller's dict) and
    [inserted_id]. *)
Definition insert_one (coll : collection) (fresh : ObjectId) (d : document)
  : collection * document * value :=
  match d !! "_id" with
  | Some v => (coll ++ [d], d, v)
  | None => (coll ++ [<["_id" := VOid fresh]> d], <["_id" := VOid fresh]> d, VOid fresh)
  end.

Fixpoint update_first (p : document -> bool) (f : document -> document)
    (coll : collection) : option collection :=
  match coll with
  | [] => None
  | d :: rest =>
      if p d then Some (f d :: rest)
      else match update_first p f rest with
           | Some rest' => Some (d :: rest')
           | None => None
           end
  end.

(** [coll.update_one(flt, upd, upsert=..)]: the first match is updated; with
    [upsert] and no match, the filter's fields updated by [upd] are inserted. *)
Definition update_one (coll : collection) (fresh : ObjectId) (flt : document)
    (upd : document -> document) (upsert : bool) : collection :=
  match update_first (matches flt) upd coll with
  | Some coll' => coll'
  | None => if upsert then coll ++ [<["_id" := VOid fresh]> (upd flt)] else coll
  end.

(** [{"$set": fields}] *)
Definition mongo_set (fields : document) (d : document) : document := fields ∪ d.

(** [{"$addToSet": {k: x}}] on an array of integers (or an absent field). *)
Definition mongo_addToSet (k : string) (x : Z) (d : document) : document :=
  match d !! k with
  | Some (VInts l) => if bool_decide (x ∈ l) then d else <[k := VInts (l ++ [x])]> d
  | None => <[k := VInts [x]]> d
  | Some _ => d
  end.

(** [{"$set": {"k.sub": x}}] on an embedded map of integers (or an absent
    field). *)
Definition mongo_set_nested (k sub : string) (x : Z) (d : document) : document :=
  match d !! k with
  | Some (VScores m) => <[k := VScores (<[sub := x]> m)]> d
  | None => <[k := VScores {[sub := x]}]> d
  | Some _ => d
  end.

(** ** Python truth values and [str] *)

(** [bool(doc)] for the result of [find_one]: [None] and [{}] are false. *)
Definition truthy_doc (d : option document) : bool :=
  match d with
  | Some d => negb (bool_decide (d = ∅))
  | None => false
  end.

(** [bool(doc.get(k))] *)
Definition truthy (v : option value) : bool :=
  match v with
  | None | Some VNone => false
  | Some (VBool b) => b
  | Some (VInt z) => negb (z =? 0)
  | Some (VStr s) => negb (bool_decide (s = ""))
  | Some (VOid _) => true
  | Some (VInts l) => negb (bool_decide (l = []))
  | Some (VScores m) => negb (bool_decide (m = ∅))
  | Some (VSteps l) => negb (bool_decide (l = []))
  end.

(** [str(v)] *)
Definition py_str `{Externals} (v : value) : string :=
  match v with
  | VNone => "None"
  | VBool true => "True"
  | VBool false => "False"
  | VInt z => pretty z
  | VStr s => s
  | VOid o => ObjectId_str o
  | VInts _ | VScores _ | VSteps _ => container_str v
  end.

(** ** Handlers: state and exceptions *)

Record HTTPException : Type := { status_code : Z; detail : string }.

Inductive outcome (A : Type) : Type :=
  | Return (a : A)
  | Raise (e : HTTPException).
Arguments Return {A} a.
Arguments Raise {A} e.

Definition Handler (A : Type) : Type := Store -> Store * outcome A.

#[global] Instance Handler_ret : MRet Handler := fun A a st => (st, Return a).

#[global] Instance Handler_bind : MBind Handler := fun A B f m st =>
  match m st with
  | (st', Return a) => f a st'
  | (st', Raise e) => (st', Raise e)
  end.

Definition raise {A} (e : HTTPException) : Handler A := fun st => (st, Raise e).
Definition get_db : Handler Store := fun st => (st, Return st).
Definition put_db (st : Store) : Handler unit := fun _ => (st, Return tt).

(** ** [schemas.py] *)

Definition ALLOWED_QUALIFICATIONS : list string :=
  ["B.Tech CSE"; "B.Tech IT"; "B.Sc IT"; "BCA"; "MCA"; "M.Sc CS"; "Diploma in CS/IT"].

Module User.
(** At registration the field [password_hash] carries the plaintext. *)
Record t : Type := {
  first_name : string;
  last_name : string;
  email : string;
  phone : string;
  qualification : string;
  password_hash : string;
  role : string;
  avatar_url : option string
}.
End User.

Module LoginRequest.
Record t : Type := { email : string; password : string }.
End LoginRequest.

(** [constr(min_length=n)], on a string as its sequence of characters. *)
Definition min_length (n : nat) (s : string) : bool := (n <=? String.length s)%nat.

(** The constraint of [schemas.LoginRequest]: [password] is
    [constr(min_length=6)].  [User.password_hash] is a plain [str], so a
    registration accepts a password that no login request can carry. *)
Definition LoginRequest_valid (payload : LoginRequest.t) : Prop :=
  min_length 6 (LoginRequest.password payload).

Module UpdateProfile.
Record t : Type := {
  first_name : string;
  last_name : string;
  phone : string;
  qualification : string;
  avatar_url : option string
}.
End UpdateProfile.

Module SubmitAssessment.
Record t : Type := {
  user_id : string;
  domain : string;
  step_order : Z;
  answers : list Z
}.
End SubmitAssessment.

Definition opt_str (o : option string) : value :=
  match o with
  | Some s => VStr s
  | None => VNone
  end.

(** [user.model_dump()] *)
Definition User_model_dump (u : User.t) : document :=
  <["first_name" := VStr (User.first_name u)]>
  (<["last_name" := VStr (User.last_name u)]>
  (<["email" := VStr (User.email u)]>
  (<["phone" := VStr (User.phone u)]>
  (<["qualification" := VStr (User.qualification u)]>
  (<["password_hash" := VStr (User.password_hash u)]>
  (<["role" := VStr (User.role u)]>
  (<["avatar_url" := opt_str (User.avatar_url u)]> ∅))))))).

(** [payload.model_dump()] for [UpdateProfile] *)
Definition UpdateProfile_model_dump (p : UpdateProfile.t) : document :=
  <["first_name" := VStr (UpdateProfile.first_name p)]>
  (<["last_name" := VStr (UpdateProfile.last_name p)]>
  (<["phone" := VStr (UpdateProfile.phone p)]>
  (<["qualification" := VStr (UpdateProfile.qualification p)]>
  (<["avatar_url" := opt_str (UpdateProfile.avatar_url p)]> ∅)))).

(** [Progress(user_id=.., domain=.., completed_steps=[], scores={}).model_dump()] *)
Definition Progress_model_dump (user_id domain : string) (completed_steps : list Z)
    (scores : gmap string Z) : document :=
  <["user_id" := VStr user_id]>
  (<["domain" := VStr domain]>
  (<["completed_steps" := VInts completed_steps]>
  (<["scores" := VScores scores]> ∅))).

(** [AssessmentResult(..).model_dump()] *)
Definition AssessmentResult_model_dump (user_id domain : string)
    (step_order score total : Z) (passed : bool) : document :=
  <["user_id" := VStr user_id]>
  (<["domain" := VStr domain]>
  (<["step_order" := VInt step_order]>
  (<["score" := VInt score]>
  (<["total" := VInt total]>
  (<["passed" := VBool passed]> ∅))))).

(** ** [main.py]: helpers *)

Definition hash_password `{Externals} (password : string) : string :=
  sha256_hexdigest password.

Definition to_str_id `{Externals} (doc : option document) : option document :=
  match doc with
  | Some d =>
      if truthy_doc (Some d) && truthy (d !! "_id") then
        match d !! "_id" with
        | Some v => Some (<["id" := VStr (py_str v)]> (delete "_id" d))
        | None => Some d
        end
      else Some d
  | None => None
  end.

(** [d.get("steps", [])], [d.get("completed_steps", [])]: every document this
    program stores holds a list under these fields. *)
Definition get_steps (d : document) : list RoadmapStep :=
  match d !! "steps" with
  | Some (VSteps l) => l
  | _ => []
  end.

Definition get_ints (d : document) (k : string) : list Z :=
  match d !! k with
  | Some (VInts l) => l
  | _ => []
  end.

(** [v in l] for a list of strings [l] and the result [v] of a [.get]. *)
Definition value_in (v : option value) (l : list string) : bool :=
  match v with
  | Some (VStr s) => bool_decide (s ∈ l)
  | _ => false
  end.

Definition get_scores (d : document) : gmap string Z :=
  match d !! "scores" with
  | Some (VScores m) => m
  | _ => ∅
  end.

(** ** Seed roadmaps *)

Definition mkq (text : string) (opts : list string) (answer : Z) : Question :=
  {| q := text; options := opts; answerIndex := Some answer |}.

Definition SEED_ROADMAPS : list (string * list RoadmapStep) :=
  [ ("frontend",
      [ {| order := 1; title := "HTML & CSS Basics";
           description := "Learn HTML structure and CSS styling.";
           videos := ["https://www.youtube.com/watch?v=G3e-cpL7ofc";
                      "https://www.youtube.com/watch?v=mU6anWqZJcc"];
           questions :=
             [ mkq "What tag defines a hyperlink?" ["<a>"; "<link>"; "<href>"] 0;
               mkq "Which property changes text color?" ["font"; "color"; "text"] 1 ] |};
        {| order := 2; title := "JavaScript Fundamentals";
           description := "Variables, functions, DOM.";
           videos := ["https://www.youtube.com/watch?v=PkZNo7MFNFg"];
           questions :=
             [ mkq "Which declares a block-scoped variable?" ["var"; "let"; "function"] 1;
               mkq "DOM stands for?"
                 ["Document Object Model"; "Data Object Method"; "Display Object Map"] 0 ] |};
        {| order := 3; title := "React Basics";
           description := "Components, state, props.";
           videos := ["https://www.youtube.com/watch?v=bMknfKXIFA8"];
           questions :=
             [ mkq "State is used to?"
                 ["Style components"; "Manage dynamic data"; "Route pages"] 1 ] |} ]);
    ("backend",
      [ {| order := 1; title := "Programming & Git";
           description := "Language basics and version control.";
           videos := ["https://www.youtube.com/watch?v=SWYqp7iY_Tc"];
           questions :=
             [ mkq "git commit does?" ["Send to remote"; "Save snapshot"; "Create branch"] 1 ] |};
        {| order := 2; title := "Node.js & Express";
           description := "APIs, routing, middleware.";
           videos := ["https://www.youtube.com/watch?v=L72fhGm1tfE"];
           questions := [ mkq "Express is?" ["DB"; "Framework"; "Language"] 1 ] |};
        {| order := 3; title := "Databases";
           description := "SQL/NoSQL basics.";
           videos := ["https://www.youtube.com/watch?v=E-1xI85Zog8"];
           questions := [ mkq "NoSQL example?" ["MongoDB"; "MySQL"; "PostgreSQL"] 0 ] |} ]);
    ("ai-ml",
      [ {| order := 1; title := "Python & Numpy";
           description := "Python essentials, arrays.";
           videos := ["https://www.youtube.com/watch?v=_uQrJ0TkZlc"];
           questions := [ mkq "Numpy is used for?" ["Web"; "Arrays & math"; "OS"] 1 ] |};
        {| order := 2; title := "Pandas & Data";
           description := "Dataframes, cleaning.";
           videos := ["https://www.youtube.com/watch?v=vmEHCJofslg"];
           questions := [ mkq "Pandas DataFrame is?" ["2D table"; "1D list"; "3D cube"] 0 ] |};
        {| order := 3; title := "ML Basics";
           description := "Supervised vs unsupervised.";
           videos := ["https://www.youtube.com/watch?v=Gv9_4yMHFhI"];
           questions := [ mkq "Supervised uses?" ["Labels"; "No data"; "Only images"] 0 ] |} ]) ].

Definition roadmap_doc (domain : string) (steps : list RoadmapStep) : document :=
  <["domain" := VStr domain]> (<["steps" := VSteps steps]> ∅).

(** One turn of the loop of [ensure_roadmaps_seeded]. *)
Definition seed_one (st : Store) (item : string * list RoadmapStep) : Store :=
  let existing := find_one (db_roadmap st) {["domain" := VStr item.1]} in
  if negb (truthy_doc existing) then
    set_roadmap (insert_one (db_roadmap st) (db_next_oid st) (roadmap_doc item.1 item.2)).1.1
      (S (db_next_oid st)) st
  else st.

Definition seed_from (seeds : list (string * list RoadmapStep)) (st : Store) : Store :=
  foldl seed_one st seeds.

(** [db] is [None] when no database is configured. *)
Definition ensure_roadmaps_seeded (db : option Store) : option Store :=
  match db with
  | None => None
  | Some st => Some (seed_from SEED_ROADMAPS st)
  end.

(** ** [main.py]: auth and profile *)

Definition http (code : Z) (msg : string) : HTTPException :=
  {| status_code := code; detail := msg |}.

Definition insert_user (d : document) : Handler value := fun st =>
  let r := insert_one (db_user st) (db_next_oid st) d in
  (set_user r.1.1 (S (db_next_oid st)) st, Return r.2).

Definition register `{Externals} (user : User.t) : Handler (option document) :=
  if negb (bool_decide (User.qualification user ∈ ALLOWED_QUALIFICATIONS)) then
    raise (http 403 "Only IT-related students can register")
  else
    st ← get_db;
    if truthy_doc (find_one (db_user st) {["email" := VStr (User.email user)]}) then
      raise (http 400 "Email already registered")
    else
      let doc := User_model_dump user in
      let doc := <["password_hash" := VStr (hash_password (User.password_hash user))]>
                   (delete "password_hash" doc) in
      user_id ← insert_user doc;
      st ← get_db;
      let saved := delete "password_hash" <$> find_one (db_user st) {["_id" := user_id]} in
      mret (to_str_id saved).

Definition login `{Externals} (payload : LoginRequest.t) : Handler (option document) :=
  st ← get_db;
  let user := find_one (db_user st) {["email" := VStr (LoginRequest.email payload)]} in
  if negb (truthy_doc user) then raise (http 401 "Invalid credentials")
  else
    let user := default ∅ user in
    if negb (bool_decide (user !! "password_hash" =
                          Some (VStr (hash_password (LoginRequest.password payload))))) then
      raise (http 401 "Invalid credentials")
    else mret (to_str_id (Some (delete "password_hash" user))).

Definition get_profile `{Externals} (user_id : string) : Handler (option document) :=
  match ObjectId_parse user_id with
  | None => raise (http 400 "Invalid user id")
  | Some _id =>
      st ← get_db;
      let user := delete "password_hash" <$> find_one (db_user st) {["_id" := VOid _id]} in
      if negb (truthy_doc user) then raise (http 404 "User not found")
      else mret (to_str_id user)
  end.

Definition update_profile `{Externals} (user_id : string) (payload : UpdateProfile.t)
  : Handler (option document) :=
  match ObjectId_parse user_id with
  | None => raise (http 400 "Invalid user id")
  | Some _id =>
      let updates := UpdateProfile_model_dump payload in
      if negb (value_in (updates !! "qualification") ALLOWED_QUALIFICATIONS) then
        raise (http 400 "Invalid qualification")
      else
        st ← get_db;
        put_db (set_user (update_one (db_user st) (db_next_oid st) {["_id" := VOid _id]}
                            (mongo_set updates) false) (db_next_oid st) st);;
        st ← get_db;
        let user := delete "password_hash" <$> find_one (db_user st) {["_id" := VOid _id]} in
        mret (to_str_id user)
  end.

(** ** [main.py]: assessments and progress *)

Definition insert_progress (d : document) : Handler document := fun st =>
  let r := insert_one (db_progress st) (db_next_oid st) d in
  (set_progress r.1.1 (S (db_next_oid st)) st, Return r.1.2).

Definition insert_assessmentresult (d : document) : Handler document := fun st =>
  let r := insert_one (db_assessmentresult st) (db_next_oid st) d in
  (set_assessmentresult r.1.1 (S (db_next_oid st)) st, Return r.1.2).

Definition progress_filter (user_id domain : string) : document :=
  <["user_id" := VStr user_id]> (<["domain" := VStr domain]> ∅).

(** The progress document of the pair, created empty when absent or falsy:
    the first lines of [get_progress] and the gatekeeping lines of
    [submit_assessment]. *)
Definition find_or_create_progress (user_id domain : string) : Handler document :=
  st ← get_db;
  let prog := find_one (db_progress st) (progress_filter user_id domain) in
  if negb (truthy_doc prog) then
    insert_progress (Progress_model_dump user_id domain [] ∅)
  else mret (default ∅ prog).

Definition get_progress `{Externals} (user_id domain : string) : Handler (option document) :=
  prog ← find_or_create_progress user_id domain;
  mret (to_str_id (Some prog)).

(** [enumerate(l)] *)
Definition enumerate {A} (l : list A) : list (nat * A) := imap pair l.

(** [sum(1 for i, ans in enumerate(answers)
         if i < len(correct_indexes) and ans == correct_indexes[i])] *)
Definition score_of (correct_indexes : list (option Z)) (answers : list Z) : Z :=
  Z.of_nat (length (List.filter
    (fun p => (p.1 <? length correct_indexes)%nat &&
              bool_decide (correct_indexes !! p.1 = Some (Some p.2)))
    (enumerate answers))).

(** [score >= max(1, int(0.6 * total))]; [None] when the conversion raises. *)
Definition passed_of (score total : Z) : option bool :=
  match PyFloat.int_0_6_times total with
  | Some t => Some (Z.max 1 t <=? score)
  | None => None
  end.

(** The gatekeeping condition that raises 403. *)
Definition gate_closed (prog : document) (step_order : Z) : bool :=
  (1 <? step_order) && negb (bool_decide (step_order - 1 ∈ get_ints prog "completed_steps")).

(** The update of a passing submission:
    [{"$addToSet": {"completed_steps": step_order},
      "$set": {f"scores.{step_order}": score}}]. *)
Definition pass_update (step_order score : Z) (d : document) : document :=
  mongo_set_nested "scores" (pretty step_order) score
    (mongo_addToSet "completed_steps" step_order d).

Definition record_pass (user_id domain : string) (step_order score : Z) : Handler unit :=
  st ← get_db;
  put_db (set_progress
            (update_one (db_progress st) (db_next_oid st) (progress_filter user_id domain)
               (pass_update step_order score) true)
            (S (db_next_oid st)) st).

Definition submit_assessment (payload : SubmitAssessment.t) : Handler (document * string) :=
  st ← get_db;
  let rm := find_one (db_roadmap st) {["domain" := VStr (SubmitAssessment.domain payload)]} in
  if negb (truthy_doc rm) then raise (http 404 "Roadmap not found")
  else
    let steps := get_steps (default ∅ rm) in
    match find (fun s => bool_decide (order s = SubmitAssessment.step_order payload)) steps with
    | None => raise (http 404 "Step not found")
    | Some step =>
        prog ← find_or_create_progress (SubmitAssessment.user_id payload)
                 (SubmitAssessment.domain payload);
        if gate_closed prog (SubmitAssessment.step_order payload) then
          raise (http 403 "Complete previous step first")
        else
          let correct_indexes := answerIndex <$> questions step in
          let score := score_of correct_indexes (SubmitAssessment.answers payload) in
          let total := Z.of_nat (length correct_indexes) in
          match passed_of score total with
          | None => raise (http 500 "Internal Server Error")
          | Some passed =>
              result ← insert_assessmentresult
                         (AssessmentResult_model_dump (SubmitAssessment.user_id payload)
                            (SubmitAssessment.domain payload)
                            (SubmitAssessment.step_order payload) score total passed);
              (if passed then
                 record_pass (SubmitAssessment.user_id payload)
                   (SubmitAssessment.domain payload)
                   (SubmitAssessment.step_order payload) score
               else mret tt);;
              mret (result, if passed then "Passed" else "Failed")
          end
    end.

(** ** The specification's vocabulary *)

(** The error kinds of the specification, and the status code each is
    surfaced with (its table of status codes: 400 validation, 401 bad
    credentials, 403 qualification or step gate, 404 not found). *)
Inductive ErrorKind : Type :=
  | ValidationError | AuthError | ForbiddenError | NotFoundError | InternalError.

#[global] Instance ErrorKind_eq_dec : EqDecision ErrorKind.
Proof. solve_decision. Defined.

Definition spec_error_kind (e : HTTPException) : ErrorKind :=
  if status_code e =? 400 then ValidationError
  else if status_code e =? 401 then AuthError
  else if status_code e =? 403 then ForbiddenError
  else if status_code e =? 404 then NotFoundError
  else InternalError.

(** The score in the specification's words: the number of positions [i]
    below the number of questions at which a submitted answer exists and
    equals the correct index. *)
Definition spec_score (correct_indexes : list (option Z)) (answers : list Z) : Z :=
  Z.of_nat (length (List.filter
    (fun i => match answers !! i, correct_indexes !! i with
              | Some a, Some (Some c) => a =? c
              | _, _ => false
              end)
    (seq 0 (length correct_indexes)))).

(** Matching answers counted position by position. *)
Fixpoint count_match (cs : list (option Z)) (ans : list Z) : nat :=
  match cs, ans with
  | c :: cs', a :: ans' => (if bool_decide (c = Some a) then 1 else 0) + count_match cs' ans'
  | _, _ => 0
  end.

(** The pass mark in the specification's words, in exact rational
    arithmetic: [max(1, floor(0.6 * total))]. *)
Definition spec_pass_mark (total : Z) : Z :=
  Z.max 1 (Qfloor (Qmult (Qmake 6 10) (inject_Z total))).

(** The gate in the specification's words: a step is unlocked when its order
    is 1 or the preceding order is completed. *)
Definition is_step_unlocked (completed_steps : list Z) (step_order : Z) : Prop :=
  step_order = 1 \/ step_order - 1 ∈ completed_steps.

(** The empty progress document as stored under a generated id. *)
Definition fresh_progress (user_id domain : string) (oid : ObjectId) : document :=
  <["_id" := VOid oid]> (Progress_model_dump user_id domain [] ∅).

(** The store and the document [find_or_create_progress] leaves. *)
Definition progress_of (st : Store) (user_id domain : string) : Store * document :=
  match find_one (db_progress st) (progress_filter user_id domain) with
  | Some p => (st, p)
  | None =>
      (set_progress (db_progress st ++ [fresh_progress user_id domain (db_next_oid st)])
         (S (db_next_oid st)) st,
       fresh_progress user_id domain (db_next_oid st))
  end.

(** The result document of a grading as stored under a generated id. *)
Definition result_doc (payload : SubmitAssessment.t) (score total : Z) (passed : bool)
    (oid : ObjectId) : document :=
  <["_id" := VOid oid]>
    (AssessmentResult_model_dump (SubmitAssessment.user_id payload)
       (SubmitAssessment.domain payload) (SubmitAssessment.step_order payload)
       score total passed).

(** The store a graded submission leaves, given the store [st1] after the
    gatekeeping lines. *)
Definition graded_store (payload : SubmitAssessment.t) (st1 : Store) (score total : Z)
    (passed : bool) : Store :=
  let result := result_doc payload score total passed (db_next_oid st1) in
  let st2 := set_assessmentresult (db_assessmentresult st1 ++ [result])
               (S (db_next_oid st1)) st1 in
  if passed then
    set_progress
      (update_one (db_progress st2) (db_next_oid st2)
         (progress_filter (SubmitAssessment.user_id payload) (SubmitAssessment.domain payload))
         (pass_update (SubmitAssessment.step_order payload) score) true)
      (S (db_next_oid st2)) st2
  else st2.

(** The completed steps and the scores a user holds in a domain. *)
Definition completed_steps_of (st : Store) (user_id domain : string) : list Z :=
  match find_one (db_progress st) (progress_filter user_id domain) with
  | Some d => get_ints d "completed_steps"
  | None => []
  end.

Definition scores_of (st : Store) (user_id domain : string) : gmap string Z :=
  match find_one (db_progress st) (progress_filter user_id domain) with
  | Some d => get_scores d
  | None => ∅
  end.

(** A stored user carries the email and the digest of the password. *)
Definition credentials_match `{Externals} (st : Store) (email password : string) : Prop :=
  exists u, u ∈ db_user st /\ u !! "email" = Some (VStr email) /\
            u !! "password_hash" = Some (VStr (hash_password password)).

(** The document [register] stores for a user, with the [_id] it receives. *)
Definition registered_doc `{Externals} (user : User.t) (oid : ObjectId) : document :=
  <["_id" := VOid oid]>
    (<["password_hash" := VStr (hash_password (User.password_hash user))]>
       (delete "password_hash" (User_model_dump user))).

(** A response carries no password digest. *)
Definition omits_digest (resp : option document) : Prop :=
  forall d, resp = Some d -> d !! "password_hash" = None.

(** ** Invariants of the stores the handlers produce *)

(** Every stored [_id] was generated before the next one. *)
Definition id_below (n : ObjectId) (d : document) : bool :=
  match d !! "_id" with
  | Some (VOid o) => bool_decide (o < n)%nat
  | _ => true
  end.

Definition ids_below (n : ObjectId) (coll : collection) : Prop :=
  Forall (fun d => id_below n d) coll.

(** The orders of the steps of every roadmap start at 1. *)
Definition orders_from_one (st : Store) : Prop :=
  Forall (fun d => Forall (fun s => 1 <= order s) (get_steps d)) (db_roadmap st).

(** No two users share an email. *)
Definition unique_emails (coll : collection) : Prop :=
  NoDup (omap (fun d : document => d !! "email") coll).

(** A progress document holds its completed steps as a list without
    repetition. *)
Definition progress_ok (d : document) : bool :=
  match d !! "completed_steps" with
  | Some (VInts l) => bool_decide (NoDup l)
  | _ => false
  end.

Definition progress_wf (coll : collection) : Prop := Forall (fun d => progress_ok d) coll.

(** The invariant of the stores the handlers produce from the empty store. *)
Definition store_inv (st : Store) : Prop :=
  unique_emails (db_user st) /\ ids_below (db_next_oid st) (db_user st) /\
  progress_wf (db_progress st) /\ orders_from_one st.

(** ** Sample data *)

Definition sample_externals : Externals :=
  {| sha256_hexdigest := fun s => "sha256:" +:+ s;
     ObjectId_parse := fun s => if bool_decide (s = "0") then Some 0%nat
                                else if bool_decide (s = "7") then Some 7%nat else None;
     ObjectId_str := fun o => pretty o;
     container_str := fun _ => "[...]" |}.

Definition sample_user : User.t :=
  {| User.first_name := "Asha"; User.last_name := "Rao"; User.email := "asha@example.com";
     User.phone := "9876543210"; User.qualification := "BCA";
     User.password_hash := "secret1"; User.role := "student"; User.avatar_url := None |}.

Definition sample_update : UpdateProfile.t :=
  {| UpdateProfile.first_name := "Asha"; UpdateProfile.last_name := "Rao";
     UpdateProfile.phone := "9876543210"; UpdateProfile.qualification := "MCA";
     UpdateProfile.avatar_url := None |}.

Definition sample_login : LoginRequest.t :=
  {| LoginRequest.email := "asha@example.com"; LoginRequest.password := "secret1" |}.

Definition sample_outsider : User.t :=
  {| User.first_name := "Ravi"; User.last_name := "Shah"; User.email := "ravi@example.com";
     User.phone := "9123456780"; User.qualification := "MBA";
     User.password_hash := "secret2"; User.role := "student"; User.avatar_url := None |}.

Definition sample_user2 : User.t :=
  {| User.first_name := "Dev"; User.last_name := "Nair"; User.email := "dev@example.com";
     User.phone := "9000000001"; User.qualification := "B.Tech IT";
     User.password_hash := "secret3"; User.role := "student";
     User.avatar_url := Some "https://example.com/dev.png" |}.

Definition seeded_store : Store := seed_from SEED_ROADMAPS empty_store.

Definition registered_store : Store :=
  (@register sample_externals sample_user seeded_store).1.

Definition sample_submit_pass : SubmitAssessment.t :=
  {| SubmitAssessment.user_id := "3"; SubmitAssessment.domain := "frontend";
     SubmitAssessment.step_order := 1; SubmitAssessment.answers := [0; 1; 5] |}.

Definition sample_submit_locked : SubmitAssessment.t :=
  {| SubmitAssessment.user_id := "3"; SubmitAssessment.domain := "frontend";
     SubmitAssessment.step_order := 2; SubmitAssessment.answers := [1; 0] |}.

Definition sample_submit_fail : SubmitAssessment.t :=
  {| SubmitAssessment.user_id := "3"; SubmitAssessment.domain := "frontend";
     SubmitAssessment.step_order := 1; SubmitAssessment.answers := [1] |}.

Definition sample_roadmap : document :=
  default ∅ (find_one (db_roadmap registered_store) {["domain" := VStr "frontend"]}).

Definition sample_step (n : Z) : RoadmapStep :=
  default {| order := 0; title := ""; description := ""; videos := []; questions := [] |}
    (find (fun s => bool_decide (order s = n)) (get_steps sample_roadmap)).

(** The first passing submission of the sample user, and the store it
    leaves. *)
Definition sample_graded : Store * outcome (document * string) :=
  submit_assessment sample_submit_pass registered_store.

Definition sample_result : document :=
  match sample_graded.2 with
  | Return r => r.1
  | Raise _ => ∅
  end.

Definition sample_message : string :=
  match sample_graded.2 with
  | Return r => r.2
  | Raise _ => ""
  end.

(** ** [main.py]: the remaining handlers *)

Module ChangePasswordRequest.
Record t : Type := { user_id : string; old_password : string; new_password : string }.
End ChangePasswordRequest.

Definition change_password `{Externals} (payload : ChangePasswordRequest.t) : Handler string :=
  match ObjectId_parse (ChangePasswordRequest.user_id payload) with
  | None => raise (http 400 "Invalid user id")
  | Some _id =>
      st ← get_db;
      let user := find_one (db_user st) {["_id" := VOid _id]} in
      if negb (truthy_doc user) then raise (http 404 "User not found")
      else
        let user := default ∅ user in
        if negb (bool_decide (user !! "password_hash" =
                   Some (VStr (hash_password (ChangePasswordRequest.old_password payload)))))
        then raise (http 401 "Old password incorrect")
        else
          put_db (set_user
                    (update_one (db_user st) (db_next_oid st) {["_id" := VOid _id]}
                       (mongo_set {["password_hash" :=
                          VStr (hash_password (ChangePasswordRequest.new_password payload))]})
                       false)
                    (db_next_oid st) st);;
          mret "Password updated"
  end.

(** [[d["domain"] for d in db.roadmap.find({}, {"domain": 1, "_id": 0})]]: the
    subscript raises on a document without the field. *)
Definition list_domains : Handler (list value) :=
  st ← get_db;
  match mapM (fun d : document => d !! "domain") (db_roadmap st) with
  | Some domains => mret domains
  | None => raise (http 500 "Internal Server Error")
  end.

Definition get_roadmap (domain : string) : Handler (string * list RoadmapStep) :=
  st ← get_db;
  let rm := find_one (db_roadmap st) {["domain" := VStr domain]} in
  if negb (truthy_doc rm) then raise (http 404 "Roadmap not found")
  else mret (domain, get_steps (default ∅ rm)).

(** [list(coll.find(flt))]: every match, in insertion order. *)
Definition find_all (coll : collection) (flt : document) : collection :=
  List.filter (matches flt) coll.

(** [to_str_id(d)] for a dict [d], which it updates in place. *)
Definition to_str_id_doc `{Externals} (d : document) : document :=
  default d (to_str_id (Some d)).

Definition dashboard `{Externals} (user_id : string) : Handler (collection * collection) :=
  st ← get_db;
  let results := find_all (db_assessmentresult st) {["user_id" := VStr user_id]} in
  let results := to_str_id_doc <$> results in
  let progresses := find_all (db_progress st) {["user_id" := VStr user_id]} in
  let progresses := to_str_id_doc <$> progresses in
  mret (results, progresses).

(** ** More invariants *)

(** A progress document holds its scores as a map. *)
Definition scores_ok (d : document) : bool :=
  match d !! "scores" with
  | Some (VScores _) => true
  | _ => false
  end.

Definition scores_wf (coll : collection) : Prop := Forall (fun d => scores_ok d) coll.

(** Every roadmap document names its domain. *)
Definition roadmaps_named (st : Store) : Prop :=
  Forall (fun d : document => is_Some (d !! "domain")) (db_roadmap st).

(** A call of one of the handlers on the main collections. *)
Inductive Request : Type :=
  | ReqRegister (user : User.t)
  | ReqLogin (payload : LoginRequest.t)
  | ReqChangePassword (payload : ChangePasswordRequest.t)
  | ReqGetProfile (user_id : string)
  | ReqUpdateProfile (user_id : string) (payload : UpdateProfile.t)
  | ReqListDomains
  | ReqGetRoadmap (domain : string)
  | ReqGetProgress (user_id domain : string)
  | ReqSubmitAssessment (payload : SubmitAssessment.t)
  | ReqDashboard (user_id : string).

(** The store a call leaves, whether it returns or raises. *)
Definition serve `{Externals} (req : Request) (st : Store) : Store :=
  match req with
  | ReqRegister user => (register user st).1
  | ReqLogin payload => (login payload st).1
  | ReqChangePassword payload => (change_password payload st).1
  | ReqGetProfile user_id => (get_profile user_id st).1
  | ReqUpdateProfile user_id payload => (update_profile user_id payload st).1
  | ReqListDomains => (list_domains st).1
  | ReqGetRoadmap domain => (get_roadmap domain st).1
  | ReqGetProgress user_id domain => (get_progress user_id domain st).1
  | ReqSubmitAssessment payload => (submit_assessment payload st).1
  | ReqDashboard user_id => (dashboard user_id st).1
  end.

(** The stores the program produces: seeding at start-up, then calls. *)
Inductive reachable `{Externals} : Store -> Prop :=
  | reach_empty : reachable empty_store
  | reach_seeded st : reachable st -> reachable (seed_from SEED_ROADMAPS st)
  | reach_serve st req : reachable st -> reachable (serve req st).

(** The invariant with the shape of scores and the names of roadmaps. *)
Definition store_inv_full (st : Store) : Prop :=
  store_inv st /\ scores_wf (db_progress st) /\ roadmaps_named st.

(** ** [main.py]: resumes *)

Module Resume.
(** [schemas.Resume] *)
Record t : Type := {
  user_id : string;
  summary : string;
  skills : list string;
  education : list (gmap string string);
  experience : list (gmap string string);
  projects : list (gmap string string);
  contact : gmap string string
}.
End Resume.

(** [db.resume] and its two handlers.  A resume holds lists and dictionaries
    of strings, which the documents of the other collections do not; the
    operations of pymongo are those of above, on these documents. *)
Module ResumeDb.

Inductive value : Type :=
  | VStr (s : string)
  | VOid (o : ObjectId)
  | VStrs (l : list string)
  | VDicts (l : list (gmap string string))
  | VDict (m : gmap string string).

#[global] Instance resume_value_eq_dec : EqDecision value.
Proof. solve_decision. Defined.

Abbreviation document := (gmap string value).
Abbreviation collection := (list (gmap string value)).

(** The collection, and the rank of the next [ObjectId] generated for it. *)
Record Store : Type := {
  db_resume : collection;
  db_next_oid : ObjectId
}.

Definition Handler (A : Type) : Type := Store -> Store * outcome A.

(** [str(v)] on a list or a dictionary. *)
Class PyRepr : Type := { py_repr : value -> string }.

Definition matches (flt d : document) : bool := bool_decide (flt ⊆ d).

Definition find_one (coll : collection) (flt : document) : option document :=
  find (matches flt) coll.

Definition insert_one (coll : collection) (fresh : ObjectId) (d : document)
  : collection * document * value :=
  match d !! "_id" with
  | Some v => (coll ++ [d], d, v)
  | None => (coll ++ [<["_id" := VOid fresh]> d], <["_id" := VOid fresh]> d, VOid fresh)
  end.

Fixpoint update_first (p : document -> bool) (f : document -> document)
    (coll : collection) : option collection :=
  match coll with
  | [] => None
  | d :: rest =>
      if p d then Some (f d :: rest)
      else match update_first p f rest with
           | Some rest' => Some (d :: rest')
           | None => None
           end
  end.

(** [coll.update_one(flt, upd)], without upsert. *)
Definition update_one (coll : collection) (flt : document) (upd : document -> document)
  : collection :=
  default coll (update_first (matches flt) upd coll).

Definition mongo_set (fields : document) (d : document) : document := fields ∪ d.

Definition truthy_doc (d : option document) : bool :=
  match d with
  | Some d => negb (bool_decide (d = ∅))
  | None => false
  end.

Definition truthy (v : option value) : bool :=
  match v with
  | None => false
  | Some (VStr s) => negb (bool_decide (s = ""))
  | Some (VOid _) => true
  | Some (VStrs l) => negb (bool_decide (l = []))
  | Some (VDicts l) => negb (bool_decide (l = []))
  | Some (VDict m) => negb (bool_decide (m = ∅))
  end.

Definition py_str `{Externals} `{PyRepr} (v : value) : string :=
  match v with
  | VOid o => ObjectId_str o
  | VStr s => s
  | _ => py_repr v
  end.

Definition to_str_id `{Externals} `{PyRepr} (doc : option document) : option document :=
  match doc with
  | Some d =>
      if truthy_doc (Some d) && truthy (d !! "_id") then
        match d !! "_id" with
        | Some v => Some (<["id" := VStr (py_str v)]> (delete "_id" d))
        | None => Some d
        end
      else Some d
  | None => None
  end.

(** [payload.model_dump()] *)
Definition Resume_model_dump (p : Resume.t) : document :=
  <["user_id" := VStr (Resume.user_id p)]>
  (<["summary" := VStr (Resume.summary p)]>
  (<["skills" := VStrs (Resume.skills p)]>
  (<["education" := VDicts (Resume.education p)]>
  (<["experience" := VDicts (Resume.experience p)]>
  (<["projects" := VDicts (Resume.projects p)]>
  (<["contact" := VDict (Resume.contact p)]> ∅)))))).

(** [existing["_id"]] raises [KeyError] on a document without the key, which
    ends the request in 500. *)
Definition upsert_resume `{Externals} `{PyRepr} (payload : Resume.t)
  : Handler (option document) := fun st =>
  let existing := find_one (db_resume st) {["user_id" := VStr (Resume.user_id payload)]} in
  let data := Resume_model_dump payload in
  if truthy_doc existing then
    match default ∅ existing !! "_id" with
    | None => (st, Raise (http 500 "Internal Server Error"))
    | Some _id =>
        let coll := update_one (db_resume st) {["_id" := _id]} (mongo_set data) in
        let stored := find_one coll {["_id" := _id]} in
        ({| db_resume := coll; db_next_oid := db_next_oid st |}, Return (to_str_id stored))
    end
  else
    let r := insert_one (db_resume st) (db_next_oid st) data in
    let stored := find_one r.1.1 {["_id" := r.2]} in
    ({| db_resume := r.1.1; db_next_oid := S (db_next_oid st) |}, Return (to_str_id stored)).

Definition get_resume `{Externals} `{PyRepr} (user_id : string)
  : Handler (option document) := fun st =>
  let res := find_one (db_resume st) {["user_id" := VStr user_id]} in
  if negb (truthy_doc res) then (st, Raise (http 404 "Resume not found"))
  else (st, Return (to_str_id res)).

(** Every stored resume carries a generated [_id], no two the same, and no
    two resumes belong to one user. *)
Definition id_below (n : ObjectId) (d : document) : Prop :=
  exists o, d !! "_id" = Some (VOid o) /\ (o < n)%nat.

Definition resume_inv (st : Store) : Prop :=
  Forall (id_below (db_next_oid st)) (db_resume st) /\
  NoDup ((fun d : document => d !! "_id") <$> db_resume st) /\
  NoDup (omap (fun d : document => d !! "user_id") (db_resume st)).

Definition empty_store : Store := {| db_resume := []; db_next_oid := 0%nat |}.

Definition sample_repr : PyRepr := {| py_repr := fun _ => "[...]" |}.

Definition sample_resume : Resume.t :=
  {| Resume.user_id := "0";
     Resume.summary := "Backend developer with two years of experience.";
     Resume.skills := ["Python"; "MongoDB"];
     Resume.education := [{["degree" := "BCA"]}];
     Resume.experience := [];
     Resume.projects := [{["name" := "Lernify"]}];
     Resume.contact := {["email" := "asha@example.com"]} |}.

Definition sample_resume2 : Resume.t :=
  {| Resume.user_id := "0";
     Resume.summary := "Backend developer with three years of experience.";
     Resume.skills := ["Python"; "MongoDB"; "FastAPI"];
     Resume.education := [{["degree" := "BCA"]}];
     Resume.experience := [{["role" := "Developer"]}];
     Resume.projects := [{["name" := "Lernify"]}];
     Resume.contact := {["email" := "asha@example.com"]} |}.

Definition sample_store : Store :=
  (@upsert_resume sample_externals sample_repr sample_resume empty_store).1.

End ResumeDb.

(** ** More sample data *)

(** What a graded submission returned. *)
Definition graded_result (r : Store * outcome (document * string)) : document :=
  match r.2 with
  | Return x => x.1
  | Raise _ => ∅
  end.

Definition graded_message (r : Store * outcome (document * string)) : string :=
  match r.2 with
  | Return x => x.2
  | Raise _ => ""
  end.

Definition response_of (r : Store * outcome (option document)) : option document :=
  match r.2 with
  | Return x => x
  | Raise _ => None
  end.

(** The sample user registered in the seeded and in the empty store. *)
Definition sample_response : option document :=
  response_of (@register sample_externals sample_user seeded_store).

Definition sample_first_store : Store :=
  (@register sample_externals sample_user empty_store).1.

Definition sample_first_response : document :=
  default ∅ (response_of (@register sample_externals sample_user empty_store)).

Definition sample_first_user : document :=
  default ∅ (find_one (db_user sample_first_store) {["_id" := VOid 0%nat]}).

Definition sample_change : ChangePasswordRequest.t :=
  {| ChangePasswordRequest.user_id := "0";
     ChangePasswordRequest.old_password := "secret1";
     ChangePasswordRequest.new_password := "secret9" |}.

Definition sample_seed : string * list RoadmapStep :=
  default ("", []) (SEED_ROADMAPS !! 1%nat).

Definition sample_domains : list value := [VStr "frontend"; VStr "backend"; VStr "ai-ml"].

Definition sample_submit_empty : SubmitAssessment.t :=
  {| SubmitAssessment.user_id := "3"; SubmitAssessment.domain := "frontend";
     SubmitAssessment.step_order := 1; SubmitAssessment.answers := [] |}.

Definition sample_submit_all : SubmitAssessment.t :=
  {| SubmitAssessment.user_id := "3"; SubmitAssessment.domain := "frontend";
     SubmitAssessment.step_order := 1; SubmitAssessment.answers := [0; 1] |}.

(** The first step of the backend roadmap has one question, with correct
    index 1. *)
Definition sample_backend : document :=
  default ∅ (find_one (db_roadmap registered_store) {["domain" := VStr "backend"]}).

Definition sample_backend_step : RoadmapStep :=
  default {| order := 0; title := ""; description := ""; videos := []; questions := [] |}
    (find (fun s => bool_decide (order s = 1)) (get_steps sample_backend)).

Definition sample_submit_one_right : SubmitAssessment.t :=
  {| SubmitAssessment.user_id := "3"; SubmitAssessment.domain := "backend";
     SubmitAssessment.step_order := 1; SubmitAssessment.answers := [1] |}.

Definition sample_submit_one_wrong : SubmitAssessment.t :=
  {| SubmitAssessment.user_id := "3"; SubmitAssessment.domain := "backend";
     SubmitAssessment.step_order := 1; SubmitAssessment.answers := [0] |}.

(** * Properties *)

(** ** Binary64 arithmetic of the pass mark *)

Section PyFloatFacts.
Import PyFloat.

Lemma digits2_pos_bounds (p : positive) :
  2 ^ (Zpos (digits2_pos p) - 1) <= Zpos p < 2 ^ Zpos (digits2_pos p).
Proof.
  induction p as [p IH|p IH|]; simpl digits2_pos.
  - rewrite Pos2Z.inj_succ.
    replace (Z.succ (Zpos (digits2_pos p)) - 1) with (Z.succ (Zpos (digits2_pos p) - 1)) by lia.
    rewrite !Z.pow_succ_r by lia. lia.
  - rewrite Pos2Z.inj_succ.
    replace (Z.succ (Zpos (digits2_pos p)) - 1) with (Z.succ (Zpos (digits2_pos p) - 1)) by lia.
    rewrite !Z.pow_succ_r by lia. lia.
  - simpl. lia.
Qed.

Lemma digits2_pos_unique (p : positive) (k : Z) :
  2 ^ (k - 1) <= Zpos p < 2 ^ k -> Zpos (digits2_pos p) = k.
Proof.
  intros [Hlo Hhi]. pose proof (digits2_pos_bounds p) as [Glo Ghi].
  set (d := Zpos (digits2_pos p)) in *.
  assert (0 < d) by (unfold d; lia).
  assert (0 < k).
  { destruct (Z.ltb_spec 0 k); [done|]. rewrite Z.pow_neg_r in Hlo by lia.
    assert (2 ^ k <= 2 ^ 0) by (apply Z.pow_le_mono_r; lia). simpl in *. lia. }
  destruct (Z.lt_trichotomy d k) as [Hlt|[->|Hgt]]; [|done|].
  - assert (2 ^ d <= 2 ^ (k - 1)) by (apply Z.pow_le_mono_r; lia). lia.
  - assert (2 ^ k <= 2 ^ (d - 1)) by (apply Z.pow_le_mono_r; lia). lia.
Qed.

Lemma iter_pos_nat {A} (f : A -> A) (p : positive) (x : A) :
  SpecFloat.iter_pos f p x = Nat.iter (Pos.to_nat p) f x.
Proof.
  revert x. induction p as [p IH|p IH|]; intros x; simpl SpecFloat.iter_pos.
  - rewrite !IH, Pos2Nat.inj_xI.
    replace (S (2 * Pos.to_nat p))%nat with (Pos.to_nat p + (Pos.to_nat p + 1))%nat by lia.
    rewrite !Nat.iter_add. done.
  - rewrite !IH, Pos2Nat.inj_xO.
    replace (2 * Pos.to_nat p)%nat with (Pos.to_nat p + Pos.to_nat p)%nat by lia.
    rewrite Nat.iter_add. done.
  - done.
Qed.

Lemma shr_1_nonneg (m : Z) (r s : bool) :
  0 <= m ->
  shr_1 {| shr_m := m; shr_r := r; shr_s := s |} =
  {| shr_m := m / 2; shr_r := Z.odd m; shr_s := r || s |}.
Proof.
  intros Hm. rewrite <- Z.div2_div.
  destruct m as [|[p|p|]|p]; try done; lia.
Qed.

Lemma shr_1_iter (M : Z) (j : nat) :
  0 <= M ->
  Nat.iter (S j) shr_1 {| shr_m := M; shr_r := false; shr_s := false |} =
  shr_closed M (S j).
Proof.
  intros HM. induction j as [|j IH].
  - cbv [Nat.iter nat_rect]. rewrite shr_1_nonneg by done. unfold shr_closed.
    change (Z.of_nat 1 - 1) with 0. change (2 ^ 0) with 1.
    rewrite Z.div_1_r, Z.mod_1_r. done.
  - rewrite Nat.iter_succ, IH. unfold shr_closed.
    replace (Z.of_nat (S (S j)) - 1) with (Z.of_nat (S j)) by lia.
    replace (Z.of_nat (S (S j))) with (Z.succ (Z.of_nat (S j))) by lia.
    replace (Z.of_nat (S j) - 1) with (Z.of_nat j) by lia.
    replace (Z.of_nat (S j)) with (Z.succ (Z.of_nat j)) by lia.
    set (t := Z.of_nat j). assert (0 <= t) by lia.
    rewrite !Z.pow_succ_r by lia.
    assert (0 < 2 ^ t) by (apply Z.pow_pos_nonneg; lia).
    rewrite shr_1_nonneg by (apply Z.div_pos; lia).
    f_equal.
    + rewrite Z.div_div by lia. f_equal. lia.
    + pose proof (Z.div_mod M (2 ^ t) ltac:(lia)) as E1.
      pose proof (Z.mod_pos_bound M (2 ^ t) ltac:(lia)) as B1.
      pose proof (Z.div_mod (M / 2 ^ t) 2 ltac:(lia)) as E2.
      pose proof (Z.mod_pos_bound (M / 2 ^ t) 2 ltac:(lia)) as B2.
      assert (M mod (2 * 2 ^ t) = 2 ^ t * ((M / 2 ^ t) mod 2) + M mod 2 ^ t) as ->.
      { symmetry. apply Z.mod_unique_pos with (q := (M / 2 ^ t) / 2); nia. }
      rewrite Zmod_odd. destruct (Z.odd (M / 2 ^ t)); simpl.
      * symmetry. apply negb_true_iff, Z.eqb_neq. lia.
      * f_equal. f_equal. lia.
Qed.

Lemma shr_pos (M : Z) (p : positive) (e : Z) :
  0 <= M ->
  shr {| shr_m := M; shr_r := false; shr_s := false |} e (Zpos p) =
  (shr_closed M (Pos.to_nat p), e + Zpos p).
Proof.
  intros HM. unfold shr. rewrite iter_pos_nat.
  destruct (Pos2Nat.is_succ p) as [j ->]. by rewrite shr_1_iter.
Qed.

Lemma rne_spec (M : Z) (j : nat) :
  0 <= M -> (1 <= j)%nat ->
  M / 2 ^ Z.of_nat j <= rne M j <= M / 2 ^ Z.of_nat j + 1 /\
  (M mod 2 ^ Z.of_nat j < 2 ^ (Z.of_nat j - 1) -> rne M j = M / 2 ^ Z.of_nat j) /\
  (2 ^ (Z.of_nat j - 1) < M mod 2 ^ Z.of_nat j -> rne M j = M / 2 ^ Z.of_nat j + 1).
Proof.
  intros HM Hj. unfold rne, shr_closed. cbn [shr_m loc_of_shr_record].
  destruct j as [|j]; [lia|].
  replace (Z.of_nat (S j) - 1) with (Z.of_nat j) by lia.
  rewrite Nat2Z.inj_succ.
  set (t := Z.of_nat j). assert (0 <= t) by lia.
  rewrite !Z.pow_succ_r by lia.
  assert (0 < 2 ^ t) as Hh by (apply Z.pow_pos_nonneg; lia).
  set (h := 2 ^ t) in *.
  pose proof (Z.div_mod M h ltac:(lia)) as E1.
  pose proof (Z.mod_pos_bound M h ltac:(lia)) as B1.
  pose proof (Z.div_mod (M / h) 2 ltac:(lia)) as E2.
  pose proof (Z.mod_pos_bound (M / h) 2 ltac:(lia)) as B2.
  assert (M / (2 * h) = M / h / 2) as -> by (rewrite Z.div_div by lia; f_equal; lia).
  assert (M mod (2 * h) = h * ((M / h) mod 2) + M mod h) as ->.
  { symmetry. apply Z.mod_unique_pos with (q := (M / h) / 2); nia. }
  rewrite Zmod_odd.
  destruct (Z.odd (M / h)); [destruct (Z.eqb_spec (M mod h) 0)|]; simpl.
  - destruct (Z.even (M / h / 2)); lia.
  - lia.
  - destruct (negb (M mod h =? 0)); simpl; lia.
Qed.

Lemma pow2_split (a b : Z) : 0 <= a -> 0 <= b -> 2 ^ (a + b) = 2 ^ a * 2 ^ b.
Proof. intros. by rewrite Z.pow_add_r. Qed.

Lemma binary_round_aux_normal (M : positive) (E : Z) :
  let D := Zpos (digits2_pos M) in
  prec < D -> -1074 <= D + E - prec -> D + E - prec < emax - prec ->
  exists m e,
    binary_round_aux prec emax false (Zpos M) E loc_Exact = S754_finite false m e /\
    (e = D + E - prec \/ e = D + E - prec + 1) /\
    Zpos m * 2 ^ (e - (D + E - prec)) = rne (Zpos M) (Z.to_nat (D - prec)).
Proof.
  intros D HD Hlo Hhi.
  unfold binary_round_aux, shr_fexp.
  change (Zdigits2 (Zpos M)) with D.
  assert (fexp prec emax (D + E) = D + E - prec) as ->
    by (unfold fexp, emin, prec, emax in *; lia).
  replace (D + E - prec - E) with (D - prec) by lia.
  destruct (D - prec) as [|p|p] eqn:Hp; try lia.
  cbn [shr_record_of_loc]. rewrite shr_pos by lia.
  change (Z.to_nat (Zpos p)) with (Pos.to_nat p).
  fold (rne (Zpos M) (Pos.to_nat p)).
  set (R := rne (Zpos M) (Pos.to_nat p)).
  set (e1 := E + Zpos p). replace (D + E - prec) with e1 in * by lia.
  assert (2 ^ 52 <= R <= 2 ^ 53) as HR.
  { pose proof (rne_spec (Zpos M) (Pos.to_nat p) ltac:(lia) ltac:(lia)) as (Hb & _ & _).
    fold R in Hb. rewrite positive_nat_Z in Hb.
    pose proof (digits2_pos_bounds M) as [Glo Ghi]. fold D in Glo, Ghi.
    replace (D - 1) with (52 + Zpos p) in Glo by (unfold prec in *; lia).
    replace D with (53 + Zpos p) in Ghi by (unfold prec in *; lia).
    rewrite pow2_split in Glo, Ghi by lia.
    assert (0 < 2 ^ Zpos p) by (apply Z.pow_pos_nonneg; lia).
    assert (2 ^ 52 <= Zpos M / 2 ^ Zpos p) by (apply Z.div_le_lower_bound; lia).
    assert (Zpos M / 2 ^ Zpos p < 2 ^ 53) by (apply Z.div_lt_upper_bound; lia).
    lia. }
  destruct (Z.eq_dec R (2 ^ 53)) as [HR53|HR53].
  - rewrite HR53. change (2 ^ 53) with 9007199254740992.
    exists 4503599627370496%positive, (e1 + 1).
    assert (fexp prec emax (Zdigits2 9007199254740992 + e1) - e1 = 1) as ->
      by (change (Zdigits2 9007199254740992) with 54; unfold fexp, emin, prec, emax in *; lia).
    cbn. destruct (Z.leb_spec (e1 + 1) (emax - prec)); [|unfold prec, emax in *; lia].
    split; [done|]. split; [lia|].
    replace (e1 + 1 - e1) with 1 by lia. done.
  - destruct R as [|r|r] eqn:HRr; try lia.
    assert (Zpos (digits2_pos r) = 53) as Hd by (apply digits2_pos_unique; lia).
    exists r, e1.
    assert (fexp prec emax (Zdigits2 (Zpos r) + e1) - e1 = 0) as ->
      by (cbn [Zdigits2]; rewrite Hd; unfold fexp, emin, prec, emax in *; lia).
    cbn. destruct (Z.leb_spec e1 (emax - prec)); [|unfold prec, emax in *; lia].
    split; [done|]. split; [lia|].
    rewrite Z.sub_diag. lia.
Qed.

Lemma binary_round_aux_exact (M : positive) (E : Z) :
  Zpos (digits2_pos M) = prec -> -1074 <= E <= emax - prec ->
  binary_round_aux prec emax false (Zpos M) E loc_Exact = S754_finite false M E.
Proof.
  intros HD HE. unfold binary_round_aux, shr_fexp.
  cbn [Zdigits2]. rewrite HD.
  assert (fexp prec emax (prec + E) - E = 0) as ->
    by (unfold fexp, emin, prec, emax in *; lia).
  cbn [shr_record_of_loc shr shr_m loc_of_shr_record round_nearest_even Zdigits2].
  rewrite HD.
  assert (fexp prec emax (prec + E) - E = 0) as ->
    by (unfold fexp, emin, prec, emax in *; lia).
  cbn [shr shr_m]. destruct (Z.leb_spec E (emax - prec)); [done|lia].
Qed.

Lemma iter_xO_pow2 (n q : positive) : Zpos (Pos.iter xO n q) = Zpos n * 2 ^ Zpos q.
Proof.
  induction q as [|q IH] using Pos.peano_ind.
  - cbn. lia.
  - rewrite Pos.iter_succ, Pos2Z.inj_xO, IH, Pos2Z.inj_succ, Z.pow_succ_r by lia. lia.
Qed.

(** A positive integer below [2^53] converts exactly: the mantissa is the
    integer shifted left to 53 bits. *)
Lemma float_of_int_exact (n : positive) :
  Zpos n < 2 ^ 53 ->
  exists mz ez,
    float_of_int (Zpos n) = Some (S754_finite false mz ez) /\
    ez = Zpos (digits2_pos n) - 53 /\
    Zpos mz = Zpos n * 2 ^ (- ez) /\
    2 ^ 52 <= Zpos mz < 2 ^ 53.
Proof.
  intros Hn. pose proof (digits2_pos_bounds n) as [Glo Ghi].
  set (d := Zpos (digits2_pos n)) in *.
  assert (0 < d) by (unfold d; lia).
  assert (d <= 53).
  { destruct (Z.leb_spec d 53); [done|].
    assert (2 ^ 53 <= 2 ^ (d - 1)) by (apply Z.pow_le_mono_r; lia). lia. }
  unfold float_of_int, binary_normalize, binary_round.
  rewrite Z.add_0_r. fold d.
  assert (fexp prec emax d = d - 53) as -> by (unfold fexp, emin, prec, emax; lia).
  unfold shl_align. rewrite Z.sub_0_r.
  destruct (d - 53) as [|q|q] eqn:Hq; try lia.
  - assert (d = 53) as Hd by lia. rewrite Hd in *.
    rewrite binary_round_aux_exact by (unfold prec, emax; unfold d in Hd; lia).
    exists n, 0. change (2 ^ (- 0)) with 1. repeat split; lia.
  - assert (Zpos (Pos.iter xO n q) = Zpos n * 2 ^ Zpos q) as Hm by apply iter_xO_pow2.
    assert (0 < 2 ^ Zpos q) by (apply Z.pow_pos_nonneg; lia).
    assert (2 ^ 52 <= Zpos (Pos.iter xO n q) < 2 ^ 53) as Hb.
    { rewrite Hm.
      replace 52 with ((d - 1) + Zpos q) by lia.
      replace 53 with (d + Zpos q) by lia.
      rewrite !pow2_split by lia. nia. }
    rewrite binary_round_aux_exact.
    + exists (Pos.iter xO n q), (Zneg q). repeat split; try lia.
      rewrite Hm. done.
    + unfold prec. apply digits2_pos_unique. lia.
    + unfold prec, emax. lia.
Qed.

Lemma shiftl_neg_div (a k : Z) : 0 <= k -> Z.shiftl a (- k) = a / 2 ^ k.
Proof. intros Hk. rewrite Z.shiftl_opp_r. by apply Z.shiftr_div_pow2. Qed.

(** Truncating a double of negative exponent: the mantissa [m] at exponent [e]
    is the rounded mantissa [R] at exponent [e1], possibly renormalised. *)
Lemma floor_shift (m e e1 R q : Z) :
  e1 <= -1 -> e = e1 \/ e = e1 + 1 ->
  m * 2 ^ (e - e1) = R ->
  q * 2 ^ (- e1) <= R < (q + 1) * 2 ^ (- e1) ->
  Z.shiftl m e = q.
Proof.
  intros He1 [->| ->] HR Hq.
  - rewrite Z.sub_diag in HR. change (2 ^ 0) with 1 in HR.
    replace (Z.shiftl m e1) with (Z.shiftl m (- (- e1))) by (f_equal; lia).
    rewrite shiftl_neg_div by lia.
    assert (0 < 2 ^ (- e1)) by (apply Z.pow_pos_nonneg; lia).
    symmetry. apply Z.div_unique with (r := m - 2 ^ (- e1) * q); lia.
  - replace (e1 + 1 - e1) with 1 in HR by lia. change (2 ^ 1) with 2 in HR.
    replace (e1 + 1) with (- (- e1 - 1)) by lia.
    rewrite shiftl_neg_div by lia.
    replace (- e1) with (1 + (- e1 - 1)) in Hq by lia.
    rewrite pow2_split in Hq by lia. change (2 ^ 1) with 2 in Hq.
    assert (0 < 2 ^ (- e1 - 1)) by (apply Z.pow_pos_nonneg; lia).
    symmetry. apply Z.div_unique with (r := m - 2 ^ (- e1 - 1) * q); lia.
Qed.

Lemma scale_bounds (r P : Z) :
  0 <= r < 5 -> 0 < P -> (r * P = 0 \/ P <= r * P) /\ r * P <= 4 * P.
Proof.
  intros Hr HP.
  assert (r = 0 \/ r = 1 \/ r = 2 \/ r = 3 \/ r = 4) as [->|[->|[->|[->| ->]]]] by lia; lia.
Qed.

Lemma int_0_6_times_exact (total : Z) :
  0 <= total < 7505999378950828 ->
  int_0_6_times total = Some (3 * total / 5).
Proof.
  intros [H0 Hlt].
  destruct (Z.eq_dec total 7505999378950827) as [->|Hne]; [by vm_compute|].
  destruct total as [|n|n]; [by vm_compute| |lia].
  destruct (float_of_int_exact n ltac:(lia)) as (mz & ez & Hf & Hez & Hmz & Hb).
  unfold int_0_6_times. rewrite Hf. unfold float_mul, float_0_6, SFmul. cbn [xorb].
  pose proof (digits2_pos_bounds n) as [Glo Ghi].
  set (d := Zpos (digits2_pos n)) in *.
  assert (0 < d) by (unfold d; lia).
  assert (d <= 53).
  { destruct (Z.leb_spec d 53); [done|].
    assert (2 ^ 53 <= 2 ^ (d - 1)) by (apply Z.pow_le_mono_r; lia). lia. }
  set (M := (5404319552844595 * mz)%positive).
  assert (Zpos M = 5404319552844595 * Zpos mz) as HM by (unfold M; lia).
  pose proof (digits2_pos_bounds M) as [Dlo Dhi].
  assert (Zpos (digits2_pos M) = 105 \/ Zpos (digits2_pos M) = 106) as HD.
  { destruct (Z.ltb_spec (Zpos M) (2 ^ 105)).
    - left. apply digits2_pos_unique. lia.
    - right. apply digits2_pos_unique. lia. }
  set (D := Zpos (digits2_pos M)) in *.
  destruct (binary_round_aux_normal M (-53 + ez)) as (m & e & -> & He & HR);
    fold D; unfold prec, emax; try lia.
  fold D in He, HR. unfold prec in He, HR.
  set (P := 2 ^ (- ez)) in *.
  assert (P = 1 \/ P = 2 \/ 4 <= P) as HP.
  { unfold P. destruct (Z.eq_dec ez 0) as [->|]; [by left|].
    destruct (Z.eq_dec ez (-1)) as [->|]; [right; by left|].
    right. right. replace (- ez) with (2 + (- ez - 2)) by lia.
    rewrite pow2_split by lia.
    assert (0 < 2 ^ (- ez - 2)) by (apply Z.pow_pos_nonneg; lia).
    change (2 ^ 2) with 4. lia. }
  pose proof (Z.div_mod (3 * Zpos n) 5 ltac:(lia)) as Hq.
  pose proof (Z.mod_pos_bound (3 * Zpos n) 5 ltac:(lia)) as Hr.
  set (q := 3 * Zpos n / 5) in *. set (r := (3 * Zpos n) mod 5) in *.
  assert (0 < P) as HP0 by lia.
  assert (3 * Zpos mz = 5 * (q * P) + r * P) as HA.
  { rewrite Hmz. replace (3 * (Zpos n * P)) with (3 * Zpos n * P) by ring.
    rewrite Hq. ring. }
  destruct (scale_bounds r P Hr HP0) as [HW HW4].
  assert (0 <= q) by (apply Z.div_pos; lia).
  assert (0 <= q * P) by (apply Z.mul_nonneg_nonneg; lia).
  cbn [int_of_float cond_Zopp]. f_equal.
  destruct HD as [HD|HD]; rewrite HD in *.
  - (* 52 bits dropped *)
    change (Z.to_nat (105 - 53)) with 52%nat in HR.
    pose proof (rne_spec (Zpos M) 52 ltac:(lia) ltac:(lia)) as (Rb & Rlo & Rhi).
    change (Z.of_nat 52) with 52 in *. change (52 - 1) with 51 in *.
    pose proof (Z.div_mod (Zpos M) (2 ^ 52) ltac:(lia)) as EM.
    pose proof (Z.mod_pos_bound (Zpos M) (2 ^ 52) ltac:(lia)) as BM.
    set (m' := Zpos M / 2 ^ 52) in *. set (rho := Zpos M mod 2 ^ 52) in *.
    set (R := rne (Zpos M) 52) in *.
    assert (2 * (q * P) <= R < 2 * (q * P + P)) as HRq by lia.
    apply (floor_shift _ e (ez - 1) R q); [lia|lia|
      rewrite <- HR; do 2 f_equal; lia|].
    replace (- (ez - 1)) with (1 + - ez) by lia.
    rewrite pow2_split by lia. change (2 ^ 1) with 2. fold P. lia.
  - (* 53 bits dropped *)
    change (Z.to_nat (106 - 53)) with 53%nat in HR.
    pose proof (rne_spec (Zpos M) 53 ltac:(lia) ltac:(lia)) as (Rb & Rlo & Rhi).
    change (Z.of_nat 53) with 53 in *. change (53 - 1) with 52 in *.
    pose proof (Z.div_mod (Zpos M) (2 ^ 53) ltac:(lia)) as EM.
    pose proof (Z.mod_pos_bound (Zpos M) (2 ^ 53) ltac:(lia)) as BM.
    set (m' := Zpos M / 2 ^ 53) in *. set (rho := Zpos M mod 2 ^ 53) in *.
    set (R := rne (Zpos M) 53) in *.
    assert (ez <= -1) as Hez1.
    { destruct (Z.eq_dec ez 0) as [Hz|]; [|lia].
      assert (P = 1) as HP1 by (unfold P; by rewrite Hz).
      rewrite HP1 in Hmz. lia. }
    assert (q * P <= R < q * P + P) as HRq by lia.
    apply (floor_shift _ e ez R q); [lia|lia|
      rewrite <- HR; do 2 f_equal; lia|].
    fold P. lia.
Qed.

End PyFloatFacts.

(** ** Scoring *)

Lemma count_match_nil_r (cs : list (option Z)) : count_match cs [] = 0%nat.
Proof. by destruct cs. Qed.

Lemma enumerate_filter_count (full : list (option Z)) (ans : list Z) (k : nat) :
  length (List.filter
            (fun p => (p.1 <? length full)%nat && bool_decide (full !! p.1 = Some (Some p.2)))
            (imap (fun i a => ((k + i)%nat, a)) ans))
  = count_match (drop k full) ans.
Proof.
  revert k. induction ans as [|a ans IH]; intros k.
  - by rewrite count_match_nil_r.
  - cbn [imap List.filter fst snd]. rewrite Nat.add_0_r.
    rewrite (imap_ext _ (fun i a => ((S k + i)%nat, a))) by (intros; simpl; f_equal; lia).
    destruct (full !! k) as [c|] eqn:Hk.
    + rewrite (drop_S _ _ _ Hk). cbn [count_match].
      apply lookup_lt_Some in Hk as Hlen.
      destruct (Nat.ltb_spec k (length full)); [|lia]. cbn [andb].
      destruct (decide (c = Some a)) as [->|Hne].
      * rewrite !bool_decide_eq_true_2 by done. cbn [length]. by rewrite IH.
      * rewrite !bool_decide_eq_false_2 by congruence. by rewrite IH.
    + apply lookup_ge_None in Hk as Hlen.
      rewrite bool_decide_eq_false_2, andb_false_r by done.
      rewrite IH, !drop_ge by lia. by destruct ans.
Qed.

Lemma positions_filter_count (fc : list (option Z)) (fa : list Z) (n k : nat) :
  n = (length fc - k)%nat ->
  length (List.filter
            (fun i => match fa !! i, fc !! i with
                      | Some a, Some (Some c) => a =? c
                      | _, _ => false
                      end)
            (seq k n))
  = count_match (drop k fc) (drop k fa).
Proof.
  revert k. induction n as [|n IH]; intros k Hn.
  - rewrite (drop_ge fc) by lia. done.
  - assert (k < length fc)%nat as Hk by lia.
    apply lookup_lt_is_Some in Hk as [c Hc].
    rewrite (drop_S _ _ _ Hc). cbn [seq List.filter]. rewrite Hc.
    destruct (fa !! k) as [a|] eqn:Ha.
    + rewrite (drop_S _ _ _ Ha). cbn [count_match].
      destruct c as [c|].
      * destruct (Z.eqb_spec a c) as [->|Hne].
        -- rewrite bool_decide_eq_true_2 by done. cbn [length]. rewrite IH by lia. done.
        -- rewrite bool_decide_eq_false_2 by congruence. rewrite IH by lia. done.
      * rewrite bool_decide_eq_false_2 by done. rewrite IH by lia. done.
    + apply lookup_ge_None in Ha.
      rewrite IH by lia. rewrite !(drop_ge fa) by lia. by rewrite !count_match_nil_r.
Qed.

(** The comprehension of the source counts what the specification counts. *)
Lemma score_of_spec (correct_indexes : list (option Z)) (answers : list Z) :
  score_of correct_indexes answers = spec_score correct_indexes answers.
Proof.
  unfold score_of, spec_score, enumerate. f_equal.
  rewrite (imap_ext _ (fun i a => ((0 + i)%nat, a))) by done.
  rewrite enumerate_filter_count, positions_filter_count by lia. done.
Qed.

Lemma spec_score_count (correct_indexes : list (option Z)) (answers : list Z) :
  spec_score correct_indexes answers = Z.of_nat (count_match correct_indexes answers).
Proof. unfold spec_score. by rewrite positions_filter_count by lia. Qed.

Lemma count_match_take (cs : list (option Z)) (ans : list Z) :
  count_match cs (take (length cs) ans) = count_match cs ans.
Proof.
  revert ans. induction cs as [|c cs IH]; intros [|a ans]; cbn; try done.
  by rewrite IH.
Qed.

(** Answers beyond the number of questions do not count. *)
Lemma spec_score_take (correct_indexes : list (option Z)) (answers : list Z) :
  spec_score correct_indexes (take (length correct_indexes) answers) =
  spec_score correct_indexes answers.
Proof. by rewrite !spec_score_count, count_match_take. Qed.

Lemma score_of_bounds (correct_indexes : list (option Z)) (answers : list Z) :
  0 <= score_of correct_indexes answers <= Z.of_nat (length correct_indexes).
Proof.
  rewrite score_of_spec. unfold spec_score.
  pose proof (filter_length_le
    (fun i => match answers !! i, correct_indexes !! i with
              | Some a, Some (Some c) => a =? c
              | _, _ => false
              end) (seq 0 (length correct_indexes))) as H.
  rewrite length_seq in H. lia.
Qed.

(** ** The pass mark *)

Lemma spec_pass_mark_eq (total : Z) : spec_pass_mark total = Z.max 1 (3 * total / 5).
Proof.
  unfold spec_pass_mark. f_equal.
  unfold Qfloor, Qmult, inject_Z. cbn [Qnum Qden].
  change (Z.pos (10 * 1)) with (2 * 5). replace (6 * total) with (2 * (3 * total)) by lia.
  by rewrite Z.div_mul_cancel_l.
Qed.

Lemma passed_of_exact (score total : Z) :
  0 <= total < 7505999378950828 ->
  passed_of score total = Some (spec_pass_mark total <=? score).
Proof.
  intros H. unfold passed_of. rewrite int_0_6_times_exact by done.
  by rewrite spec_pass_mark_eq.
Qed.

(** Where the bound comes from: at 7505999378950828 the double product
    [0.6 * total] rounds up to the next integer.  No step has that many
    questions: a stored roadmap is a document of at most 16 MB. *)
Remark passed_of_beyond_bound :
  passed_of 4503599627370496 7505999378950828 = Some false /\
  spec_pass_mark 7505999378950828 <= 4503599627370496 /\
  ~ (forall score total passed,
       0 <= total -> passed_of score total = Some passed ->
       (passed = true <-> spec_pass_mark total <= score)).
Proof.
  assert (passed_of 4503599627370496 7505999378950828 = Some false) as H1 by by vm_compute.
  assert (spec_pass_mark 7505999378950828 <= 4503599627370496) as H2 by by vm_compute.
  split; [done|]. split; [done|].
  intros H. specialize (H 4503599627370496 7505999378950828 false ltac:(lia) H1). destruct H as [_ H].
  specialize (H H2). discriminate.
Qed.

(** ** pymongo: filters, [find_one], [insert_one], [update_one] *)

Lemma matches_singleton (k : string) (v : value) (d : document) :
  matches {[k := v]} d = true <-> d !! k = Some v.
Proof.
  unfold matches. rewrite bool_decide_eq_true. apply map_singleton_subseteq_l.
Qed.

Lemma matches_progress_filter (user_id domain : string) (d : document) :
  matches (progress_filter user_id domain) d = true <->
  d !! "user_id" = Some (VStr user_id) /\ d !! "domain" = Some (VStr domain).
Proof.
  unfold matches, progress_filter. rewrite bool_decide_eq_true, map_subseteq_spec. split.
  - intros H. split; apply H; by simplify_map_eq.
  - intros [H1 H2] i x Hi.
    destruct (decide (i = "user_id")) as [->|]; [by simplify_map_eq|].
    destruct (decide (i = "domain")) as [->|]; by simplify_map_eq.
Qed.

Lemma matches_nonempty (flt d : document) :
  flt <> ∅ -> matches flt d = true -> d <> ∅.
Proof.
  unfold matches. rewrite bool_decide_eq_true. intros Hne Hsub ->.
  apply Hne. apply map_empty. intros i.
  destruct (flt !! i) as [x|] eqn:Hi; [|done].
  apply (lookup_weaken _ _ _ _ Hi) in Hsub. by rewrite lookup_empty in Hsub.
Qed.

Lemma find_one_Some (coll : collection) (flt d : document) :
  find_one coll flt = Some d -> d ∈ coll /\ matches flt d = true.
Proof.
  unfold find_one. intros H. apply find_some in H as [Hin Hm].
  split; [by apply list_elem_of_In|done].
Qed.

Lemma find_one_None (coll : collection) (flt : document) :
  find_one coll flt = None <-> (forall d, d ∈ coll -> matches flt d = false).
Proof.
  unfold find_one. split.
  - intros H d Hd. apply (find_none _ _ H). by apply list_elem_of_In.
  - intros H. induction coll as [|d coll IH]; [done|].
    cbn [find]. rewrite (H d) by left. apply IH. intros d' Hd'. apply H. by right.
Qed.

Lemma find_one_app (coll : collection) (flt d : document) :
  find_one (coll ++ [d]) flt =
  match find_one coll flt with
  | Some x => Some x
  | None => if matches flt d then Some d else None
  end.
Proof.
  unfold find_one. induction coll as [|x coll IH]; cbn [app find]; [done|].
  by destruct (matches flt x).
Qed.

Lemma find_one_truthy (coll : collection) (flt d : document) :
  flt <> ∅ -> find_one coll flt = Some d -> truthy_doc (Some d) = true.
Proof.
  intros Hne H. apply find_one_Some in H as [_ Hm].
  cbn [truthy_doc]. apply negb_true_iff, bool_decide_eq_false.
  by eapply matches_nonempty.
Qed.

Lemma singleton_nonempty (k : string) (v : value) : ({[k := v]} : document) <> ∅.
Proof. apply insert_non_empty. Qed.

Lemma progress_filter_nonempty (user_id domain : string) :
  progress_filter user_id domain <> ∅.
Proof. apply insert_non_empty. Qed.

Lemma update_first_None (p : document -> bool) (f : document -> document)
    (coll : collection) :
  find p coll = None -> update_first p f coll = None.
Proof.
  induction coll as [|d coll IH]; cbn [find update_first]; [done|].
  destruct (p d); [done|]. intros H. by rewrite IH.
Qed.

(** An update of the first match leaves the documents before and after it. *)
Lemma update_first_Some (p : document -> bool) (f : document -> document)
    (coll : collection) (d : document) :
  find p coll = Some d ->
  exists pre post,
    coll = pre ++ d :: post /\ find p pre = None /\
    update_first p f coll = Some (pre ++ f d :: post).
Proof.
  induction coll as [|x coll IH]; cbn [find update_first]; [done|].
  destruct (p x) eqn:Hx.
  - intros [= ->]. by exists [], coll.
  - intros H. destruct (IH H) as (pre & post & -> & Hpre & ->).
    exists (x :: pre), post. cbn [find app]. by rewrite Hx.
Qed.

Lemma find_app_skip (p : document -> bool) (pre l : collection) :
  find p pre = None -> find p (pre ++ l) = find p l.
Proof.
  induction pre as [|x pre IH]; cbn [find app]; [done|].
  destruct (p x); [done|]. apply IH.
Qed.

Lemma set_user_id (st : Store) : set_user (db_user st) (db_next_oid st) st = st.
Proof. by destruct st. Qed.

Lemma set_progress_id (st : Store) : set_progress (db_progress st) (db_next_oid st) st = st.
Proof. by destruct st. Qed.

(** ** [to_str_id] *)

Section Responses.
Context `{Externals}.

Lemma to_str_id_lookup_other (d d' : document) (k : string) :
  k <> "id" -> k <> "_id" ->
  to_str_id (Some d) = Some d' -> d' !! k = d !! k.
Proof.
  intros Hk1 Hk2. unfold to_str_id.
  destruct (truthy_doc (Some d) && truthy (d !! "_id")); [|by intros [= ->]].
  destruct (d !! "_id"); intros [= <-]; [|done].
  by rewrite lookup_insert_ne, lookup_delete_ne.
Qed.

Lemma to_str_id_oid (d : document) (o : ObjectId) :
  d !! "_id" = Some (VOid o) ->
  to_str_id (Some d) = Some (<["id" := VStr (ObjectId_str o)]> (delete "_id" d)).
Proof.
  intros Hid. unfold to_str_id. rewrite Hid. cbn [truthy_doc truthy py_str].
  rewrite bool_decide_eq_false_2; [done|].
  intros ->. by rewrite lookup_empty in Hid.
Qed.

Lemma to_str_id_is_Some (d : document) : exists d', to_str_id (Some d) = Some d'.
Proof.
  unfold to_str_id.
  destruct (truthy_doc (Some d) && truthy (d !! "_id")); [|by eexists].
  destruct (d !! "_id"); by eexists.
Qed.

End Responses.

(** ** Profile and authentication *)

(** Closed equations are decided by evaluation. *)
Ltac vm_refl :=
  lazymatch goal with
  | |- @eq ?T _ ?r => vm_cast_no_check (@eq_refl T r)
  end.

Ltac run_handler :=
  unfold mbind, Handler_bind, mret, Handler_ret, get_db, put_db, raise; cbv beta.

Section Identity.
Context `{Externals}.

Lemma UpdateProfile_qualification (payload : UpdateProfile.t) :
  UpdateProfile_model_dump payload !! "qualification" =
  Some (VStr (UpdateProfile.qualification payload)).
Proof. unfold UpdateProfile_model_dump. by simplify_map_eq. Qed.

Lemma find_by_id_None (coll : collection) (oid : ObjectId) :
  (forall d, d ∈ coll -> d !! "_id" <> Some (VOid oid)) ->
  find_one coll {["_id" := VOid oid]} = None.
Proof.
  intros Hno. apply find_one_None. intros d Hd.
  apply not_true_is_false. rewrite matches_singleton. by apply Hno.
Qed.

(** C10: a profile update for a well-formed id that matches no stored user,
    with an allowed qualification, does not fail: it returns a response whose
    user is null and leaves the store as it was, without a record for the
    id. *)
Theorem update_profile_unknown_user (st : Store) (user_id : string)
    (payload : UpdateProfile.t) (oid : ObjectId) :
  ObjectId_parse user_id = Some oid ->
  (forall d, d ∈ db_user st -> d !! "_id" <> Some (VOid oid)) ->
  UpdateProfile.qualification payload ∈ ALLOWED_QUALIFICATIONS ->
  update_profile user_id payload st = (st, Return None).
Proof.
  intros Hparse Hno Hq. unfold update_profile. rewrite Hparse.
  rewrite UpdateProfile_qualification. cbn [value_in].
  rewrite bool_decide_eq_true_2 by done. cbn [negb].
  run_handler. cbn [fst snd].
  pose proof (find_by_id_None _ _ Hno) as Hfind.
  unfold update_one. rewrite update_first_None by exact Hfind.
  rewrite set_user_id, Hfind. done.
Qed.


(** *** [login] *)

Lemma unique_emails_lookup (coll : collection) (i j : nat) (d1 d2 : document) (e : value) :
  unique_emails coll ->
  coll !! i = Some d1 -> coll !! j = Some d2 ->
  d1 !! "email" = Some e -> d2 !! "email" = Some e -> i = j.
Proof.
  unfold unique_emails. revert i j.
  induction coll as [|x coll IH]; intros i j Hnd Hi Hj H1 H2; [done|].
  assert (NoDup (omap (fun d : document => d !! "email") coll)) as Hnd'.
  { cbn [omap list_omap] in Hnd. destruct (x !! "email"); [by inversion Hnd|done]. }
  assert (forall k d, coll !! k = Some d -> d !! "email" = Some e ->
                      x !! "email" = Some e -> False) as Hclash.
  { intros k d Hk Hd Hx. cbn [omap list_omap] in Hnd. rewrite Hx in Hnd.
    apply NoDup_cons in Hnd as [Hnotin _]. apply Hnotin.
    apply list_elem_of_omap. exists d. split; [|done].
    by eapply list_elem_of_lookup_2. }
  destruct i as [|i], j as [|j]; cbn in Hi, Hj; simplify_eq.
  - done.
  - exfalso. eauto.
  - exfalso. eauto.
  - f_equal. eauto.
Qed.

Lemma find_by_email_unique (coll : collection) (email : string) (u u' : document) :
  unique_emails coll ->
  find_one coll {["email" := VStr email]} = Some u' ->
  u ∈ coll -> u !! "email" = Some (VStr email) -> u = u'.
Proof.
  intros Huniq Hfind Hu He.
  apply find_one_Some in Hfind as [Hu' Hm]. apply matches_singleton in Hm.
  apply list_elem_of_lookup in Hu as [i Hi]. apply list_elem_of_lookup in Hu' as [j Hj].
  assert (i = j) as -> by (eapply unique_emails_lookup; eauto). congruence.
Qed.

Lemma login_run (st : Store) (payload : LoginRequest.t) :
  login payload st =
  match find_one (db_user st) {["email" := VStr (LoginRequest.email payload)]} with
  | Some u =>
      if bool_decide (u !! "password_hash" =
                      Some (VStr (hash_password (LoginRequest.password payload))))
      then (st, Return (to_str_id (Some (delete "password_hash" u))))
      else (st, Raise (http 401 "Invalid credentials"))
  | None => (st, Raise (http 401 "Invalid credentials"))
  end.
Proof.
  unfold login. run_handler.
  destruct (find_one _ _) as [u|] eqn:Hfind; [|done].
  rewrite (find_one_truthy _ _ _ (singleton_nonempty _ _) Hfind).
  cbn [negb from_option id]. by destruct (bool_decide _).
Qed.

(** C6: login succeeds if and only if a user with that email exists whose
    stored digest is the hash of the password; an unknown email and a wrong
    password raise the same exception, 401 with the one message. *)
Theorem login_iff_credentials (st : Store) (payload : LoginRequest.t) :
  unique_emails (db_user st) ->
  let email := LoginRequest.email payload in
  let pw := LoginRequest.password payload in
  let invalid := http 401 "Invalid credentials" in
  ((exists r, login payload st = (st, Return r)) <-> credentials_match st email pw) /\
  (~ credentials_match st email pw -> login payload st = (st, Raise invalid)) /\
  ((forall u, u ∈ db_user st -> u !! "email" <> Some (VStr email)) ->
   login payload st = (st, Raise invalid)) /\
  (forall u, u ∈ db_user st -> u !! "email" = Some (VStr email) ->
     u !! "password_hash" <> Some (VStr (hash_password pw)) ->
     login payload st = (st, Raise invalid)) /\
  spec_error_kind invalid = AuthError.
Proof.
  intros Huniq email pw invalid. subst email pw invalid.
  assert ((exists r, login payload st = (st, Return r)) <->
          credentials_match st (LoginRequest.email payload) (LoginRequest.password payload)) as Hiff.
  { rewrite login_run.
    destruct (find_one _ _) as [u'|] eqn:Hfind.
    - destruct (bool_decide_reflect
        (u' !! "password_hash" = Some (VStr (hash_password (LoginRequest.password payload))))) as [Hpw|Hpw].
      + split; [intros _|intros _; by eexists].
        apply find_one_Some in Hfind as Hf. destruct Hf as [Hin Hm].
        apply matches_singleton in Hm. by exists u'.
      + split; [by intros [r [=]]|].
        intros (u & Hin & He & Hd).
        by rewrite (find_by_email_unique _ _ _ _ Huniq Hfind Hin He) in Hd.
    - split; [by intros [r [=]]|].
      intros (u & Hin & He & _). rewrite find_one_None in Hfind.
      specialize (Hfind u Hin). apply not_true_iff_false in Hfind.
      by rewrite matches_singleton in Hfind. }
  assert (~ credentials_match st (LoginRequest.email payload) (LoginRequest.password payload) ->
          login payload st = (st, Raise (http 401 "Invalid credentials"))) as Hfail.
  { intros Hno. rewrite <- Hiff in Hno. rewrite login_run in *.
    destruct (find_one _ _) as [u'|]; [|done].
    destruct (bool_decide _); [|done]. exfalso. apply Hno. by eexists. }
  split; [done|]. split; [done|]. split; [|split; [|done]].
  - intros Hnone. apply Hfail. intros (u & Hin & He & _). by apply (Hnone u).
  - intros u Hin He Hd. apply Hfail. intros (u2 & Hin2 & He2 & Hd2).
    apply list_elem_of_lookup in Hin as [i Hi]. apply list_elem_of_lookup in Hin2 as [j Hj].
    assert (i = j) as -> by (eapply unique_emails_lookup; eauto). congruence.
Qed.


(** *** [register] *)

Lemma registered_doc_id (user : User.t) (oid : ObjectId) :
  registered_doc user oid !! "_id" = Some (VOid oid).
Proof. unfold registered_doc. by simplify_map_eq. Qed.

Lemma registered_doc_email (user : User.t) (oid : ObjectId) :
  registered_doc user oid !! "email" = Some (VStr (User.email user)).
Proof. unfold registered_doc, User_model_dump. by simplify_map_eq. Qed.

Lemma registered_doc_digest (user : User.t) (oid : ObjectId) :
  registered_doc user oid !! "password_hash" =
  Some (VStr (hash_password (User.password_hash user))).
Proof. unfold registered_doc. by simplify_map_eq. Qed.

Lemma ids_below_find (coll : collection) (n : ObjectId) :
  ids_below n coll -> find_one coll {["_id" := VOid n]} = None.
Proof.
  intros Hb. apply find_by_id_None. intros d Hd Hid.
  unfold ids_below in Hb. rewrite Forall_forall in Hb. specialize (Hb d Hd).
  unfold id_below in Hb. rewrite Hid in Hb.
  apply bool_decide_unpack in Hb. lia.
Qed.

Lemma register_run (st : Store) (user : User.t) :
  register user st =
  if bool_decide (User.qualification user ∈ ALLOWED_QUALIFICATIONS) then
    if truthy_doc (find_one (db_user st) {["email" := VStr (User.email user)]}) then
      (st, Raise (http 400 "Email already registered"))
    else
      let st' := set_user (db_user st ++ [registered_doc user (db_next_oid st)])
                   (S (db_next_oid st)) st in
      (st', Return (to_str_id (delete "password_hash" <$>
                      find_one (db_user st') {["_id" := VOid (db_next_oid st)]})))
  else (st, Raise (http 403 "Only IT-related students can register")).
Proof.
  unfold register. destruct (bool_decide _); [|done]. cbn [negb]. run_handler.
  destruct (truthy_doc _); [done|].
  unfold insert_user, insert_one.
  assert ((<["password_hash" := VStr (hash_password (User.password_hash user))]>
             (delete "password_hash" (User_model_dump user))) !! "_id" = None) as ->
    by (unfold User_model_dump; by simplify_map_eq).
  done.
Qed.

(** C5, as amended: a registration whose qualification is outside the
    allow-list is refused with status 403, the specification's ForbiddenError;
    with an allowed qualification and an email no stored user has, it stores
    the user with the digest of the password and returns the stored record
    without the digest. *)
Theorem register_by_qualification (st : Store) (user : User.t) :
  let forbidden := http 403 "Only IT-related students can register" in
  let stored := registered_doc user (db_next_oid st) in
  (User.qualification user ∉ ALLOWED_QUALIFICATIONS ->
   register user st = (st, Raise forbidden) /\
   spec_error_kind forbidden = ForbiddenError) /\
  (User.qualification user ∈ ALLOWED_QUALIFICATIONS ->
   (forall d, d ∈ db_user st -> d !! "email" <> Some (VStr (User.email user))) ->
   ids_below (db_next_oid st) (db_user st) ->
   exists resp,
     register user st =
       (set_user (db_user st ++ [stored]) (S (db_next_oid st)) st, Return (Some resp)) /\
     resp = <["id" := VStr (ObjectId_str (db_next_oid st))]>
              (delete "_id" (delete "password_hash" stored)) /\
     resp !! "password_hash" = None /\
     (forall k, k <> "id" -> k <> "_id" -> k <> "password_hash" -> resp !! k = stored !! k)).
Proof.
  intros forbidden stored. split.
  - intros Hq. rewrite register_run, bool_decide_eq_false_2 by done. done.
  - intros Hq Hemail Hids. rewrite register_run, bool_decide_eq_true_2 by done.
    assert (find_one (db_user st) {["email" := VStr (User.email user)]} = None) as ->.
    { apply find_one_None. intros d Hd. apply not_true_is_false.
      rewrite matches_singleton. by apply Hemail. }
    cbn [truthy_doc]. cbv zeta. cbn [db_user set_user].
    rewrite find_one_app, (ids_below_find _ _ Hids).
    assert (matches {["_id" := VOid (db_next_oid st)]}
              (registered_doc user (db_next_oid st)) = true) as ->
      by (apply matches_singleton, registered_doc_id).
    cbn [fmap option_fmap option_map].
    rewrite (to_str_id_oid _ (db_next_oid st))
      by (rewrite lookup_delete_ne by done; apply registered_doc_id).
    eexists. split; [reflexivity|]. split; [reflexivity|]. split.
    + rewrite lookup_insert_ne, lookup_delete_ne, lookup_delete_eq by done. done.
    + intros k Hk1 Hk2 Hk3. by rewrite lookup_insert_ne, !lookup_delete_ne.
Qed.

(** Registration keeps emails unique and generated ids fresh. *)
Lemma register_preserves_invariants (st st' : Store) (user : User.t)
    (out : outcome (option document)) :
  register user st = (st', out) ->
  unique_emails (db_user st) -> ids_below (db_next_oid st) (db_user st) ->
  unique_emails (db_user st') /\ ids_below (db_next_oid st') (db_user st').
Proof.
  rewrite register_run. intros Hrun Huniq Hids.
  destruct (bool_decide _); [|by simplify_eq].
  destruct (find_one _ _) as [d|] eqn:Hfind.
  - rewrite (find_one_truthy _ _ _ (singleton_nonempty _ _) Hfind) in Hrun. by simplify_eq.
  - cbn [truthy_doc] in Hrun. cbv zeta in Hrun. simplify_eq. cbn [db_user db_next_oid set_user].
    split.
    + unfold unique_emails in *. rewrite omap_app. cbn [omap list_omap].
      rewrite registered_doc_email. apply NoDup_app. split; [done|].
      split; [|apply NoDup_singleton].
      intros e He ->%list_elem_of_singleton.
      apply list_elem_of_omap in He as (d & Hd & Hde).
      rewrite find_one_None in Hfind. specialize (Hfind d Hd).
      apply not_true_iff_false in Hfind. by rewrite matches_singleton in Hfind.
    + unfold ids_below in *. apply Forall_app. split.
      * eapply Forall_impl; [exact Hids|]. intros d. unfold id_below.
        destruct (d !! "_id") as [[]|]; try done.
        intros Ho%bool_decide_unpack. apply bool_decide_pack. lia.
      * apply Forall_singleton. unfold id_below. rewrite registered_doc_id.
        apply bool_decide_pack. lia.
Qed.


(** *** No response carries the digest *)

Lemma to_str_id_omits (x : option document) :
  omits_digest (to_str_id (delete "password_hash" <$> x)).
Proof.
  intros d' Hd'. destruct x as [d|]; [|done]. cbn [fmap option_fmap option_map] in Hd'.
  rewrite (to_str_id_lookup_other _ _ "password_hash" ltac:(done) ltac:(done) Hd').
  apply lookup_delete_eq.
Qed.

(** C7: the user record returned by [register], [login], [get_profile] and
    [update_profile] never has the field [password_hash]. *)
Theorem responses_omit_digest (st : Store) :
  (forall user st' r, register user st = (st', Return r) -> omits_digest r) /\
  (forall payload st' r, login payload st = (st', Return r) -> omits_digest r) /\
  (forall user_id st' r, get_profile user_id st = (st', Return r) -> omits_digest r) /\
  (forall user_id payload st' r,
     update_profile user_id payload st = (st', Return r) -> omits_digest r).
Proof.
  repeat split.
  - intros user st' r. rewrite register_run.
    destruct (bool_decide _); [|done]. destruct (truthy_doc _); [done|].
    cbv zeta. intros [= <- <-]. apply to_str_id_omits.
  - intros payload st' r. rewrite login_run.
    destruct (find_one _ _) as [u|]; [|done]. destruct (bool_decide _); [|done].
    intros [= <- <-]. apply (to_str_id_omits (Some u)).
  - intros user_id st' r. unfold get_profile.
    destruct (ObjectId_parse user_id); [|done]. run_handler.
    destruct (truthy_doc _); [|done]. cbn [negb].
    intros [= <- <-]. apply to_str_id_omits.
  - intros user_id payload st' r. unfold update_profile.
    destruct (ObjectId_parse user_id); [|done].
    destruct (value_in _ _); [|done]. cbn [negb]. run_handler.
    intros [= <- <-]. apply to_str_id_omits.
Qed.

End Identity.

Lemma update_profile_unknown_user_witness :
  @update_profile sample_externals "7" sample_update registered_store =
  (registered_store, Return None).
Proof.
  apply (@update_profile_unknown_user sample_externals registered_store "7" sample_update 7%nat).
  - reflexivity.
  - apply Forall_forall. compute_done.
  - compute_done.
Defined.

Lemma unique_emails_registered : unique_emails (db_user registered_store).
Proof. unfold unique_emails. compute_done. Qed.

Lemma login_iff_credentials_witness :
  exists r, @login sample_externals sample_login registered_store =
            (registered_store, Return r).
Proof.
  apply (@login_iff_credentials sample_externals registered_store sample_login
           unique_emails_registered).
  exists (@registered_doc sample_externals sample_user 3%nat). split.
  - apply list_elem_of_lookup. exists 0%nat. vm_refl.
  - split; vm_refl.
Defined.

Lemma register_by_qualification_witness :
  (@register sample_externals sample_outsider registered_store =
     (registered_store, Raise (http 403 "Only IT-related students can register")) /\
   spec_error_kind (http 403 "Only IT-related students can register") = ForbiddenError) /\
  exists resp,
    @register sample_externals sample_user2 registered_store =
      (set_user (db_user registered_store ++
                   [@registered_doc sample_externals sample_user2
                      (db_next_oid registered_store)])
         (S (db_next_oid registered_store)) registered_store,
       Return (Some resp)) /\
    resp !! "password_hash" = None.
Proof.
  split.
  - apply (@register_by_qualification sample_externals registered_store sample_outsider).
    compute_done.
  - destruct (proj2 (@register_by_qualification sample_externals registered_store
                       sample_user2)) as (resp & Hrun & _ & Hno & _).
    + compute_done.
    + apply Forall_forall. compute_done.
    + unfold ids_below. compute_done.
    + exists resp. split; [exact Hrun|exact Hno].
Defined.

(** C5 as stated fails: the refusal of a qualification outside the allow-list
    carries status 403, which the specification surfaces as ForbiddenError,
    not ValidationError (status 400). *)
Lemma register_disallowed_counterexample :
  (User.qualification sample_outsider ∉ ALLOWED_QUALIFICATIONS) /\
  exists e,
    @register sample_externals sample_outsider seeded_store = (seeded_store, Raise e) /\
    status_code e = 403 /\ spec_error_kind e = ForbiddenError /\
    spec_error_kind e <> ValidationError.
Proof.
  split; [compute_done|].
  exists (http 403 "Only IT-related students can register").
  split; [vm_refl|]. done.
Qed.

Lemma responses_omit_digest_witness :
  omits_digest
    match (@register sample_externals sample_user seeded_store).2 with
    | Return r => r
    | Raise _ => None
    end.
Proof.
  apply (proj1 (@responses_omit_digest sample_externals seeded_store) sample_user
           (@register sample_externals sample_user seeded_store).1).
  vm_refl.
Defined.

(** ** Progress *)

Lemma Progress_model_dump_no_id (user_id domain : string) (l : list Z) (m : gmap string Z) :
  Progress_model_dump user_id domain l m !! "_id" = None.
Proof. unfold Progress_model_dump. by simplify_map_eq. Qed.

Lemma fresh_progress_matches (user_id domain : string) (oid : ObjectId) :
  matches (progress_filter user_id domain) (fresh_progress user_id domain oid) = true.
Proof.
  apply matches_progress_filter. unfold fresh_progress, Progress_model_dump.
  split; by simplify_map_eq.
Qed.

Lemma fresh_progress_completed (user_id domain : string) (oid : ObjectId) :
  get_ints (fresh_progress user_id domain oid) "completed_steps" = [].
Proof. unfold get_ints, fresh_progress, Progress_model_dump. by simplify_map_eq. Qed.

Lemma fresh_progress_scores (user_id domain : string) (oid : ObjectId) :
  get_scores (fresh_progress user_id domain oid) = ∅.
Proof. unfold get_scores, fresh_progress, Progress_model_dump. by simplify_map_eq. Qed.

Lemma fresh_progress_matches_inv (user_id domain user_id' domain' : string) (oid : ObjectId) :
  matches (progress_filter user_id' domain') (fresh_progress user_id domain oid) = true ->
  user_id' = user_id /\ domain' = domain.
Proof.
  intros [H1 H2]%matches_progress_filter.
  unfold fresh_progress, Progress_model_dump in *. by simplify_map_eq.
Qed.

Lemma find_or_create_progress_run (st : Store) (user_id domain : string) :
  find_or_create_progress user_id domain st =
  ((progress_of st user_id domain).1, Return (progress_of st user_id domain).2).
Proof.
  unfold find_or_create_progress, progress_of. run_handler.
  destruct (find_one _ _) as [p|] eqn:Hfind.
  - by rewrite (find_one_truthy _ _ _ (progress_filter_nonempty _ _) Hfind).
  - cbn [truthy_doc negb]. unfold insert_progress, insert_one.
    by rewrite Progress_model_dump_no_id.
Qed.

Lemma progress_of_find (st : Store) (user_id domain : string) :
  find_one (db_progress (progress_of st user_id domain).1) (progress_filter user_id domain)
  = Some (progress_of st user_id domain).2.
Proof.
  unfold progress_of.
  destruct (find_one (db_progress st) (progress_filter user_id domain)) as [p|] eqn:Hfind;
    [done|].
  cbn [fst snd db_progress set_progress].
  by rewrite find_one_app, Hfind, fresh_progress_matches.
Qed.

Lemma progress_of_rest (st : Store) (user_id domain : string) :
  db_user (progress_of st user_id domain).1 = db_user st /\
  db_roadmap (progress_of st user_id domain).1 = db_roadmap st /\
  db_assessmentresult (progress_of st user_id domain).1 = db_assessmentresult st.
Proof. unfold progress_of. by destruct (find_one _ _). Qed.

Lemma progress_of_lookup (st : Store) (user_id domain user_id' domain' : string) :
  (find_one (db_progress (progress_of st user_id domain).1)
     (progress_filter user_id' domain') =
   find_one (db_progress st) (progress_filter user_id' domain')) \/
  (find_one (db_progress st) (progress_filter user_id' domain') = None /\
   find_one (db_progress (progress_of st user_id domain).1)
     (progress_filter user_id' domain') =
   Some (fresh_progress user_id domain (db_next_oid st))).
Proof.
  unfold progress_of. destruct (find_one (db_progress st) (progress_filter user_id domain));
    [by left|].
  cbn [fst db_progress set_progress]. rewrite find_one_app.
  destruct (find_one (db_progress st) (progress_filter user_id' domain')); [by left|].
  destruct (matches _ _); [by right|by left].
Qed.

Lemma progress_of_completed (st : Store) (user_id domain user_id' domain' : string) :
  completed_steps_of (progress_of st user_id domain).1 user_id' domain' =
  completed_steps_of st user_id' domain'.
Proof.
  unfold completed_steps_of.
  destruct (progress_of_lookup st user_id domain user_id' domain') as [->|[-> ->]]; [done|].
  apply fresh_progress_completed.
Qed.

Lemma progress_of_scores (st : Store) (user_id domain user_id' domain' : string) :
  scores_of (progress_of st user_id domain).1 user_id' domain' =
  scores_of st user_id' domain'.
Proof.
  unfold scores_of.
  destruct (progress_of_lookup st user_id domain user_id' domain') as [->|[-> ->]]; [done|].
  apply fresh_progress_scores.
Qed.

Lemma progress_of_doc_completed (st : Store) (user_id domain : string) :
  get_ints (progress_of st user_id domain).2 "completed_steps" =
  completed_steps_of st user_id domain.
Proof.
  unfold progress_of, completed_steps_of.
  destruct (find_one _ _); [done|]. apply fresh_progress_completed.
Qed.

Lemma progress_of_idem (st : Store) (user_id domain : string) :
  progress_of (progress_of st user_id domain).1 user_id domain =
  progress_of st user_id domain.
Proof.
  unfold progress_of at 1. rewrite progress_of_find. by destruct (progress_of _ _ _).
Qed.

Section ProgressHandlers.
Context `{Externals}.

Lemma get_progress_run (st : Store) (user_id domain : string) :
  get_progress user_id domain st =
  ((progress_of st user_id domain).1,
   Return (to_str_id (Some (progress_of st user_id domain).2))).
Proof. unfold get_progress. run_handler. by rewrite find_or_create_progress_run. Qed.

(** The record created, field by field. *)
Lemma fresh_progress_literal (user_id domain : string) (oid : ObjectId) :
  fresh_progress user_id domain oid =
  <["_id" := VOid oid]>
    (<["user_id" := VStr user_id]>
       (<["domain" := VStr domain]>
          (<["completed_steps" := VInts []]> (<["scores" := VScores ∅]> ∅)))).
Proof. reflexivity. Qed.

(** C9: fetching progress returns the stored record when there is one and
    leaves the store as it is; otherwise it stores, at the end of the
    collection, the record of the user and the domain whose [completed_steps]
    is the empty list and whose [scores] is the empty map, and returns it
    with both fields and its id as text; a second fetch finds and returns
    that record and leaves the store as the first fetch left it. *)
Theorem get_progress_read_creates (st : Store) (user_id domain : string) :
  (forall p, find_one (db_progress st) (progress_filter user_id domain) = Some p ->
     get_progress user_id domain st = (st, Return (to_str_id (Some p)))) /\
  (find_one (db_progress st) (progress_filter user_id domain) = None ->
     let p0 : document :=
       <["_id" := VOid (db_next_oid st)]>
         (<["user_id" := VStr user_id]>
            (<["domain" := VStr domain]>
               (<["completed_steps" := VInts []]> (<["scores" := VScores ∅]> ∅)))) in
     let resp : document :=
       <["id" := VStr (ObjectId_str (db_next_oid st))]>
         (<["user_id" := VStr user_id]>
            (<["domain" := VStr domain]>
               (<["completed_steps" := VInts []]> (<["scores" := VScores ∅]> ∅)))) in
     let st' := set_progress (db_progress st ++ [p0]) (S (db_next_oid st)) st in
     get_progress user_id domain st = (st', Return (Some resp)) /\
     p0 !! "completed_steps" = Some (VInts []) /\ p0 !! "scores" = Some (VScores ∅) /\
     resp !! "completed_steps" = Some (VInts []) /\ resp !! "scores" = Some (VScores ∅) /\
     to_str_id (Some p0) = Some resp /\
     get_ints p0 "completed_steps" = [] /\ get_scores p0 = ∅ /\
     find_one (db_progress st') (progress_filter user_id domain) = Some p0 /\
     get_progress user_id domain st' = (st', Return (Some resp))) /\
  (forall st1 r, get_progress user_id domain st = (st1, r) ->
     get_progress user_id domain st1 = (st1, r)).
Proof.
  split; [|split].
  - intros p Hp. rewrite get_progress_run. unfold progress_of. by rewrite Hp.
  - intros Hnone p0 resp st'.
    assert (p0 = fresh_progress user_id domain (db_next_oid st)) as Hp0
      by (symmetry; apply fresh_progress_literal).
    assert (progress_of st user_id domain = (st', p0)) as Hpo
      by (unfold progress_of; rewrite Hnone; unfold st'; by rewrite Hp0).
    assert (find_one (db_progress st') (progress_filter user_id domain) = Some p0) as Hfind
      by (pose proof (progress_of_find st user_id domain) as Hf; by rewrite Hpo in Hf).
    assert (to_str_id (Some p0) = Some resp) as Hresp.
    { rewrite (to_str_id_oid p0 (db_next_oid st)) by (unfold p0; by simplify_map_eq).
      by f_equal. }
    split; [by rewrite get_progress_run, Hpo, <- Hresp|].
    split; [unfold p0; by simplify_map_eq|]. split; [unfold p0; by simplify_map_eq|].
    split; [unfold resp; by simplify_map_eq|]. split; [unfold resp; by simplify_map_eq|].
    split; [exact Hresp|].
    split; [rewrite Hp0; apply fresh_progress_completed|].
    split; [rewrite Hp0; apply fresh_progress_scores|].
    split; [done|].
    rewrite get_progress_run. unfold progress_of. by rewrite Hfind, <- Hresp.
  - intros st1 r. rewrite get_progress_run. intros [= <- <-].
    by rewrite get_progress_run, progress_of_idem.
Qed.

End ProgressHandlers.

Lemma get_progress_read_creates_witness :
  let p0 : document :=
    <["_id" := VOid 4%nat]>
      (<["user_id" := VStr "3"]>
         (<["domain" := VStr "frontend"]>
            (<["completed_steps" := VInts []]> (<["scores" := VScores ∅]> ∅)))) in
  let resp : document :=
    <["id" := VStr "4"]>
      (<["user_id" := VStr "3"]>
         (<["domain" := VStr "frontend"]>
            (<["completed_steps" := VInts []]> (<["scores" := VScores ∅]> ∅)))) in
  let st' := set_progress (db_progress registered_store ++ [p0]) 5%nat registered_store in
  @get_progress sample_externals "3" "frontend" registered_store = (st', Return (Some resp)) /\
  resp !! "completed_steps" = Some (VInts []) /\ resp !! "scores" = Some (VScores ∅) /\
  find_one (db_progress st') (progress_filter "3" "frontend") = Some p0 /\
  @get_progress sample_externals "3" "frontend" st' = (st', Return (Some resp)).
Proof.
  intros p0 resp st'.
  destruct (proj1 (proj2 (@get_progress_read_creates sample_externals registered_store
                            "3" "frontend")) ltac:(vm_refl))
    as (H1 & _ & _ & H2 & H3 & _ & _ & _ & H4 & H5).
  exact (conj H1 (conj H2 (conj H3 (conj H4 H5)))).
Defined.

(** ** Assessments *)

Lemma gate_closed_spec (prog : document) (step_order : Z) :
  gate_closed prog step_order = true <->
  1 < step_order /\ step_order - 1 ∉ get_ints prog "completed_steps".
Proof.
  unfold gate_closed. rewrite andb_true_iff, Z.ltb_lt, negb_true_iff, bool_decide_eq_false.
  done.
Qed.

Lemma gate_open_spec (prog : document) (step_order : Z) :
  gate_closed prog step_order = false <->
  ~ (1 < step_order /\ step_order - 1 ∉ get_ints prog "completed_steps").
Proof. rewrite <- gate_closed_spec. by rewrite not_true_iff_false. Qed.

Lemma AssessmentResult_model_dump_no_id (user_id domain : string) (step_order score total : Z)
    (passed : bool) :
  AssessmentResult_model_dump user_id domain step_order score total passed !! "_id" = None.
Proof. unfold AssessmentResult_model_dump. by simplify_map_eq. Qed.

Lemma result_doc_fields (payload : SubmitAssessment.t) (score total : Z) (passed : bool)
    (oid : ObjectId) :
  result_doc payload score total passed oid !! "score" = Some (VInt score) /\
  result_doc payload score total passed oid !! "total" = Some (VInt total) /\
  result_doc payload score total passed oid !! "passed" = Some (VBool passed).
Proof. unfold result_doc, AssessmentResult_model_dump. by simplify_map_eq. Qed.

Lemma submit_assessment_run (payload : SubmitAssessment.t) (st : Store)
    (rm : document) (step : RoadmapStep) :
  find_one (db_roadmap st) {["domain" := VStr (SubmitAssessment.domain payload)]} = Some rm ->
  find (fun s => bool_decide (order s = SubmitAssessment.step_order payload)) (get_steps rm)
    = Some step ->
  let po := progress_of st (SubmitAssessment.user_id payload) (SubmitAssessment.domain payload) in
  let cs := answerIndex <$> questions step in
  let score := score_of cs (SubmitAssessment.answers payload) in
  let total := Z.of_nat (length cs) in
  submit_assessment payload st =
    if gate_closed po.2 (SubmitAssessment.step_order payload) then
      (po.1, Raise (http 403 "Complete previous step first"))
    else
      match passed_of score total with
      | None => (po.1, Raise (http 500 "Internal Server Error"))
      | Some passed =>
          (graded_store payload po.1 score total passed,
           Return (result_doc payload score total passed (db_next_oid po.1),
                   if passed then "Passed" else "Failed"))
      end.
Proof.
  intros Hrm Hstep po cs score total. unfold submit_assessment. run_handler.
  rewrite Hrm, (find_one_truthy _ _ _ (singleton_nonempty _ _) Hrm).
  cbn [negb from_option id]. rewrite Hstep, find_or_create_progress_run. fold po.
  destruct (gate_closed _ _); [done|].
  fold cs score total. destruct (passed_of score total) as [passed|]; [|done].
  unfold insert_assessmentresult, insert_one.
  rewrite AssessmentResult_model_dump_no_id. cbn [fst snd].
  unfold graded_store, result_doc.
  destruct passed; [|done]. unfold record_pass. run_handler. done.
Qed.

Lemma submit_assessment_found (payload : SubmitAssessment.t) (st st' : Store)
    (r : document * string) :
  submit_assessment payload st = (st', Return r) ->
  exists rm step,
    find_one (db_roadmap st) {["domain" := VStr (SubmitAssessment.domain payload)]} = Some rm /\
    find (fun s => bool_decide (order s = SubmitAssessment.step_order payload)) (get_steps rm)
      = Some step.
Proof.
  unfold submit_assessment. run_handler.
  destruct (find_one _ _) as [rm|] eqn:Hrm; [|done].
  rewrite (find_one_truthy _ _ _ (singleton_nonempty _ _) Hrm). cbn [negb from_option id].
  destruct (find _ _) as [step|] eqn:Hstep; [|done].
  intros _. by exists rm, step.
Qed.

(** *** C3: the gate *)

Lemma found_step_order (st : Store) (flt rm : document) (step : RoadmapStep) (n : Z) :
  orders_from_one st ->
  find_one (db_roadmap st) flt = Some rm ->
  find (fun s => bool_decide (order s = n)) (get_steps rm) = Some step ->
  1 <= n.
Proof.
  intros Hinv Hrm Hstep. apply find_one_Some in Hrm as [Hin _].
  apply find_some in Hstep as [Hs Ho%bool_decide_eq_true].
  unfold orders_from_one in Hinv. rewrite Forall_forall in Hinv.
  specialize (Hinv rm Hin). rewrite Forall_forall in Hinv.
  specialize (Hinv step ltac:(by apply list_elem_of_In)). lia.
Qed.

(** C3: submitting step N > 1 while step N-1 is not completed raises 403,
    whatever the answers; nothing is graded: no result is logged and the
    completed steps and scores stay as they were.  A step of a stored roadmap
    passes the gate exactly when its order is 1 or the preceding order is
    completed. *)
Theorem submit_assessment_gate (payload : SubmitAssessment.t) (st : Store)
    (rm : document) (step : RoadmapStep) :
  find_one (db_roadmap st) {["domain" := VStr (SubmitAssessment.domain payload)]} = Some rm ->
  find (fun s => bool_decide (order s = SubmitAssessment.step_order payload)) (get_steps rm)
    = Some step ->
  let user_id := SubmitAssessment.user_id payload in
  let domain := SubmitAssessment.domain payload in
  let N := SubmitAssessment.step_order payload in
  let forbidden := http 403 "Complete previous step first" in
  (1 < N -> N - 1 ∉ completed_steps_of st user_id domain ->
   exists st',
     submit_assessment payload st = (st', Raise forbidden) /\
     spec_error_kind forbidden = ForbiddenError /\
     db_assessmentresult st' = db_assessmentresult st /\
     (forall u d, completed_steps_of st' u d = completed_steps_of st u d) /\
     (forall u d, scores_of st' u d = scores_of st u d)) /\
  (orders_from_one st ->
   ((forall st', submit_assessment payload st <> (st', Raise forbidden)) <->
    is_step_unlocked (completed_steps_of st user_id domain) N)).
Proof.
  intros Hrm Hstep user_id domain N forbidden.
  pose proof (submit_assessment_run payload st rm step Hrm Hstep) as Hrun.
  cbv zeta in Hrun. fold user_id domain N in Hrun.
  pose proof (progress_of_doc_completed st user_id domain) as Hdoc.
  split.
  - intros HN Hnot. exists (progress_of st user_id domain).1.
    assert (gate_closed (progress_of st user_id domain).2 N = true) as Hgate
      by (apply gate_closed_spec; by rewrite Hdoc).
    rewrite Hgate in Hrun. split; [done|]. split; [done|].
    split; [apply progress_of_rest|].
    split; [intros; apply progress_of_completed|intros; apply progress_of_scores].
  - intros Hinv.
    pose proof (found_step_order st _ rm step N Hinv Hrm Hstep) as HN1.
    unfold is_step_unlocked. rewrite Hrun.
    destruct (gate_closed _ _) eqn:Hgate.
    + apply gate_closed_spec in Hgate as [HN Hnot]. rewrite Hdoc in Hnot.
      split; [intros Hne; by destruct (Hne _ eq_refl)|].
      intros [->|Hin]; [lia|done].
    + apply gate_open_spec in Hgate. rewrite Hdoc in Hgate.
      split.
      * intros _. destruct (decide (N = 1)) as [|Hne]; [by left|right].
        destruct (decide (N - 1 ∈ completed_steps_of st user_id domain)); [done|].
        exfalso. apply Hgate. split; [lia|done].
      * intros _ st'. by destruct (passed_of _ _).
Qed.

(** *** C1: score and total *)

(** The example of the specification: key [0,1,0,2], submission [0,1,1,2]. *)
Example score_of_example :
  score_of [Some 0; Some 1; Some 0; Some 2] [0; 1; 1; 2] = 3 /\
  passed_of 3 4 = Some true.
Proof. split; reflexivity. Qed.

(** C1: a submission that passes the gate is graded; its score is the number
    of positions below the number of questions at which a submitted answer
    exists and equals the correct index, answers beyond the questions do not
    count, and its total is the number of questions of the step. *)
Theorem submit_assessment_score_total (payload : SubmitAssessment.t) (st : Store)
    (rm : document) (step : RoadmapStep) :
  find_one (db_roadmap st) {["domain" := VStr (SubmitAssessment.domain payload)]} = Some rm ->
  find (fun s => bool_decide (order s = SubmitAssessment.step_order payload)) (get_steps rm)
    = Some step ->
  ~ (1 < SubmitAssessment.step_order payload /\
     SubmitAssessment.step_order payload - 1 ∉
       completed_steps_of st (SubmitAssessment.user_id payload)
         (SubmitAssessment.domain payload)) ->
  Z.of_nat (length (questions step)) < 7505999378950828 ->
  let cs := answerIndex <$> questions step in
  let answers := SubmitAssessment.answers payload in
  exists st' result msg,
    submit_assessment payload st = (st', Return (result, msg)) /\
    result !! "score" = Some (VInt (spec_score cs answers)) /\
    result !! "total" = Some (VInt (Z.of_nat (length (questions step)))) /\
    spec_score cs answers = spec_score cs (take (length (questions step)) answers) /\
    0 <= spec_score cs answers <= Z.of_nat (length (questions step)).
Proof.
  intros Hrm Hstep Hgate Hlen cs answers.
  rewrite (submit_assessment_run payload st rm step Hrm Hstep). cbv zeta. fold cs answers.
  assert (length cs = length (questions step)) as Hcs by apply length_fmap.
  rewrite (proj2 (gate_open_spec _ _)) by (by rewrite progress_of_doc_completed).
  rewrite Hcs, passed_of_exact by lia.
  eexists _, _, _. split; [reflexivity|].
  pose proof (result_doc_fields payload (score_of cs answers)
                (Z.of_nat (length (questions step)))
                (spec_pass_mark (Z.of_nat (length (questions step))) <=? score_of cs answers)
                (db_next_oid (progress_of st (SubmitAssessment.user_id payload)
                                (SubmitAssessment.domain payload)).1)) as (Hs & Ht & _).
  split; [rewrite <- score_of_spec; exact Hs|]. split; [exact Ht|]. split.
  - by rewrite <- Hcs, spec_score_take.
  - rewrite <- score_of_spec, <- Hcs. apply score_of_bounds.
Qed.

(** *** C2: the pass flag *)

Lemma spec_pass_mark_one : spec_pass_mark 1 = 1.
Proof. by rewrite spec_pass_mark_eq. Qed.

Lemma graded_store_log (payload : SubmitAssessment.t) (st1 : Store) (score total : Z)
    (passed : bool) :
  last (db_assessmentresult (graded_store payload st1 score total passed)) =
  Some (result_doc payload score total passed (db_next_oid st1)).
Proof. unfold graded_store. destruct passed; apply last_snoc. Qed.

(** C2: the pass flag of a graded submission, as the handler returns it and
    as it stores it in the log of results, is true if and only if the score is
    at least [max(1, floor(0.6 * total))] computed in exact arithmetic, the
    total being the number of questions of the step; the message follows the
    flag.  In particular a one-question step passes exactly when its question
    is answered correctly.  A submission that reaches a step and passes the
    gate is graded. *)
Theorem passed_iff_exact_pass_mark (payload : SubmitAssessment.t) (st : Store) :
  (forall rm step,
     find_one (db_roadmap st) {["domain" := VStr (SubmitAssessment.domain payload)]}
       = Some rm ->
     find (fun s => bool_decide (order s = SubmitAssessment.step_order payload))
       (get_steps rm) = Some step ->
     ~ (1 < SubmitAssessment.step_order payload /\
        SubmitAssessment.step_order payload - 1 ∉
          completed_steps_of st (SubmitAssessment.user_id payload)
            (SubmitAssessment.domain payload)) ->
     Z.of_nat (length (questions step)) < 7505999378950828 ->
     let score := spec_score (answerIndex <$> questions step)
                    (SubmitAssessment.answers payload) in
     let total := Z.of_nat (length (questions step)) in
     exists st' result msg passed,
       submit_assessment payload st = (st', Return (result, msg)) /\
       result !! "score" = Some (VInt score) /\
       result !! "total" = Some (VInt total) /\
       result !! "passed" = Some (VBool passed) /\
       (passed = true <-> spec_pass_mark total <= score) /\
       (total = 1 -> (passed = true <-> score = 1)) /\
       msg = (if passed then "Passed" else "Failed") /\
       last (db_assessmentresult st') = Some result) /\
  (forall st' result msg,
     submit_assessment payload st = (st', Return (result, msg)) ->
     exists score total passed,
       result !! "score" = Some (VInt score) /\
       result !! "total" = Some (VInt total) /\
       result !! "passed" = Some (VBool passed) /\
       0 <= score <= total /\
       (total < 7505999378950828 -> (passed = true <-> spec_pass_mark total <= score)) /\
       msg = (if passed then "Passed" else "Failed") /\
       last (db_assessmentresult st') = Some result).
Proof.
  split.
  - intros rm step Hrm Hstep Hgate Hlen score total.
    rewrite (submit_assessment_run payload st rm step Hrm Hstep). cbv zeta.
    set (cs := answerIndex <$> questions step).
    set (answers := SubmitAssessment.answers payload).
    assert (length cs = length (questions step)) as Hcs by apply length_fmap.
    rewrite (proj2 (gate_open_spec _ _)) by (by rewrite progress_of_doc_completed).
    rewrite Hcs. fold total. rewrite passed_of_exact by (unfold total; lia).
    assert (score_of cs answers = score) as Hscore by apply score_of_spec.
    pose proof (score_of_bounds cs answers) as Hb. rewrite Hcs, Hscore in Hb. fold total in Hb.
    rewrite Hscore.
    set (po := progress_of st _ _).
    destruct (result_doc_fields payload score total (spec_pass_mark total <=? score)
                (db_next_oid po.1)) as (Hs & Ht & Hp).
    eexists _, _, _, (spec_pass_mark total <=? score). split; [reflexivity|].
    split; [exact Hs|]. split; [exact Ht|]. split; [exact Hp|].
    split; [apply Z.leb_le|]. split; [|split; [reflexivity|apply graded_store_log]].
    intros H1. rewrite Z.leb_le, H1, spec_pass_mark_one. rewrite H1 in Hb. lia.
  - intros st' result msg Hsub.
    destruct (submit_assessment_found _ _ _ _ Hsub) as (rm & step & Hrm & Hstep).
    rewrite (submit_assessment_run payload st rm step Hrm Hstep) in Hsub. cbv zeta in Hsub.
    destruct (gate_closed _ _); [done|].
    set (cs := answerIndex <$> questions step) in Hsub.
    set (score := score_of cs _) in Hsub. set (total := Z.of_nat (length cs)) in Hsub.
    destruct (passed_of score total) as [passed|] eqn:Hpassed; [|done].
    injection Hsub as <- <- <-.
    set (po := progress_of st _ _).
    destruct (result_doc_fields payload score total passed (db_next_oid po.1))
      as (Hs & Ht & Hp).
    exists score, total, passed. split; [exact Hs|]. split; [exact Ht|]. split; [exact Hp|].
    split; [apply score_of_bounds|]. split; [|split; [reflexivity|apply graded_store_log]].
    intros Hlt. rewrite passed_of_exact in Hpassed by (unfold total; lia).
    injection Hpassed as <-. apply Z.leb_le.
Qed.

(** *** C4: the log of results and the completed steps *)

Lemma pass_update_lookup_other (step_order score : Z) (d : document) (k : string) :
  k <> "completed_steps" -> k <> "scores" ->
  pass_update step_order score d !! k = d !! k.
Proof.
  intros Hk1 Hk2. unfold pass_update, mongo_set_nested, mongo_addToSet.
  repeat case_match; by simplify_map_eq.
Qed.

Lemma pass_update_completed (step_order score : Z) (d : document) (l : list Z) :
  d !! "completed_steps" = Some (VInts l) ->
  pass_update step_order score d !! "completed_steps" =
  Some (VInts (if bool_decide (step_order ∈ l) then l else l ++ [step_order])).
Proof.
  intros Hl. unfold pass_update, mongo_set_nested, mongo_addToSet. rewrite Hl.
  destruct (bool_decide (step_order ∈ l)); repeat case_match; by simplify_map_eq.
Qed.

Lemma pass_update_matches (step_order score : Z) (user_id domain : string) (d : document) :
  matches (progress_filter user_id domain) d = true ->
  matches (progress_filter user_id domain) (pass_update step_order score d) = true.
Proof.
  rewrite !matches_progress_filter. by rewrite !pass_update_lookup_other.
Qed.

Lemma progress_ok_completed (d : document) :
  progress_ok d ->
  exists l, d !! "completed_steps" = Some (VInts l) /\ NoDup l.
Proof.
  unfold progress_ok. destruct (d !! "completed_steps") as [[]|]; try done.
  intros Hnd%bool_decide_unpack. by eexists.
Qed.

Lemma progress_ok_pass_update (step_order score : Z) (d : document) :
  progress_ok d -> progress_ok (pass_update step_order score d).
Proof.
  intros (l & Hl & Hnd)%progress_ok_completed. unfold progress_ok.
  rewrite (pass_update_completed _ _ _ _ Hl). apply bool_decide_pack.
  destruct (bool_decide_reflect (step_order ∈ l)); [done|].
  apply NoDup_app. split; [done|]. split; [|apply NoDup_singleton].
  by intros x Hx ->%list_elem_of_singleton.
Qed.

Lemma fresh_progress_ok (user_id domain : string) (oid : ObjectId) :
  progress_ok (fresh_progress user_id domain oid).
Proof.
  unfold progress_ok.
  assert (fresh_progress user_id domain oid !! "completed_steps" = Some (VInts [])) as ->
    by (unfold fresh_progress, Progress_model_dump; by simplify_map_eq).
  apply bool_decide_pack, NoDup_nil_2.
Qed.

Lemma progress_of_wf (st : Store) (user_id domain : string) :
  progress_wf (db_progress st) ->
  progress_wf (db_progress (progress_of st user_id domain).1).
Proof.
  intros Hwf. unfold progress_of. destruct (find_one _ _); [done|].
  cbn [fst db_progress set_progress]. apply Forall_app. split; [done|].
  apply Forall_singleton, fresh_progress_ok.
Qed.

(** The first match of a filter after the update of a passing submission. *)
Lemma update_one_pass (coll : collection) (fresh : ObjectId) (user_id domain : string)
    (step_order score : Z) (prog : document) :
  find_one coll (progress_filter user_id domain) = Some prog ->
  let coll' := update_one coll fresh (progress_filter user_id domain)
                 (pass_update step_order score) true in
  find_one coll' (progress_filter user_id domain) = Some (pass_update step_order score prog) /\
  (progress_wf coll -> progress_wf coll').
Proof.
  intros Hfind coll'. subst coll'. unfold update_one.
  apply find_one_Some in Hfind as Hm. destruct Hm as [_ Hm].
  destruct (update_first_Some _ (pass_update step_order score) _ _ Hfind)
    as (pre & post & -> & Hpre & ->).
  split.
  - unfold find_one. rewrite find_app_skip by done. cbn [find].
    by rewrite pass_update_matches.
  - unfold progress_wf. rewrite !Forall_app, !Forall_cons.
    intros (Hp & Hd & Hq). split; [done|]. split; [|done].
    by apply progress_ok_pass_update.
Qed.

Lemma filter_eqb_once (x : Z) (l : list Z) :
  NoDup l -> x ∈ l -> length (List.filter (Z.eqb x) l) = 1%nat.
Proof.
  induction 1 as [|y l Hy Hnd IH]; [by intros ?%elem_of_nil|].
  cbn [List.filter]. intros [->|Hin]%elem_of_cons.
  - rewrite Z.eqb_refl. cbn [length]. f_equal.
    clear IH. induction l as [|z l IHl]; [done|]. cbn [List.filter].
    apply not_elem_of_cons in Hy as [Hne Hy]. apply NoDup_cons in Hnd as [_ Hnd].
    destruct (Z.eqb_spec y z); [done|]. by apply IHl.
  - destruct (Z.eqb_spec x y) as [->|]; [done|]. by apply IH.
Qed.

(** C4: every graded submission appends exactly one result to the log; a
    failing one leaves every user's completed steps and scores as they were;
    a passing one leaves the step order exactly once among the completed
    steps, and changes nothing there when the step was already completed. *)
Theorem submit_assessment_log_and_progress (payload : SubmitAssessment.t) (st st' : Store)
    (result : document) (msg : string) :
  submit_assessment payload st = (st', Return (result, msg)) ->
  let user_id := SubmitAssessment.user_id payload in
  let domain := SubmitAssessment.domain payload in
  let N := SubmitAssessment.step_order payload in
  db_assessmentresult st' = db_assessmentresult st ++ [result] /\
  (exists passed, result !! "passed" = Some (VBool passed)) /\
  (result !! "passed" = Some (VBool false) ->
   (forall u d, completed_steps_of st' u d = completed_steps_of st u d) /\
   (forall u d, scores_of st' u d = scores_of st u d)) /\
  (result !! "passed" = Some (VBool true) -> progress_wf (db_progress st) ->
   let before := completed_steps_of st user_id domain in
   let after := completed_steps_of st' user_id domain in
   N ∈ after /\ NoDup after /\ length (List.filter (Z.eqb N) after) = 1%nat /\
   (N ∈ before -> after = before) /\ (N ∉ before -> after = before ++ [N]) /\
   progress_wf (db_progress st')).
Proof.
  intros Hsub user_id domain N.
  destruct (submit_assessment_found _ _ _ _ Hsub) as (rm & step & Hrm & Hstep).
  rewrite (submit_assessment_run payload st rm step Hrm Hstep) in Hsub. cbv zeta in Hsub.
  fold user_id domain N in Hsub.
  destruct (gate_closed _ _); [done|].
  set (score := score_of _ _) in Hsub. set (total := Z.of_nat _) in Hsub.
  destruct (passed_of score total) as [passed|]; [|done].
  injection Hsub as <- <- _.
  set (po := progress_of st user_id domain).
  destruct (progress_of_rest st user_id domain) as (_ & _ & Hres). fold po in Hres.
  destruct (result_doc_fields payload score total passed (db_next_oid po.1))
    as (_ & _ & Hpassed).
  split; [|split; [by exists passed|split]].
  - unfold graded_store. destruct passed; cbn [db_assessmentresult set_progress
      set_assessmentresult]; by rewrite Hres.
  - rewrite Hpassed. intros [= ->]. unfold graded_store.
    split; intros u d.
    + unfold completed_steps_of. cbn [db_progress set_assessmentresult].
      apply progress_of_completed.
    + unfold scores_of. cbn [db_progress set_assessmentresult].
      apply progress_of_scores.
  - rewrite Hpassed. intros [= ->] Hwf before after.
    pose proof (progress_of_find st user_id domain) as Hfind. fold po in Hfind.
    pose proof (progress_of_wf st user_id domain Hwf) as Hwf1. fold po in Hwf1.
    destruct (update_one_pass (db_progress po.1) (S (db_next_oid po.1)) user_id domain
                N score po.2 Hfind) as [Hfind' Hwf'].
    assert (progress_ok po.2) as Hok.
    { apply find_one_Some in Hfind as [Hin _].
      unfold progress_wf in Hwf1. rewrite Forall_forall in Hwf1. by apply Hwf1. }
    destruct (progress_ok_completed _ Hok) as (l & Hl & Hnd).
    assert (before = l) as Hbefore.
    { unfold before. rewrite <- (progress_of_doc_completed st user_id domain). fold po.
      unfold get_ints. by rewrite Hl. }
    assert (db_progress (graded_store payload po.1 score total true) =
            update_one (db_progress po.1) (S (db_next_oid po.1))
              (progress_filter user_id domain) (pass_update N score) true) as Hdb by done.
    assert (after = if bool_decide (N ∈ l) then l else l ++ [N]) as Hafter.
    { unfold after, completed_steps_of. rewrite Hdb, Hfind'. unfold get_ints.
      by rewrite (pass_update_completed _ _ _ _ Hl). }
    rewrite Hafter, Hbefore, Hdb.
    destruct (bool_decide_reflect (N ∈ l)) as [Hin|Hnin].
    + split; [done|]. split; [done|]. split; [by apply filter_eqb_once|].
      split; [done|]. split; [done|]. by apply Hwf'.
    + assert (NoDup (l ++ [N])) as Hnd'.
      { apply NoDup_app. split; [done|]. split; [|apply NoDup_singleton].
        by intros x Hx ->%list_elem_of_singleton. }
      assert (N ∈ l ++ [N]) as Hin' by (apply elem_of_app; right; by left).
      split; [done|]. split; [done|]. split; [by apply filter_eqb_once|].
      split; [done|]. split; [done|]. by apply Hwf'.
Qed.

(** *** The theorems at the sample store *)

Lemma sample_roadmap_found :
  find_one (db_roadmap registered_store) {["domain" := VStr "frontend"]} = Some sample_roadmap.
Proof. vm_refl. Qed.

Lemma sample_step_found (n : Z) :
  n = 1 \/ n = 2 ->
  find (fun s => bool_decide (order s = n)) (get_steps sample_roadmap) = Some (sample_step n).
Proof. intros [->| ->]; vm_refl. Qed.

Lemma submit_assessment_score_total_witness :
  exists st' result msg,
    submit_assessment sample_submit_pass registered_store = (st', Return (result, msg)) /\
    result !! "score" = Some (VInt 2) /\ result !! "total" = Some (VInt 2).
Proof.
  destruct (submit_assessment_score_total sample_submit_pass registered_store
              sample_roadmap (sample_step 1) sample_roadmap_found
              (sample_step_found 1 (or_introl eq_refl)))
    as (st' & result & msg & Hrun & Hs & Ht & _).
  - intros [Hlt _]. vm_compute in Hlt. discriminate.
  - compute_done.
  - exists st', result, msg. split; [exact Hrun|]. split.
    + rewrite Hs. vm_refl.
    + rewrite Ht. vm_refl.
Defined.

Lemma sample_backend_found :
  find_one (db_roadmap registered_store) {["domain" := VStr "backend"]} = Some sample_backend.
Proof. vm_refl. Qed.

Lemma sample_backend_step_found :
  find (fun s => bool_decide (order s = 1)) (get_steps sample_backend)
  = Some sample_backend_step.
Proof. vm_refl. Qed.

(** The one-question step answered correctly passes, answered incorrectly
    fails. *)
Lemma passed_iff_exact_pass_mark_witness :
  (exists st' result,
     submit_assessment sample_submit_one_right registered_store =
       (st', Return (result, "Passed")) /\
     result !! "score" = Some (VInt 1) /\ result !! "total" = Some (VInt 1) /\
     result !! "passed" = Some (VBool true)) /\
  (exists st' result,
     submit_assessment sample_submit_one_wrong registered_store =
       (st', Return (result, "Failed")) /\
     result !! "score" = Some (VInt 0) /\ result !! "total" = Some (VInt 1) /\
     result !! "passed" = Some (VBool false)).
Proof.
  split.
  - destruct (proj1 (passed_iff_exact_pass_mark sample_submit_one_right registered_store)
                sample_backend sample_backend_step sample_backend_found
                sample_backend_step_found)
      as (st' & result & msg & passed & Hrun & Hs & Ht & Hp & _ & Hone & Hmsg & _).
    + intros [Hlt _]. vm_compute in Hlt. discriminate.
    + compute_done.
    + assert (passed = true) as -> by (apply Hone; vm_refl).
      exists st', result. rewrite Hmsg in Hrun. exact (conj Hrun (conj Hs (conj Ht Hp))).
  - destruct (proj1 (passed_iff_exact_pass_mark sample_submit_one_wrong registered_store)
                sample_backend sample_backend_step sample_backend_found
                sample_backend_step_found)
      as (st' & result & msg & passed & Hrun & Hs & Ht & Hp & _ & Hone & Hmsg & _).
    + intros [Hlt _]. vm_compute in Hlt. discriminate.
    + compute_done.
    + assert (passed = false) as ->.
      { destruct passed; [|reflexivity]. exfalso.
        assert (0 = 1) as Habs by (apply (proj1 (Hone eq_refl)); reflexivity). discriminate. }
      exists st', result. rewrite Hmsg in Hrun. exact (conj Hrun (conj Hs (conj Ht Hp))).
Defined.

Lemma submit_assessment_gate_witness :
  exists st',
    submit_assessment sample_submit_locked registered_store =
      (st', Raise (http 403 "Complete previous step first")) /\
    db_assessmentresult st' = db_assessmentresult registered_store.
Proof.
  destruct (proj1 (submit_assessment_gate sample_submit_locked registered_store
                     sample_roadmap (sample_step 2) sample_roadmap_found
                     (sample_step_found 2 (or_intror eq_refl))))
    as (st' & Hrun & _ & Hlog & _).
  - compute_done.
  - compute_done.
  - exists st'. exact (conj Hrun Hlog).
Defined.

Lemma sample_graded_run :
  submit_assessment sample_submit_pass registered_store =
  (sample_graded.1, Return (sample_result, sample_message)).
Proof. vm_refl. Qed.

Lemma submit_assessment_log_and_progress_witness :
  db_assessmentresult sample_graded.1 =
    db_assessmentresult registered_store ++ [sample_result] /\
  1 ∈ completed_steps_of sample_graded.1 "3" "frontend" /\
  length (List.filter (Z.eqb 1) (completed_steps_of sample_graded.1 "3" "frontend")) = 1%nat.
Proof.
  destruct (submit_assessment_log_and_progress sample_submit_pass registered_store
              sample_graded.1 sample_result sample_message sample_graded_run)
    as (Hlog & _ & _ & Hpass).
  destruct Hpass as (Hin & _ & Hcount & _).
  - vm_refl.
  - unfold progress_wf. compute_done.
  - exact (conj Hlog (conj Hin Hcount)).
Defined.

(** Passing the first step twice logs two results and keeps one entry among
    the completed steps; the second step is then unlocked. *)
Example pass_twice_example :
  let st2 := (submit_assessment sample_submit_pass sample_graded.1).1 in
  completed_steps_of st2 "3" "frontend" = [1] /\
  length (db_assessmentresult st2) = 2%nat /\
  gate_closed (progress_of st2 "3" "frontend").2 2 = false.
Proof. cbv zeta. split; [vm_refl|split; vm_refl]. Qed.

(** A failing submission is logged and completes nothing. *)
Example fail_example :
  let r := submit_assessment sample_submit_fail registered_store in
  completed_steps_of r.1 "3" "frontend" = [] /\
  length (db_assessmentresult r.1) = 1%nat /\
  (match r.2 with Return x => x.2 | Raise _ => "" end) = "Failed".
Proof. cbv zeta. split; [vm_refl|split; vm_refl]. Qed.

(** ** Seeding *)

Lemma roadmap_doc_no_id (domain : string) (steps : list RoadmapStep) :
  roadmap_doc domain steps !! "_id" = None.
Proof. unfold roadmap_doc. by simplify_map_eq. Qed.

(** One turn of the loop, by cases on the record found for the domain. *)
Lemma seed_one_run (st : Store) (item : string * list RoadmapStep) :
  seed_one st item =
  match find_one (db_roadmap st) {["domain" := VStr item.1]} with
  | Some _ => st
  | None =>
      set_roadmap (db_roadmap st ++ [<["_id" := VOid (db_next_oid st)]>
                                       (roadmap_doc item.1 item.2)])
        (S (db_next_oid st)) st
  end.
Proof.
  unfold seed_one. destruct (find_one _ _) as [d|] eqn:Hfind.
  - by rewrite (find_one_truthy _ _ _ (singleton_nonempty _ _) Hfind).
  - cbn [truthy_doc negb]. unfold insert_one. by rewrite roadmap_doc_no_id.
Qed.

Lemma stored_roadmap_fields (domain : string) (steps : list RoadmapStep) (oid : ObjectId) :
  (<["_id" := VOid oid]> (roadmap_doc domain steps)) !! "domain" = Some (VStr domain) /\
  get_steps (<["_id" := VOid oid]> (roadmap_doc domain steps)) = steps.
Proof. unfold get_steps, roadmap_doc. by simplify_map_eq. Qed.

Lemma find_one_app_Some (coll more : collection) (flt d : document) :
  find_one coll flt = Some d -> find_one (coll ++ more) flt = Some d.
Proof.
  unfold find_one. induction coll as [|x coll IH]; cbn [find app]; [done|].
  by destruct (matches flt x).
Qed.

Lemma find_one_app_None (coll more : collection) (flt : document) :
  find_one (coll ++ more) flt = None -> find_one coll flt = None.
Proof.
  unfold find_one. induction coll as [|x coll IH]; cbn [find app]; [done|].
  by destruct (matches flt x).
Qed.

(** What a run of the seeding loop adds: only roadmaps of seeds whose domain
    had no record, after the records that were there. *)
Lemma seed_from_spec (seeds : list (string * list RoadmapStep)) (st : Store) :
  exists added,
    db_roadmap (seed_from seeds st) = db_roadmap st ++ added /\
    db_user (seed_from seeds st) = db_user st /\
    db_progress (seed_from seeds st) = db_progress st /\
    db_assessmentresult (seed_from seeds st) = db_assessmentresult st /\
    Forall (fun doc => exists item,
              item ∈ seeds /\
              find_one (db_roadmap st) {["domain" := VStr item.1]} = None /\
              doc !! "domain" = Some (VStr item.1) /\ get_steps doc = item.2) added.
Proof.
  revert st. induction seeds as [|item seeds IH]; intros st.
  - exists []. by rewrite app_nil_r.
  - unfold seed_from in *. cbn [foldl].
    destruct (IH (seed_one st item)) as (added & Hrm & Hu & Hp & Ha & Hadded).
    rewrite Hrm, Hu, Hp, Ha. rewrite seed_one_run in *.
    destruct (find_one (db_roadmap st) {["domain" := VStr item.1]}) as [d|] eqn:Hfind.
    + exists added. repeat split; try done.
      eapply Forall_impl; [exact Hadded|]. intros doc (it & Hin & Hrest).
      exists it. split; [by right|done].
    + cbn [db_roadmap db_user db_progress db_assessmentresult set_roadmap] in *.
      eexists (_ :: added). rewrite <- app_assoc. cbn [app].
      repeat split; try done. apply Forall_cons. split.
      * exists item. split; [by left|]. split; [done|]. apply stored_roadmap_fields.
      * eapply Forall_impl; [exact Hadded|]. intros doc (it & Hin & Hnone & Hrest).
        exists it. split; [by right|]. split; [|done].
        by apply find_one_app_None in Hnone.
Qed.

Lemma seed_one_keeps (st : Store) (item : string * list RoadmapStep) (flt d : document) :
  find_one (db_roadmap st) flt = Some d ->
  find_one (db_roadmap (seed_one st item)) flt = Some d.
Proof.
  intros Hd. rewrite seed_one_run.
  destruct (find_one (db_roadmap st) {["domain" := VStr item.1]}); [done|].
  cbn [db_roadmap set_roadmap]. by apply find_one_app_Some.
Qed.

Lemma seed_from_keeps (seeds : list (string * list RoadmapStep)) (st : Store)
    (flt d : document) :
  find_one (db_roadmap st) flt = Some d ->
  find_one (db_roadmap (seed_from seeds st)) flt = Some d.
Proof.
  revert st. induction seeds as [|item seeds IH]; intros st Hd; [done|].
  unfold seed_from in *. cbn [foldl]. by apply IH, seed_one_keeps.
Qed.

Lemma seed_one_seeded (st : Store) (item : string * list RoadmapStep) :
  exists d, find_one (db_roadmap (seed_one st item)) {["domain" := VStr item.1]} = Some d.
Proof.
  rewrite seed_one_run.
  destruct (find_one (db_roadmap st) {["domain" := VStr item.1]}) as [d|] eqn:Hfind;
    [by exists d|].
  cbn [db_roadmap set_roadmap]. rewrite find_one_app, Hfind.
  eexists. erewrite (proj2 (matches_singleton _ _ _)); [done|].
  apply stored_roadmap_fields.
Qed.

(** After the loop every seed domain has a record. *)
Lemma seed_from_seeded (seeds : list (string * list RoadmapStep)) (st : Store)
    (item : string * list RoadmapStep) :
  item ∈ seeds ->
  exists d, find_one (db_roadmap (seed_from seeds st)) {["domain" := VStr item.1]} = Some d.
Proof.
  revert st. induction seeds as [|x seeds IH]; intros st Hin; [by apply elem_of_nil in Hin|].
  unfold seed_from in *. cbn [foldl]. apply elem_of_cons in Hin as [->|Hin].
  - destruct (seed_one_seeded st x) as [d Hd]. exists d.
    by apply (seed_from_keeps seeds).
  - by apply IH.
Qed.

(** A store in which every seed domain has a record is left as it is. *)
Lemma seed_from_fixed (seeds : list (string * list RoadmapStep)) (st : Store) :
  (forall item, item ∈ seeds ->
     exists d, find_one (db_roadmap st) {["domain" := VStr item.1]} = Some d) ->
  seed_from seeds st = st.
Proof.
  induction seeds as [|x seeds IH]; intros Hall; [done|].
  unfold seed_from in *. cbn [foldl]. rewrite seed_one_run.
  destruct (Hall x ltac:(by left)) as [d ->]. apply IH.
  intros item Hin. apply Hall. by right.
Qed.

Lemma seed_from_idempotent (seeds : list (string * list RoadmapStep)) (st : Store) :
  seed_from seeds (seed_from seeds st) = seed_from seeds st.
Proof. apply seed_from_fixed. intros item Hin. by apply seed_from_seeded. Qed.

(** C8: seeding is idempotent.  A run adds, after the roadmaps already
    stored, a roadmap for each predefined domain that had no record and for
    no other; it leaves every stored roadmap in place; run on the empty store
    it leaves one record per predefined domain with the predefined steps, and
    a second run changes nothing. *)
Theorem ensure_roadmaps_seeded_idempotent (db : option Store) :
  (ensure_roadmaps_seeded db ≫= fun st => ensure_roadmaps_seeded (Some st)) =
    ensure_roadmaps_seeded db /\
  (forall st, db = Some st ->
     exists st' added,
       ensure_roadmaps_seeded db = Some st' /\
       db_roadmap st' = db_roadmap st ++ added /\
       Forall (fun doc => exists item,
                 item ∈ SEED_ROADMAPS /\
                 find_one (db_roadmap st) {["domain" := VStr item.1]} = None /\
                 doc !! "domain" = Some (VStr item.1) /\ get_steps doc = item.2) added /\
       (forall flt d, find_one (db_roadmap st) flt = Some d ->
                      find_one (db_roadmap st') flt = Some d) /\
       (forall item, item ∈ SEED_ROADMAPS ->
          exists d, find_one (db_roadmap st') {["domain" := VStr item.1]} = Some d)) /\
  ensure_roadmaps_seeded (Some empty_store) = Some seeded_store /\
  ensure_roadmaps_seeded (Some seeded_store) = Some seeded_store /\
  (fun d : document => (d !! "domain", get_steps d)) <$> db_roadmap seeded_store =
    (fun item => (Some (VStr item.1), item.2)) <$> SEED_ROADMAPS.
Proof.
  split; [|split; [|split; [|split]]].
  - destruct db as [st|]; [|done]. cbn [ensure_roadmaps_seeded mbind option_bind].
    by rewrite seed_from_idempotent.
  - intros st ->. cbn [ensure_roadmaps_seeded].
    destruct (seed_from_spec SEED_ROADMAPS st) as (added & Hrm & _ & _ & _ & Hadded).
    exists (seed_from SEED_ROADMAPS st), added.
    split; [done|]. split; [done|]. split; [done|]. split.
    + intros flt d. apply seed_from_keeps.
    + intros item. apply seed_from_seeded.
  - reflexivity.
  - cbn [ensure_roadmaps_seeded]. unfold seeded_store. by rewrite seed_from_idempotent.
  - vm_refl.
Qed.

Lemma ensure_roadmaps_seeded_idempotent_witness :
  exists st' added,
    ensure_roadmaps_seeded (Some registered_store) = Some st' /\
    db_roadmap st' = db_roadmap registered_store ++ added.
Proof.
  destruct (proj1 (proj2 (ensure_roadmaps_seeded_idempotent (Some registered_store)))
              registered_store eq_refl) as (st' & added & H1 & H2 & _).
  exists st', added. exact (conj H1 H2).
Defined.

(** ** The invariant is kept *)

Lemma store_inv_empty : store_inv empty_store.
Proof.
  repeat split; [apply NoDup_nil_2|apply Forall_nil_2|apply Forall_nil_2|apply Forall_nil_2].
Qed.

Lemma ids_below_mono (n m : ObjectId) (coll : collection) :
  (n <= m)%nat -> ids_below n coll -> ids_below m coll.
Proof.
  intros Hnm Hn. eapply Forall_impl; [exact Hn|]. intros d. unfold id_below.
  destruct (d !! "_id") as [[]|]; try done.
  intros Ho%bool_decide_unpack. apply bool_decide_pack. lia.
Qed.

Lemma seed_from_next_oid (seeds : list (string * list RoadmapStep)) (st : Store) :
  (db_next_oid st <= db_next_oid (seed_from seeds st))%nat.
Proof.
  revert st. induction seeds as [|item seeds IH]; intros st; [done|].
  unfold seed_from in *. cbn [foldl]. etrans; [|apply IH].
  rewrite seed_one_run. destruct (find_one _ _); cbn [db_next_oid set_roadmap]; lia.
Qed.

Lemma SEED_ROADMAPS_orders :
  Forall (fun item : string * list RoadmapStep => Forall (fun s => 1 <= order s) item.2)
    SEED_ROADMAPS.
Proof. compute_done. Qed.

Lemma seed_from_inv (st : Store) :
  store_inv st -> store_inv (seed_from SEED_ROADMAPS st).
Proof.
  intros (Hu & Hi & Hp & Ho).
  destruct (seed_from_spec SEED_ROADMAPS st) as (added & Hrm & Hus & Hpr & _ & Hadded).
  unfold store_inv, orders_from_one. rewrite Hus, Hpr, Hrm.
  split; [done|]. split; [eapply ids_below_mono; [apply seed_from_next_oid|done]|].
  split; [done|]. apply Forall_app. split; [done|].
  eapply Forall_impl; [exact Hadded|]. intros doc (item & Hin & _ & _ & ->).
  pose proof SEED_ROADMAPS_orders as Hall. rewrite Forall_forall in Hall. by apply Hall.
Qed.

Lemma update_first_keeps (p : document -> bool) (f : document -> document)
    (coll coll' : collection) (k : string) :
  (forall d, f d !! k = d !! k) ->
  update_first p f coll = Some coll' ->
  (fun d : document => d !! k) <$> coll' = (fun d : document => d !! k) <$> coll.
Proof.
  intros Hf. revert coll'. induction coll as [|d coll IH]; intros coll'; cbn [update_first];
    [done|].
  destruct (p d).
  - intros [= <-]. cbn [fmap list_fmap]. by rewrite Hf.
  - destruct (update_first p f coll) as [rest|]; [|done].
    intros [= <-]. cbn [fmap list_fmap]. by rewrite (IH rest).
Qed.

Lemma update_one_keeps (coll : collection) (fresh : ObjectId) (flt : document)
    (f : document -> document) (k : string) :
  (forall d, f d !! k = d !! k) ->
  (fun d : document => d !! k) <$> update_one coll fresh flt f false =
  (fun d : document => d !! k) <$> coll.
Proof.
  intros Hf. unfold update_one.
  destruct (update_first _ _ _) as [coll'|] eqn:Hup; [|done].
  by eapply update_first_keeps.
Qed.

Lemma mongo_set_profile_keeps (payload : UpdateProfile.t) (d : document) (k : string) :
  k = "email" \/ k = "_id" ->
  mongo_set (UpdateProfile_model_dump payload) d !! k = d !! k.
Proof.
  intros Hk. unfold mongo_set. apply lookup_union_r.
  unfold UpdateProfile_model_dump. destruct Hk as [-> | ->]; by simplify_map_eq.
Qed.

Lemma unique_emails_by_fields (coll coll' : collection) :
  (fun d : document => d !! "email") <$> coll' = (fun d : document => d !! "email") <$> coll ->
  unique_emails coll -> unique_emails coll'.
Proof.
  unfold unique_emails. intros Heq.
  assert (forall l : collection,
            omap (fun d : document => d !! "email") l =
            omap id ((fun d : document => d !! "email") <$> l)) as Hom.
  { induction l as [|d l IH]; [done|]. cbn. rewrite <- IH. by destruct (d !! "email"). }
  by rewrite !Hom, Heq.
Qed.

Lemma ids_below_by_fields (n : ObjectId) (coll coll' : collection) :
  (fun d : document => d !! "_id") <$> coll' = (fun d : document => d !! "_id") <$> coll ->
  ids_below n coll -> ids_below n coll'.
Proof.
  unfold ids_below. revert coll'. induction coll as [|d coll IH]; intros [|d' coll'] Heq;
    try done.
  cbn [fmap list_fmap] in Heq. injection Heq as Hd Hrest.
  rewrite !Forall_cons. intros [Hok Hall]. split; [|by apply IH].
  unfold id_below in *. by rewrite Hd.
Qed.

Lemma progress_of_inv (st : Store) (user_id domain : string) :
  store_inv st -> store_inv (progress_of st user_id domain).1.
Proof.
  intros (Hu & Hi & Hp & Ho).
  pose proof (progress_of_wf st user_id domain Hp) as Hp'.
  revert Hp'. unfold progress_of. destruct (find_one _ _); [done|].
  cbn [fst]. intros Hp'. repeat split; try done.
  cbn [db_user db_next_oid set_progress]. eapply ids_below_mono; [|exact Hi]. lia.
Qed.

Section InvariantHandlers.
Context `{Externals}.

Lemma register_inv (st st' : Store) (user : User.t) (out : outcome (option document)) :
  register user st = (st', out) -> store_inv st -> store_inv st'.
Proof.
  intros Hrun (Hu & Hi & Hp & Ho).
  destruct (register_preserves_invariants _ _ _ _ Hrun Hu Hi) as [Hu' Hi'].
  rewrite register_run in Hrun.
  destruct (bool_decide _); [|by simplify_eq].
  destruct (truthy_doc _); [by simplify_eq|].
  cbv zeta in Hrun. injection Hrun as <- _. done.
Qed.

Lemma login_inv (st st' : Store) (payload : LoginRequest.t) (out : outcome (option document)) :
  login payload st = (st', out) -> store_inv st -> store_inv st'.
Proof.
  rewrite login_run. destruct (find_one _ _); [destruct (bool_decide _)|];
    by intros [= <- _].
Qed.

Lemma get_profile_inv (st st' : Store) (user_id : string) (out : outcome (option document)) :
  get_profile user_id st = (st', out) -> store_inv st -> store_inv st'.
Proof.
  unfold get_profile. destruct (ObjectId_parse user_id); [|by intros [= <- _]].
  run_handler. destruct (truthy_doc _); by intros [= <- _].
Qed.

Lemma update_profile_inv (st st' : Store) (user_id : string) (payload : UpdateProfile.t)
    (out : outcome (option document)) :
  update_profile user_id payload st = (st', out) -> store_inv st -> store_inv st'.
Proof.
  unfold update_profile. destruct (ObjectId_parse user_id) as [oid|]; [|by intros [= <- _]].
  destruct (value_in _ _); [|by intros [= <- _]]. cbn [negb]. run_handler.
  intros [= <- _] (Hu & Hi & Hp & Ho).
  repeat split; cbn [db_user db_next_oid db_progress set_user]; try done.
  - eapply unique_emails_by_fields; [|exact Hu].
    apply update_one_keeps. intros d. apply mongo_set_profile_keeps. by left.
  - eapply ids_below_by_fields; [|exact Hi].
    apply update_one_keeps. intros d. apply mongo_set_profile_keeps. by right.
Qed.

Lemma get_progress_inv (st st' : Store) (user_id domain : string)
    (out : outcome (option document)) :
  get_progress user_id domain st = (st', out) -> store_inv st -> store_inv st'.
Proof. rewrite get_progress_run. intros [= <- _]. apply progress_of_inv. Qed.

End InvariantHandlers.

Lemma graded_store_inv (payload : SubmitAssessment.t) (st : Store) (score total : Z)
    (passed : bool) :
  (exists prog, find_one (db_progress st)
                  (progress_filter (SubmitAssessment.user_id payload)
                     (SubmitAssessment.domain payload)) = Some prog) ->
  store_inv st -> store_inv (graded_store payload st score total passed).
Proof.
  intros [prog Hfind] (Hu & Hi & Hp & Ho). unfold graded_store. destruct passed.
  - destruct (update_one_pass (db_progress st) (S (db_next_oid st)) _ _
                (SubmitAssessment.step_order payload) score prog Hfind) as [_ Hwf].
    repeat split; cbn [db_user db_next_oid db_progress set_progress set_assessmentresult];
      try done.
    + eapply ids_below_mono; [|exact Hi]. lia.
    + by apply Hwf.
  - repeat split; cbn [db_user db_next_oid db_progress set_assessmentresult]; try done.
    eapply ids_below_mono; [|exact Hi]. lia.
Qed.

Lemma submit_assessment_inv (st st' : Store) (payload : SubmitAssessment.t)
    (out : outcome (document * string)) :
  submit_assessment payload st = (st', out) -> store_inv st -> store_inv st'.
Proof.
  intros Hrun Hinv.
  destruct (find_one (db_roadmap st) {["domain" := VStr (SubmitAssessment.domain payload)]})
    as [rm|] eqn:Hrm.
  - destruct (find (fun s => bool_decide (order s = SubmitAssessment.step_order payload))
                (get_steps rm)) as [step|] eqn:Hstep.
    + rewrite (submit_assessment_run payload st rm step Hrm Hstep) in Hrun. cbv zeta in Hrun.
      pose proof (progress_of_inv st (SubmitAssessment.user_id payload)
                    (SubmitAssessment.domain payload) Hinv) as Hinv1.
      destruct (gate_closed _ _); [by injection Hrun as <- _|].
      destruct (passed_of _ _) as [passed|]; [|by injection Hrun as <- _].
      injection Hrun as <- _. apply graded_store_inv; [|done].
      eexists. apply progress_of_find.
    + revert Hrun. unfold submit_assessment. run_handler.
      rewrite Hrm, (find_one_truthy _ _ _ (singleton_nonempty _ _) Hrm).
      cbn [negb from_option id]. rewrite Hstep. by intros [= <- _].
  - revert Hrun. unfold submit_assessment. run_handler. rewrite Hrm. by intros [= <- _].
Qed.

(** * Further properties of the handlers *)

(** ** Registration, login and profile together *)

Section IdentityMore.
Context `{Externals}.

Lemma find_one_is_Some (coll : collection) (flt d : document) :
  d ∈ coll -> matches flt d = true -> exists d', find_one coll flt = Some d'.
Proof.
  intros Hin Hm. destruct (find_one coll flt) as [d'|] eqn:Hfind; [by exists d'|].
  rewrite find_one_None in Hfind. by rewrite (Hfind d Hin) in Hm.
Qed.

Lemma truthy_doc_find_None (coll : collection) (flt : document) :
  flt <> ∅ -> truthy_doc (find_one coll flt) = false -> find_one coll flt = None.
Proof.
  intros Hne Ht. destruct (find_one coll flt) as [d|] eqn:Hfind; [|done].
  by rewrite (find_one_truthy _ _ _ Hne Hfind) in Ht.
Qed.

Lemma register_taken_run (st : Store) (user : User.t) (d : document) :
  User.qualification user ∈ ALLOWED_QUALIFICATIONS ->
  d ∈ db_user st -> d !! "email" = Some (VStr (User.email user)) ->
  register user st = (st, Raise (http 400 "Email already registered")).
Proof.
  intros Hq Hin He. rewrite register_run, bool_decide_eq_true_2 by done.
  destruct (find_one_is_Some (db_user st) {["email" := VStr (User.email user)]} d Hin)
    as [d' Hd']; [by apply matches_singleton|].
  by rewrite Hd', (find_one_truthy _ _ _ (singleton_nonempty _ _) Hd').
Qed.

(** What a successful registration leaves and returns. *)
Lemma register_Return (st st1 : Store) (user : User.t) (r : option document) :
  register user st = (st1, Return r) ->
  ids_below (db_next_oid st) (db_user st) ->
  let stored := registered_doc user (db_next_oid st) in
  User.qualification user ∈ ALLOWED_QUALIFICATIONS /\
  find_one (db_user st) {["email" := VStr (User.email user)]} = None /\
  st1 = set_user (db_user st ++ [stored]) (S (db_next_oid st)) st /\
  r = Some (<["id" := VStr (ObjectId_str (db_next_oid st))]>
              (delete "_id" (delete "password_hash" stored))).
Proof.
  rewrite register_run. intros Hrun Hids stored.
  destruct (bool_decide_reflect (User.qualification user ∈ ALLOWED_QUALIFICATIONS))
    as [Hq|]; [|done].
  destruct (truthy_doc _) eqn:Ht; [done|].
  apply truthy_doc_find_None in Ht; [|apply singleton_nonempty].
  cbv zeta in Hrun. cbn [db_user set_user] in Hrun.
  rewrite find_one_app, (ids_below_find _ _ Hids) in Hrun.
  assert (matches {["_id" := VOid (db_next_oid st)]} stored = true) as Hm
    by (apply matches_singleton, registered_doc_id).
  fold stored in Hrun. rewrite Hm in Hrun. cbn [fmap option_fmap option_map] in Hrun.
  rewrite (to_str_id_oid _ (db_next_oid st)) in Hrun
    by (rewrite lookup_delete_ne by done; apply registered_doc_id).
  injection Hrun as <- <-.
  split; [exact Hq|]. split; [exact Ht|]. split; reflexivity.
Qed.

(** X1: after a successful registration, a second registration with the same
    email fails with 400 whatever its other fields, and stores nothing. *)
Theorem register_twice (st st1 : Store) (user user' : User.t) (r : option document) :
  register user st = (st1, Return r) ->
  ids_below (db_next_oid st) (db_user st) ->
  User.email user' = User.email user ->
  User.qualification user' ∈ ALLOWED_QUALIFICATIONS ->
  register user' st1 = (st1, Raise (http 400 "Email already registered")).
Proof.
  intros Hrun Hids He Hq.
  destruct (register_Return _ _ _ _ Hrun Hids) as (_ & _ & -> & _).
  apply (register_taken_run _ _ (registered_doc user (db_next_oid st))); [done| |].
  - cbn [db_user set_user]. apply elem_of_app. right. by apply list_elem_of_singleton.
  - by rewrite registered_doc_email, He.
Qed.

(** X2: a registered user can log in.  After a successful registration, a
    login request with the registered email and password, valid when the
    password has the six characters a login request requires, succeeds and
    returns the record registration returned. *)
Theorem register_then_login (st st1 : Store) (user : User.t) (r : option document) :
  register user st = (st1, Return r) ->
  ids_below (db_next_oid st) (db_user st) ->
  let payload := {| LoginRequest.email := User.email user;
                    LoginRequest.password := User.password_hash user |} in
  LoginRequest_valid payload ->
  login payload st1 = (st1, Return r).
Proof.
  intros Hrun Hids payload _. subst payload.
  destruct (register_Return _ _ _ _ Hrun Hids) as (_ & Hnone & -> & ->).
  rewrite login_run. cbn [LoginRequest.email LoginRequest.password db_user set_user].
  rewrite find_one_app, Hnone.
  rewrite (proj2 (matches_singleton _ _ _)) by apply registered_doc_email.
  rewrite bool_decide_eq_true_2 by apply registered_doc_digest.
  by rewrite (to_str_id_oid _ (db_next_oid st))
    by (rewrite lookup_delete_ne by done; apply registered_doc_id).
Qed.

(** *** [get_profile] *)

Lemma get_profile_found (st : Store) (user_id : string) (oid : ObjectId) (d : document) :
  ObjectId_parse user_id = Some oid ->
  find_one (db_user st) {["_id" := VOid oid]} = Some d ->
  get_profile user_id st =
  (st, Return (Some (<["id" := VStr (ObjectId_str oid)]>
                       (delete "_id" (delete "password_hash" d))))).
Proof.
  intros Hp Hd. unfold get_profile. rewrite Hp. run_handler. rewrite Hd.
  cbn [fmap option_fmap option_map].
  apply find_one_Some in Hd as [_ Hid%matches_singleton].
  assert (delete "password_hash" d !! "_id" = Some (VOid oid)) as Hid'
    by by rewrite lookup_delete_ne.
  rewrite (to_str_id_oid _ oid) by done.
  cbn [truthy_doc]. rewrite bool_decide_eq_false_2; [done|].
  intros Hempty. by rewrite Hempty, lookup_empty in Hid'.
Qed.

(** X3: [get_profile] never writes.  It raises 400 when the id does not
    parse, 404 when no user has the id, and otherwise returns the first user
    with the id, without the digest and with [id] in place of [_id]. *)
Theorem get_profile_cases (st : Store) (user_id : string) :
  (ObjectId_parse user_id = None ->
   get_profile user_id st = (st, Raise (http 400 "Invalid user id"))) /\
  (forall oid, ObjectId_parse user_id = Some oid ->
     find_one (db_user st) {["_id" := VOid oid]} = None ->
     get_profile user_id st = (st, Raise (http 404 "User not found"))) /\
  (forall oid d, ObjectId_parse user_id = Some oid ->
     find_one (db_user st) {["_id" := VOid oid]} = Some d ->
     get_profile user_id st =
     (st, Return (Some (<["id" := VStr (ObjectId_str oid)]>
                          (delete "_id" (delete "password_hash" d)))))).
Proof.
  split; [|split].
  - intros Hp. unfold get_profile. by rewrite Hp.
  - intros oid Hp Hnone. unfold get_profile. rewrite Hp. run_handler. by rewrite Hnone.
  - intros oid d. apply get_profile_found.
Qed.

(** X4: the id a registration returns opens the profile.  When [ObjectId]
    parses the string it prints for the new id, [get_profile] on the returned
    [id] gives the record registration returned. *)
Theorem register_then_get_profile (st st1 : Store) (user : User.t) (resp : document) :
  register user st = (st1, Return (Some resp)) ->
  ids_below (db_next_oid st) (db_user st) ->
  ObjectId_parse (ObjectId_str (db_next_oid st)) = Some (db_next_oid st) ->
  resp !! "id" = Some (VStr (ObjectId_str (db_next_oid st))) /\
  get_profile (ObjectId_str (db_next_oid st)) st1 = (st1, Return (Some resp)).
Proof.
  intros Hrun Hids Hparse.
  destruct (register_Return _ _ _ _ Hrun Hids) as (_ & _ & -> & [= ->]).
  split; [by rewrite lookup_insert_eq|].
  apply get_profile_found; [done|]. cbn [db_user set_user].
  rewrite find_one_app, (ids_below_find _ _ Hids).
  by rewrite (proj2 (matches_singleton _ _ _)) by apply registered_doc_id.
Qed.

End IdentityMore.

(** ** [update_profile] and [change_password] *)

(** The first match of a filter on [_id] and the documents around it. *)
Lemma find_by_id_split (coll : collection) (oid : ObjectId) (d : document) :
  find_one coll {["_id" := VOid oid]} = Some d ->
  exists pre post,
    coll = pre ++ d :: post /\
    find_one pre {["_id" := VOid oid]} = None /\
    d !! "_id" = Some (VOid oid).
Proof.
  intros Hd. destruct (update_first_Some _ id _ _ Hd) as (pre & post & -> & Hpre & _).
  exists pre, post. split; [done|]. split; [done|].
  by apply find_one_Some in Hd as [_ Hm%matches_singleton].
Qed.

(** [update_one] on [_id] with an update that keeps the [_id]. *)
Lemma update_one_by_id (pre post : collection) (fresh oid : ObjectId) (d : document)
    (f : document -> document) :
  find_one pre {["_id" := VOid oid]} = None ->
  d !! "_id" = Some (VOid oid) -> f d !! "_id" = Some (VOid oid) ->
  update_one (pre ++ d :: post) fresh {["_id" := VOid oid]} f false = pre ++ f d :: post /\
  find_one (pre ++ f d :: post) {["_id" := VOid oid]} = Some (f d).
Proof.
  intros Hpre Hd Hfd.
  assert (find (matches {["_id" := VOid oid]}) (pre ++ d :: post) = Some d) as Hfind.
  { rewrite find_app_skip by done. cbn [find].
    by rewrite (proj2 (matches_singleton _ _ _)). }
  destruct (update_first_Some _ f _ _ Hfind) as (pre' & post' & Heq & Hpre' & Hup).
  assert (pre' = pre /\ post' = post) as [-> ->].
  { clear Hup Hfind. revert pre' Heq Hpre'. unfold find_one in Hpre.
    induction pre as [|x pre IH]; intros [|x' pre'] Heq Hpre'; cbn [app find] in *.
    - by simplify_eq.
    - simplify_eq. by rewrite (proj2 (matches_singleton _ _ _)) in Hpre'.
    - simplify_eq. by rewrite (proj2 (matches_singleton _ _ _)) in Hpre.
    - injection Heq as <- Heq. destruct (matches _ x); [done|].
      destruct (IH Hpre pre' Heq Hpre') as [-> ->]. done. }
  unfold update_one. rewrite Hup. split; [done|].
  unfold find_one. rewrite find_app_skip by done. cbn [find].
  by rewrite (proj2 (matches_singleton _ _ _)).
Qed.

Lemma mongo_set_idem (fields d : document) :
  mongo_set fields (mongo_set fields d) = mongo_set fields d.
Proof. unfold mongo_set. by rewrite (assoc (∪)), (idemp (∪) fields). Qed.

Lemma mongo_set_lookup_other (fields d : document) (k : string) :
  fields !! k = None -> mongo_set fields d !! k = d !! k.
Proof. intros Hk. unfold mongo_set. by apply lookup_union_r. Qed.

Lemma mongo_set_lookup_field (fields d : document) (k : string) (v : value) :
  fields !! k = Some v -> mongo_set fields d !! k = Some v.
Proof. intros Hk. unfold mongo_set. by apply lookup_union_Some_l. Qed.

Lemma UpdateProfile_model_dump_other (payload : UpdateProfile.t) (k : string) :
  k ∉ ["first_name"; "last_name"; "phone"; "qualification"; "avatar_url"] ->
  UpdateProfile_model_dump payload !! k = None.
Proof.
  intros Hk. unfold UpdateProfile_model_dump.
  rewrite !not_elem_of_cons in Hk. destruct Hk as (? & ? & ? & ? & ? & _).
  by rewrite !lookup_insert_ne, lookup_empty.
Qed.

Section ProfileMore.
Context `{Externals}.

Lemma update_profile_run (st : Store) (user_id : string) (payload : UpdateProfile.t)
    (oid : ObjectId) :
  ObjectId_parse user_id = Some oid ->
  UpdateProfile.qualification payload ∈ ALLOWED_QUALIFICATIONS ->
  let users := update_one (db_user st) (db_next_oid st) {["_id" := VOid oid]}
                 (mongo_set (UpdateProfile_model_dump payload)) false in
  update_profile user_id payload st =
  (set_user users (db_next_oid st) st,
   Return (to_str_id (delete "password_hash" <$> find_one users {["_id" := VOid oid]}))).
Proof.
  intros Hp Hq users. unfold update_profile. rewrite Hp, UpdateProfile_qualification.
  cbn [value_in]. rewrite bool_decide_eq_true_2 by exact Hq. cbn [negb].
  run_handler. reflexivity.
Qed.

(** X5: a profile update of a stored user replaces the five profile fields of
    the first user with the id and nothing else: the documents around it, its
    email, role, digest and [_id] stay; the response is the updated record
    without the digest. *)
Theorem update_profile_found (st : Store) (user_id : string) (payload : UpdateProfile.t)
    (oid : ObjectId) (d : document) :
  ObjectId_parse user_id = Some oid ->
  UpdateProfile.qualification payload ∈ ALLOWED_QUALIFICATIONS ->
  find_one (db_user st) {["_id" := VOid oid]} = Some d ->
  let d' := mongo_set (UpdateProfile_model_dump payload) d in
  exists pre post,
    db_user st = pre ++ d :: post /\
    update_profile user_id payload st =
      (set_user (pre ++ d' :: post) (db_next_oid st) st,
       Return (Some (<["id" := VStr (ObjectId_str oid)]>
                       (delete "_id" (delete "password_hash" d'))))) /\
    d' !! "first_name" = Some (VStr (UpdateProfile.first_name payload)) /\
    d' !! "last_name" = Some (VStr (UpdateProfile.last_name payload)) /\
    d' !! "phone" = Some (VStr (UpdateProfile.phone payload)) /\
    d' !! "qualification" = Some (VStr (UpdateProfile.qualification payload)) /\
    d' !! "avatar_url" = Some (opt_str (UpdateProfile.avatar_url payload)) /\
    (forall k, k ∉ ["first_name"; "last_name"; "phone"; "qualification"; "avatar_url"] ->
               d' !! k = d !! k).
Proof.
  intros Hp Hq Hd d'.
  destruct (find_by_id_split _ _ _ Hd) as (pre & post & Hcoll & Hpre & Hid).
  assert (forall k, k ∉ ["first_name"; "last_name"; "phone"; "qualification"; "avatar_url"] ->
                    d' !! k = d !! k) as Hother.
  { intros k Hk. apply mongo_set_lookup_other. by apply UpdateProfile_model_dump_other. }
  assert (d' !! "_id" = Some (VOid oid)) as Hid'.
  { rewrite Hother; [done|]. rewrite !not_elem_of_cons. repeat split; try done.
    apply not_elem_of_nil. }
  destruct (update_one_by_id pre post (db_next_oid st) oid d
              (mongo_set (UpdateProfile_model_dump payload)) Hpre Hid Hid') as [Hup Hfind].
  exists pre, post. split; [exact Hcoll|]. split.
  - rewrite (update_profile_run st user_id payload oid Hp Hq). cbv zeta.
    rewrite Hcoll, Hup, Hfind. cbn [fmap option_fmap option_map].
    rewrite (to_str_id_oid _ oid) by (by rewrite lookup_delete_ne).
    reflexivity.
  - repeat split; try exact Hother;
      apply mongo_set_lookup_field; unfold UpdateProfile_model_dump; by simplify_map_eq.
Qed.

Lemma update_profile_bad_id (st : Store) (user_id : string) (payload : UpdateProfile.t) :
  ObjectId_parse user_id = None ->
  update_profile user_id payload st = (st, Raise (http 400 "Invalid user id")).
Proof. intros Hp. unfold update_profile. by rewrite Hp. Qed.

Lemma update_profile_bad_qualification (st : Store) (user_id : string)
    (payload : UpdateProfile.t) (oid : ObjectId) :
  ObjectId_parse user_id = Some oid ->
  UpdateProfile.qualification payload ∉ ALLOWED_QUALIFICATIONS ->
  update_profile user_id payload st = (st, Raise (http 400 "Invalid qualification")).
Proof.
  intros Hp Hq. unfold update_profile. rewrite Hp, UpdateProfile_qualification.
  cbn [value_in]. rewrite bool_decide_eq_false_2 by exact Hq. reflexivity.
Qed.

(** X6: a profile update is idempotent: repeating it leaves the store and
    gives the response of the first, whether it succeeds, finds no user or is
    refused. *)
Theorem update_profile_idempotent (st : Store) (user_id : string) (payload : UpdateProfile.t) :
  update_profile user_id payload (update_profile user_id payload st).1 =
  update_profile user_id payload st.
Proof.
  destruct (ObjectId_parse user_id) as [oid|] eqn:Hp;
    [|by rewrite !update_profile_bad_id].
  destruct (decide (UpdateProfile.qualification payload ∈ ALLOWED_QUALIFICATIONS))
    as [Hq|Hq].
  - destruct (find_one (db_user st) {["_id" := VOid oid]}) as [d|] eqn:Hd.
    + destruct (find_by_id_split _ _ _ Hd) as (pre & post & Hcoll & Hpre & Hid).
      set (f := mongo_set (UpdateProfile_model_dump payload)).
      assert (forall x : document, x !! "_id" = Some (VOid oid) ->
                                   f x !! "_id" = Some (VOid oid)) as Hkeep.
      { intros x Hx. unfold f. rewrite mongo_set_lookup_other; [done|].
        apply UpdateProfile_model_dump_other. rewrite !not_elem_of_cons.
        repeat split; try done. apply not_elem_of_nil. }
      destruct (update_one_by_id pre post (db_next_oid st) oid d f Hpre Hid (Hkeep _ Hid))
        as [Hup Hfind].
      destruct (update_one_by_id pre post (db_next_oid st) oid (f d) f Hpre
                  (Hkeep _ Hid) (Hkeep _ (Hkeep _ Hid))) as [Hup2 Hfind2].
      rewrite (update_profile_run st user_id payload oid Hp Hq). cbv zeta. cbn [fst].
      rewrite (update_profile_run _ user_id payload oid Hp Hq). cbv zeta.
      cbn [db_user db_next_oid set_user]. fold f.
      assert (f (f d) = f d) as Hff by apply mongo_set_idem.
      rewrite Hff in Hup2. rewrite Hcoll, Hup, Hup2. reflexivity.
    + assert (update_one (db_user st) (db_next_oid st) {["_id" := VOid oid]}
                (mongo_set (UpdateProfile_model_dump payload)) false = db_user st) as Hup
        by (unfold update_one; by rewrite update_first_None).
      rewrite (update_profile_run st user_id payload oid Hp Hq). cbv zeta. cbn [fst].
      rewrite (update_profile_run _ user_id payload oid Hp Hq). cbv zeta.
      cbn [db_user db_next_oid set_user]. rewrite !Hup, ?set_user_id, ?Hup. reflexivity.
  - by rewrite !(update_profile_bad_qualification _ _ _ oid).
Qed.

End ProfileMore.

(** ** Passwords *)

(** Two collections that agree field by field on [k] answer a filter on [k]
    at the same position. *)
Lemma find_one_same_field (coll coll' : collection) (k : string) (v : value) :
  (fun d : document => d !! k) <$> coll' = (fun d : document => d !! k) <$> coll ->
  match find_one coll {[k := v]}, find_one coll' {[k := v]} with
  | Some d, Some d' => exists i, coll !! i = Some d /\ coll' !! i = Some d'
  | None, None => True
  | _, _ => False
  end.
Proof.
  unfold find_one. revert coll'. induction coll as [|x coll IH]; intros [|x' coll'] Heq;
    try done.
  cbn [fmap list_fmap] in Heq. injection Heq as Hx Hrest. cbn [find].
  assert (matches {[k := v]} x' = matches {[k := v]} x) as ->.
  { destruct (matches {[k := v]} x) eqn:Hm.
    - apply matches_singleton. apply matches_singleton in Hm. congruence.
    - apply not_true_is_false. rewrite matches_singleton.
      apply not_true_iff_false in Hm. rewrite matches_singleton in Hm. congruence. }
  destruct (matches {[k := v]} x); [by exists 0%nat|].
  specialize (IH coll' Hrest).
  destruct (find _ coll) as [d|], (find _ coll') as [d'|]; try done.
  destruct IH as (i & Hi & Hi'). by exists (S i).
Qed.

Lemma same_field_lookup (coll coll' : collection) (k : string) (i : nat) (d d' : document) :
  (fun d : document => d !! k) <$> coll' = (fun d : document => d !! k) <$> coll ->
  coll !! i = Some d -> coll' !! i = Some d' -> d' !! k = d !! k.
Proof.
  intros Heq Hi Hi'.
  assert (((fun d : document => d !! k) <$> coll') !! i = Some (d' !! k)) as H1
    by (by rewrite list_lookup_fmap, Hi').
  rewrite Heq, list_lookup_fmap, Hi in H1. by injection H1.
Qed.

Section PasswordMore.
Context `{Externals}.

(** A successful login depends on the emails and digests only. *)
Lemma login_same_fields (st st' : Store) (payload : LoginRequest.t) :
  (fun d : document => d !! "email") <$> db_user st' =
    (fun d : document => d !! "email") <$> db_user st ->
  (fun d : document => d !! "password_hash") <$> db_user st' =
    (fun d : document => d !! "password_hash") <$> db_user st ->
  (exists r, login payload st = (st, Return r)) ->
  exists r', login payload st' = (st', Return r').
Proof.
  intros He Hd [r Hr]. rewrite login_run in *.
  pose proof (find_one_same_field (db_user st) (db_user st') "email"
                (VStr (LoginRequest.email payload)) He) as Hsame.
  destruct (find_one (db_user st) _) as [u|]; [|done].
  destruct (find_one (db_user st') _) as [u'|]; [|done].
  destruct Hsame as (i & Hi & Hi').
  rewrite (same_field_lookup _ _ _ _ _ _ Hd Hi Hi').
  destruct (bool_decide _); [by eexists|done].
Qed.

Lemma update_profile_user_fields (st : Store) (user_id : string) (payload : UpdateProfile.t)
    (k : string) :
  k ∉ ["first_name"; "last_name"; "phone"; "qualification"; "avatar_url"] ->
  (fun d : document => d !! k) <$> db_user (update_profile user_id payload st).1 =
  (fun d : document => d !! k) <$> db_user st.
Proof.
  intros Hk. unfold update_profile.
  destruct (ObjectId_parse user_id) as [oid|]; [|done].
  destruct (value_in _ _); [|done]. cbn [negb]. run_handler.
  cbn [fst db_user set_user]. apply update_one_keeps. intros d.
  apply mongo_set_lookup_other. by apply UpdateProfile_model_dump_other.
Qed.

(** X7: a profile update does not lock the user out: whoever could log in
    before it can log in after it with the same email and password. *)
Theorem update_profile_keeps_login (st : Store) (user_id : string)
    (payload : UpdateProfile.t) (credentials : LoginRequest.t) (r : option document) :
  login credentials st = (st, Return r) ->
  let st' := (update_profile user_id payload st).1 in
  exists r', login credentials st' = (st', Return r').
Proof.
  intros Hr st'. apply (login_same_fields st st'); [| |by exists r].
  - apply update_profile_user_fields. rewrite !not_elem_of_cons.
    repeat split; try done. apply not_elem_of_nil.
  - apply update_profile_user_fields. rewrite !not_elem_of_cons.
    repeat split; try done. apply not_elem_of_nil.
Qed.

(** *** [change_password] *)

Lemma change_password_found (st : Store) (payload : ChangePasswordRequest.t)
    (oid : ObjectId) (d : document) :
  ObjectId_parse (ChangePasswordRequest.user_id payload) = Some oid ->
  find_one (db_user st) {["_id" := VOid oid]} = Some d ->
  change_password payload st =
  if bool_decide (d !! "password_hash" =
       Some (VStr (hash_password (ChangePasswordRequest.old_password payload))))
  then (set_user
          (update_one (db_user st) (db_next_oid st) {["_id" := VOid oid]}
             (mongo_set {["password_hash" :=
                VStr (hash_password (ChangePasswordRequest.new_password payload))]}) false)
          (db_next_oid st) st,
        Return "Password updated")
  else (st, Raise (http 401 "Old password incorrect")).
Proof.
  intros Hp Hd. unfold change_password. rewrite Hp. run_handler.
  rewrite Hd, (find_one_truthy _ _ _ (singleton_nonempty _ _) Hd).
  cbn [negb from_option id]. by destruct (bool_decide _).
Qed.

(** X8: [change_password] refuses without writing: 400 for an id that does
    not parse, 404 when no user has the id, 401 when the old password does not
    hash to the stored digest. *)
Theorem change_password_refused (st : Store) (payload : ChangePasswordRequest.t) :
  (ObjectId_parse (ChangePasswordRequest.user_id payload) = None ->
   change_password payload st = (st, Raise (http 400 "Invalid user id"))) /\
  (forall oid, ObjectId_parse (ChangePasswordRequest.user_id payload) = Some oid ->
     find_one (db_user st) {["_id" := VOid oid]} = None ->
     change_password payload st = (st, Raise (http 404 "User not found"))) /\
  (forall oid d, ObjectId_parse (ChangePasswordRequest.user_id payload) = Some oid ->
     find_one (db_user st) {["_id" := VOid oid]} = Some d ->
     d !! "password_hash" <>
       Some (VStr (hash_password (ChangePasswordRequest.old_password payload))) ->
     change_password payload st = (st, Raise (http 401 "Old password incorrect"))).
Proof.
  split; [|split].
  - intros Hp. unfold change_password. by rewrite Hp.
  - intros oid Hp Hnone. unfold change_password. rewrite Hp. run_handler. by rewrite Hnone.
  - intros oid d Hp Hd Hne. rewrite (change_password_found st payload oid d Hp Hd).
    by rewrite bool_decide_eq_false_2.
Qed.

Lemma set_digest_lookup (d : document) (v : value) (k : string) :
  k <> "password_hash" -> mongo_set {["password_hash" := v]} d !! k = d !! k.
Proof. intros Hk. apply mongo_set_lookup_other. by rewrite lookup_singleton_ne. Qed.

Lemma change_password_changed (st : Store) (payload : ChangePasswordRequest.t)
    (oid : ObjectId) (d : document) :
  ObjectId_parse (ChangePasswordRequest.user_id payload) = Some oid ->
  find_one (db_user st) {["_id" := VOid oid]} = Some d ->
  d !! "password_hash" =
    Some (VStr (hash_password (ChangePasswordRequest.old_password payload))) ->
  exists pre post,
    db_user st = pre ++ d :: post /\
    find_one pre {["_id" := VOid oid]} = None /\
    change_password payload st =
      (set_user
         (pre ++ <["password_hash" :=
                    VStr (hash_password (ChangePasswordRequest.new_password payload))]> d
              :: post)
         (db_next_oid st) st,
       Return "Password updated").
Proof.
  intros Hp Hd Hold.
  destruct (find_by_id_split _ _ _ Hd) as (pre & post & Hcoll & Hpre & Hid).
  exists pre, post. split; [exact Hcoll|]. split; [exact Hpre|].
  rewrite (change_password_found st payload oid d Hp Hd), bool_decide_eq_true_2 by exact Hold.
  rewrite Hcoll.
  destruct (update_one_by_id pre post (db_next_oid st) oid d
              (mongo_set {["password_hash" :=
                 VStr (hash_password (ChangePasswordRequest.new_password payload))]})
              Hpre Hid) as [-> _]; [by rewrite set_digest_lookup|].
  unfold mongo_set. by rewrite <- insert_union_singleton_l.
Qed.

(** X9: a password change replaces the digest of the first user with the id
    by the hash of the new password and touches nothing else: every other
    user, every other field of that user and every other collection stay. *)
Theorem change_password_only_digest (st : Store) (payload : ChangePasswordRequest.t)
    (oid : ObjectId) (d : document) :
  ObjectId_parse (ChangePasswordRequest.user_id payload) = Some oid ->
  find_one (db_user st) {["_id" := VOid oid]} = Some d ->
  d !! "password_hash" =
    Some (VStr (hash_password (ChangePasswordRequest.old_password payload))) ->
  exists pre post,
    db_user st = pre ++ d :: post /\
    change_password payload st =
      (set_user
         (pre ++ <["password_hash" :=
                    VStr (hash_password (ChangePasswordRequest.new_password payload))]> d
              :: post)
         (db_next_oid st) st,
       Return "Password updated").
Proof.
  intros Hp Hd Hold.
  destruct (change_password_changed st payload oid d Hp Hd Hold)
    as (pre & post & Hcoll & _ & Hrun).
  by exists pre, post.
Qed.

(** X10: after a password change the user logs in with the new password, and
    no longer with the old one when the two hash differently. *)
Theorem change_password_then_login (st : Store) (payload : ChangePasswordRequest.t)
    (oid : ObjectId) (d : document) (email : string) :
  unique_emails (db_user st) ->
  ObjectId_parse (ChangePasswordRequest.user_id payload) = Some oid ->
  find_one (db_user st) {["_id" := VOid oid]} = Some d ->
  d !! "password_hash" =
    Some (VStr (hash_password (ChangePasswordRequest.old_password payload))) ->
  d !! "email" = Some (VStr email) ->
  let st' := (change_password payload st).1 in
  (change_password payload st).2 = Return "Password updated" /\
  (exists r, login {| LoginRequest.email := email;
                      LoginRequest.password := ChangePasswordRequest.new_password payload |}
               st' = (st', Return r)) /\
  (hash_password (ChangePasswordRequest.old_password payload) <>
     hash_password (ChangePasswordRequest.new_password payload) ->
   login {| LoginRequest.email := email;
            LoginRequest.password := ChangePasswordRequest.old_password payload |} st'
   = (st', Raise (http 401 "Invalid credentials"))).
Proof.
  intros Huniq Hp Hd Hold He st'.
  destruct (change_password_changed st payload oid d Hp Hd Hold)
    as (pre & post & Hcoll & _ & Hrun).
  subst st'. rewrite Hrun. cbn [fst snd]. split; [done|].
  set (d' := <["password_hash" :=
                VStr (hash_password (ChangePasswordRequest.new_password payload))]> d).
  assert (find_one (pre ++ d' :: post) {["email" := VStr email]} = Some d') as Hfind.
  { unfold find_one. rewrite find_app_skip.
    - cbn [find]. rewrite (proj2 (matches_singleton _ _ _)); [done|].
      unfold d'. by rewrite lookup_insert_ne.
    - apply find_one_None. intros x Hx. apply not_true_is_false.
      rewrite matches_singleton. intros Hxe.
      apply list_elem_of_lookup in Hx as [i Hi].
      assert (i < length pre)%nat as Hlt by (by eapply lookup_lt_Some).
      assert (db_user st !! i = Some x) as Hi1
        by (rewrite Hcoll; by apply lookup_app_l_Some).
      assert (db_user st !! length pre = Some d) as Hi2
        by (rewrite Hcoll, lookup_app_r, Nat.sub_diag by lia; done).
      pose proof (unique_emails_lookup _ _ _ _ _ _ Huniq Hi1 Hi2 Hxe He). lia. }
  assert (d' !! "password_hash" =
          Some (VStr (hash_password (ChangePasswordRequest.new_password payload)))) as Hd'
    by (unfold d'; apply lookup_insert_eq).
  split.
  - rewrite login_run. cbn [LoginRequest.email LoginRequest.password db_user set_user].
    rewrite Hfind, Hd'. rewrite bool_decide_eq_true_2 by done. by eexists.
  - intros Hne. rewrite login_run.
    cbn [LoginRequest.email LoginRequest.password db_user set_user].
    rewrite Hfind, Hd'.
    rewrite bool_decide_eq_false_2; [done|]. intros [= Heq]. by apply Hne.
Qed.

Lemma change_password_user_fields (st : Store) (payload : ChangePasswordRequest.t)
    (k : string) :
  k <> "password_hash" ->
  (fun d : document => d !! k) <$> db_user (change_password payload st).1 =
  (fun d : document => d !! k) <$> db_user st.
Proof.
  intros Hk. unfold change_password.
  destruct (ObjectId_parse _) as [oid|]; [|done]. run_handler.
  destruct (truthy_doc _); [|done]. cbn [negb].
  destruct (bool_decide _); [|done]. cbn [negb fst db_user set_user].
  apply update_one_keeps. intros d. by apply set_digest_lookup.
Qed.

Lemma change_password_inv (st : Store) (payload : ChangePasswordRequest.t) :
  store_inv st -> store_inv (change_password payload st).1.
Proof.
  intros (Hu & Hi & Hp & Ho).
  pose proof (change_password_user_fields st payload "email" ltac:(done)) as He.
  pose proof (change_password_user_fields st payload "_id" ltac:(done)) as Hid.
  assert (db_next_oid (change_password payload st).1 = db_next_oid st /\
          db_progress (change_password payload st).1 = db_progress st /\
          db_roadmap (change_password payload st).1 = db_roadmap st) as (Hn & Hpr & Hrm).
  { unfold change_password. destruct (ObjectId_parse _) as [oid|]; [|done]. run_handler.
    destruct (truthy_doc _); [|done]. cbn [negb]. by destruct (bool_decide _). }
  unfold store_inv, orders_from_one. rewrite Hn, Hpr, Hrm.
  split; [by eapply unique_emails_by_fields|].
  split; [by eapply ids_below_by_fields|done].
Qed.

End PasswordMore.

(** ** Roadmaps *)

Lemma list_domains_run (st : Store) :
  list_domains st =
  match mapM (fun d : document => d !! "domain") (db_roadmap st) with
  | Some domains => (st, Return domains)
  | None => (st, Raise (http 500 "Internal Server Error"))
  end.
Proof. unfold list_domains. run_handler. by destruct (mapM _ _). Qed.

Lemma roadmaps_named_mapM (st : Store) :
  roadmaps_named st <-> is_Some (mapM (fun d : document => d !! "domain") (db_roadmap st)).
Proof. unfold roadmaps_named. by rewrite mapM_is_Some. Qed.

Lemma mapM_fmap_Some (coll : collection) (domains : list value) :
  mapM (fun d : document => d !! "domain") coll = Some domains ->
  (fun d : document => d !! "domain") <$> coll = Some <$> domains.
Proof.
  rewrite mapM_Some. induction 1 as [|d v coll domains Hd _ IH]; [done|].
  cbn [fmap list_fmap]. by rewrite Hd, IH.
Qed.

(** X11: [list_domains] never writes.  When every stored roadmap names its
    domain it returns the domains of all stored roadmaps in insertion order;
    when one does not, the subscript fails and the call ends in 500. *)
Theorem list_domains_cases (st : Store) :
  (roadmaps_named st ->
   exists domains,
     list_domains st = (st, Return domains) /\
     Some <$> domains = (fun d : document => d !! "domain") <$> db_roadmap st) /\
  (~ roadmaps_named st ->
   list_domains st = (st, Raise (http 500 "Internal Server Error"))).
Proof.
  rewrite list_domains_run, roadmaps_named_mapM. split.
  - intros [domains Hd]. rewrite Hd. exists domains. split; [done|].
    symmetry. by apply mapM_fmap_Some.
  - intros Hno. destruct (mapM _ _); [|done]. exfalso. apply Hno. by eexists.
Qed.

Lemma get_roadmap_run (st : Store) (domain : string) :
  get_roadmap domain st =
  match find_one (db_roadmap st) {["domain" := VStr domain]} with
  | Some rm => (st, Return (domain, get_steps rm))
  | None => (st, Raise (http 404 "Roadmap not found"))
  end.
Proof.
  unfold get_roadmap. run_handler.
  destruct (find_one _ _) as [rm|] eqn:Hrm; [|done].
  by rewrite (find_one_truthy _ _ _ (singleton_nonempty _ _) Hrm).
Qed.

(** X12: [get_roadmap] agrees with [list_domains]: it returns the steps of a
    domain exactly when the domain is listed, and raises 404 otherwise; it
    never writes. *)
Theorem get_roadmap_iff_listed (st : Store) (domain : string) (domains : list value) :
  list_domains st = (st, Return domains) ->
  (VStr domain ∈ domains ->
   exists steps, get_roadmap domain st = (st, Return (domain, steps))) /\
  (VStr domain ∉ domains ->
   get_roadmap domain st = (st, Raise (http 404 "Roadmap not found"))).
Proof.
  rewrite list_domains_run. destruct (mapM _ _) as [l|] eqn:Hl; [|done].
  intros [= ->]. apply mapM_fmap_Some in Hl. rewrite get_roadmap_run. split.
  - intros Hin.
    assert (Some (VStr domain) ∈ (fun d : document => d !! "domain") <$> db_roadmap st)
      as Hin' by (rewrite Hl; by apply list_elem_of_fmap_2).
    apply list_elem_of_fmap in Hin' as (d & Hd & Hdin).
    destruct (find_one_is_Some (db_roadmap st) {["domain" := VStr domain]} d Hdin)
      as [rm ->]; [by apply matches_singleton|].
    by eexists.
  - intros Hnot. destruct (find_one _ _) as [rm|] eqn:Hrm; [|done].
    exfalso. apply Hnot. apply find_one_Some in Hrm as [Hin Hm%matches_singleton].
    assert (Some (VStr domain) ∈ Some <$> domains) as Hin'.
    { rewrite <- Hl. apply list_elem_of_fmap. by exists rm. }
    apply list_elem_of_fmap in Hin' as (v & [= ->] & Hv). done.
Qed.

Lemma NoDup_fmap_inj_on {A B} (f : A -> B) (l : list A) (x y : A) :
  NoDup (f <$> l) -> x ∈ l -> y ∈ l -> f x = f y -> x = y.
Proof.
  induction l as [|a l IH]; [by intros _ ?%elem_of_nil|].
  cbn [fmap list_fmap]. intros [Ha Hl]%NoDup_cons [->|Hx]%elem_of_cons [->|Hy]%elem_of_cons Hf.
  - done.
  - exfalso. apply Ha. rewrite Hf. by apply list_elem_of_fmap_2.
  - exfalso. apply Ha. rewrite <- Hf. by apply list_elem_of_fmap_2.
  - by apply IH.
Qed.

Lemma SEED_ROADMAPS_domains : NoDup SEED_ROADMAPS.*1.
Proof. compute_done. Qed.

(** X13: after seeding, every predefined domain has a roadmap: the one that was
    stored before when there was one, otherwise the predefined steps. *)
Theorem get_roadmap_seeded (st : Store) (item : string * list RoadmapStep) :
  item ∈ SEED_ROADMAPS ->
  let st' := seed_from SEED_ROADMAPS st in
  get_roadmap item.1 st' =
  (st', Return (item.1,
                match find_one (db_roadmap st) {["domain" := VStr item.1]} with
                | Some rm => get_steps rm
                | None => item.2
                end)).
Proof.
  intros Hin st'. subst st'. rewrite get_roadmap_run.
  destruct (find_one (db_roadmap st) {["domain" := VStr item.1]}) as [rm|] eqn:Hrm.
  - by rewrite (seed_from_keeps SEED_ROADMAPS st _ rm Hrm).
  - destruct (seed_from_seeded SEED_ROADMAPS st item Hin) as [doc Hdoc].
    rewrite Hdoc.
    destruct (seed_from_spec SEED_ROADMAPS st) as (added & Hadd & _ & _ & _ & Hall).
    rewrite Hadd in Hdoc. unfold find_one in Hdoc.
    rewrite find_app_skip in Hdoc by exact Hrm.
    apply find_some in Hdoc as [Hdin Hm%matches_singleton].
    rewrite Forall_forall in Hall.
    destruct (Hall doc ltac:(by apply list_elem_of_In)) as (item' & Hin' & _ & Hdom & Hsteps).
    rewrite Hm in Hdom. injection Hdom as Hdom.
    assert (item' = item) as ->
      by exact (NoDup_fmap_inj_on fst SEED_ROADMAPS item' item SEED_ROADMAPS_domains
                  Hin' Hin (eq_sym Hdom)).
    by rewrite Hsteps.
Qed.


(** ** Assessments: the remaining paths *)

Lemma submit_assessment_cases (payload : SubmitAssessment.t) (st : Store) :
  submit_assessment payload st =
  match find_one (db_roadmap st) {["domain" := VStr (SubmitAssessment.domain payload)]} with
  | None => (st, Raise (http 404 "Roadmap not found"))
  | Some rm =>
      match find (fun s => bool_decide (order s = SubmitAssessment.step_order payload))
              (get_steps rm) with
      | None => (st, Raise (http 404 "Step not found"))
      | Some step =>
          let po := progress_of st (SubmitAssessment.user_id payload)
                      (SubmitAssessment.domain payload) in
          let cs := answerIndex <$> questions step in
          let score := score_of cs (SubmitAssessment.answers payload) in
          let total := Z.of_nat (length cs) in
          if gate_closed po.2 (SubmitAssessment.step_order payload) then
            (po.1, Raise (http 403 "Complete previous step first"))
          else
            match passed_of score total with
            | None => (po.1, Raise (http 500 "Internal Server Error"))
            | Some passed =>
                (graded_store payload po.1 score total passed,
                 Return (result_doc payload score total passed (db_next_oid po.1),
                         if passed then "Passed" else "Failed"))
            end
      end
  end.
Proof.
  destruct (find_one _ _) as [rm|] eqn:Hrm.
  - destruct (find _ (get_steps rm)) as [step|] eqn:Hstep.
    + exact (submit_assessment_run payload st rm step Hrm Hstep).
    + unfold submit_assessment. run_handler.
      rewrite Hrm, (find_one_truthy _ _ _ (singleton_nonempty _ _) Hrm).
      cbn [negb from_option id]. by rewrite Hstep.
  - unfold submit_assessment. run_handler. by rewrite Hrm.
Qed.

Lemma find_none_forall {A} (p : A -> bool) (l : list A) :
  (forall x, x ∈ l -> p x = false) -> find p l = None.
Proof.
  induction l as [|a l IH]; [done|]. intros Hall. cbn [find].
  rewrite (Hall a) by by left. apply IH. intros x Hx. apply Hall. by right.
Qed.

(** X14: a submission for a domain without a roadmap, or for an order that no
    step of the roadmap has, raises 404; and a submission that ends in 404
    has written nothing. *)
Theorem submit_assessment_not_found (payload : SubmitAssessment.t) (st : Store) :
  let domain := SubmitAssessment.domain payload in
  let N := SubmitAssessment.step_order payload in
  ((forall d, d ∈ db_roadmap st -> d !! "domain" <> Some (VStr domain)) ->
   submit_assessment payload st = (st, Raise (http 404 "Roadmap not found"))) /\
  (forall rm, find_one (db_roadmap st) {["domain" := VStr domain]} = Some rm ->
     (forall s, s ∈ get_steps rm -> order s <> N) ->
     submit_assessment payload st = (st, Raise (http 404 "Step not found"))) /\
  (forall st' e, submit_assessment payload st = (st', Raise e) ->
     status_code e = 404 -> st' = st).
Proof.
  intros domain N. rewrite submit_assessment_cases. fold domain N. split; [|split].
  - intros Hno.
    assert (find_one (db_roadmap st) {["domain" := VStr domain]} = None) as ->; [|done].
    apply find_one_None. intros d Hd.
    destruct (matches _ d) eqn:Hm; [|done].
    apply matches_singleton in Hm. by destruct (Hno d Hd).
  - intros rm -> Hno. rewrite find_none_forall; [done|].
    intros s Hs. apply bool_decide_eq_false. by apply Hno.
  - intros st' e. destruct (find_one _ _) as [rm|]; [|by intros [= <- _]].
    destruct (find _ _) as [step|]; [|by intros [= <- _]].
    cbv zeta. destruct (gate_closed _ _); [by intros [= _ <-]|].
    destruct (passed_of _ _); [done|]. by intros [= _ <-].
Qed.

(** X15: a submission refused at the gate has still written: it leaves the
    store of the gatekeeping lines, which holds an empty progress record for
    the pair when there was none, and is the store of before otherwise. *)
Theorem submit_assessment_refused_writes (payload : SubmitAssessment.t) (st st' : Store) :
  submit_assessment payload st = (st', Raise (http 403 "Complete previous step first")) ->
  let user_id := SubmitAssessment.user_id payload in
  let domain := SubmitAssessment.domain payload in
  (find_one (db_progress st) (progress_filter user_id domain) = None ->
   st' = set_progress (db_progress st ++ [fresh_progress user_id domain (db_next_oid st)])
           (S (db_next_oid st)) st /\
   st' <> st /\
   find_one (db_progress st') (progress_filter user_id domain) =
     Some (fresh_progress user_id domain (db_next_oid st))) /\
  (forall p, find_one (db_progress st) (progress_filter user_id domain) = Some p -> st' = st).
Proof.
  intros Hsub user_id domain. rewrite submit_assessment_cases in Hsub.
  destruct (find_one (db_roadmap st) _) as [rm|]; [|done].
  destruct (find _ _) as [step|]; [|done]. cbv zeta in Hsub. fold user_id domain in Hsub.
  assert (st' = (progress_of st user_id domain).1) as ->.
  { destruct (gate_closed _ _); [by injection Hsub as <-|].
    by destruct (passed_of _ _). }
  pose proof (progress_of_find st user_id domain) as Hfind.
  unfold progress_of in *. split.
  - intros Hnone. rewrite Hnone in *. cbn [fst snd] in *. split; [done|]. split; [|done].
    intros Heq. apply (f_equal db_next_oid) in Heq. cbn [db_next_oid set_progress] in Heq. lia.
  - by intros p ->.
Qed.

Lemma result_doc_payload (payload : SubmitAssessment.t) (score total : Z) (passed : bool)
    (oid : ObjectId) :
  let result := result_doc payload score total passed oid in
  result !! "user_id" = Some (VStr (SubmitAssessment.user_id payload)) /\
  result !! "domain" = Some (VStr (SubmitAssessment.domain payload)) /\
  result !! "step_order" = Some (VInt (SubmitAssessment.step_order payload)) /\
  result !! "_id" = Some (VOid oid) /\
  result !! "id" = None.
Proof. cbv zeta. unfold result_doc, AssessmentResult_model_dump. by simplify_map_eq. Qed.

Lemma progress_of_next_oid (st : Store) (user_id domain : string) :
  (db_next_oid st <= db_next_oid (progress_of st user_id domain).1)%nat.
Proof. unfold progress_of. destruct (find_one _ _); cbn [fst db_next_oid set_progress]; lia. Qed.

Lemma graded_store_next_oid (payload : SubmitAssessment.t) (st : Store) (score total : Z)
    (passed : bool) :
  (db_next_oid st < db_next_oid (graded_store payload st score total passed))%nat.
Proof.
  unfold graded_store. destruct passed;
    cbn [db_next_oid set_progress set_assessmentresult]; lia.
Qed.

(** The shape of a graded submission. *)
Lemma submit_assessment_Return (payload : SubmitAssessment.t) (st st' : Store)
    (result : document) (msg : string) :
  submit_assessment payload st = (st', Return (result, msg)) ->
  let po := progress_of st (SubmitAssessment.user_id payload)
              (SubmitAssessment.domain payload) in
  exists rm step passed,
    find_one (db_roadmap st) {["domain" := VStr (SubmitAssessment.domain payload)]} = Some rm /\
    find (fun s => bool_decide (order s = SubmitAssessment.step_order payload)) (get_steps rm)
      = Some step /\
    let cs := answerIndex <$> questions step in
    let score := score_of cs (SubmitAssessment.answers payload) in
    let total := Z.of_nat (length cs) in
    gate_closed po.2 (SubmitAssessment.step_order payload) = false /\
    passed_of score total = Some passed /\
    st' = graded_store payload po.1 score total passed /\
    result = result_doc payload score total passed (db_next_oid po.1) /\
    msg = (if passed then "Passed" else "Failed").
Proof.
  intros Hsub po. rewrite submit_assessment_cases in Hsub.
  destruct (find_one (db_roadmap st) _) as [rm|]; [|done].
  destruct (find _ _) as [step|] eqn:Hstep; [|done]. cbv zeta in Hsub. fold po in Hsub.
  destruct (gate_closed _ _) eqn:Hgate; [done|].
  destruct (passed_of _ _) as [passed|] eqn:Hpassed; [|done].
  injection Hsub as <- <- <-. by exists rm, step, passed.
Qed.

(** X16: the response of a graded submission carries the payload's user,
    domain and step order and the [_id] generated for the stored result, as
    an [ObjectId] and not under [id]; the message is ["Passed"] exactly when
    the result is marked as passed, and ["Failed"] otherwise. *)
Theorem submit_assessment_response (payload : SubmitAssessment.t) (st st' : Store)
    (result : document) (msg : string) :
  submit_assessment payload st = (st', Return (result, msg)) ->
  result !! "user_id" = Some (VStr (SubmitAssessment.user_id payload)) /\
  result !! "domain" = Some (VStr (SubmitAssessment.domain payload)) /\
  result !! "step_order" = Some (VInt (SubmitAssessment.step_order payload)) /\
  (exists o, result !! "_id" = Some (VOid o) /\
             (db_next_oid st <= o < db_next_oid st')%nat) /\
  result !! "id" = None /\
  (msg = "Passed" /\ result !! "passed" = Some (VBool true) \/
   msg = "Failed" /\ result !! "passed" = Some (VBool false)).
Proof.
  intros (rm & step & passed & _ & _ & _ & _ & -> & -> & ->)%submit_assessment_Return.
  set (po := progress_of st _ _). set (score := score_of _ _). set (total := Z.of_nat _).
  destruct (result_doc_payload payload score total passed (db_next_oid po.1))
    as (Hu & Hd & Hs & Hi & Hn).
  destruct (result_doc_fields payload score total passed (db_next_oid po.1))
    as (_ & _ & Hp).
  split; [exact Hu|]. split; [exact Hd|]. split; [exact Hs|]. split.
  - exists (db_next_oid po.1). split; [exact Hi|].
    pose proof (progress_of_next_oid st (SubmitAssessment.user_id payload)
                  (SubmitAssessment.domain payload)).
    pose proof (graded_store_next_oid payload po.1 score total passed). fold po in H. lia.
  - split; [exact Hn|]. rewrite Hp. destruct passed; [left|right]; done.
Qed.

Lemma passed_of_zero (total : Z) (passed : bool) :
  passed_of 0 total = Some passed -> passed = false.
Proof.
  unfold passed_of. destruct (PyFloat.int_0_6_times total) as [t|]; [|done].
  intros [= <-]. apply Z.leb_gt. lia.
Qed.

Lemma score_of_nil_l (answers : list Z) : score_of [] answers = 0.
Proof. pose proof (score_of_bounds [] answers) as Hb. cbn [length] in Hb. lia. Qed.

Lemma score_of_nil_r (cs : list (option Z)) : score_of cs [] = 0.
Proof. reflexivity. Qed.

(** X17: a submission without answers, or for a step without questions, is
    graded with score 0 and never passes: the pass mark is at least 1. *)
Theorem submit_assessment_empty_fails (payload : SubmitAssessment.t) (st st' : Store)
    (rm : document) (step : RoadmapStep) (result : document) (msg : string) :
  find_one (db_roadmap st) {["domain" := VStr (SubmitAssessment.domain payload)]} = Some rm ->
  find (fun s => bool_decide (order s = SubmitAssessment.step_order payload)) (get_steps rm)
    = Some step ->
  questions step = [] \/ SubmitAssessment.answers payload = [] ->
  submit_assessment payload st = (st', Return (result, msg)) ->
  msg = "Failed" /\ result !! "score" = Some (VInt 0) /\
  result !! "passed" = Some (VBool false).
Proof.
  intros Hrm Hstep Hempty Hsub.
  rewrite (submit_assessment_run payload st rm step Hrm Hstep) in Hsub. cbv zeta in Hsub.
  destruct (gate_closed _ _); [done|].
  assert (score_of (answerIndex <$> questions step) (SubmitAssessment.answers payload) = 0)
    as Hzero.
  { destruct Hempty as [-> | ->]; [apply score_of_nil_l|apply score_of_nil_r]. }
  rewrite Hzero in Hsub.
  destruct (passed_of 0 _) as [passed|] eqn:Hp; [|done].
  apply passed_of_zero in Hp as ->. injection Hsub as _ <- <-.
  split; [done|]. unfold result_doc, AssessmentResult_model_dump. by simplify_map_eq.
Qed.

Lemma count_match_all (answers : list Z) :
  count_match (Some <$> answers) answers = length answers.
Proof.
  induction answers as [|a l IH]; [done|]. cbn [fmap list_fmap count_match length].
  rewrite bool_decide_eq_true_2 by done. by rewrite IH.
Qed.

Lemma spec_pass_mark_le (total : Z) : 1 <= total -> spec_pass_mark total <= total.
Proof.
  intros Ht. rewrite spec_pass_mark_eq. apply Z.max_lub; [done|].
  apply Z.div_le_upper_bound; lia.
Qed.

(** X18: a submission that passes the gate and answers every question with its
    correct index passes, with the number of questions as score. *)
Theorem submit_assessment_all_correct (payload : SubmitAssessment.t) (st : Store)
    (rm : document) (step : RoadmapStep) :
  find_one (db_roadmap st) {["domain" := VStr (SubmitAssessment.domain payload)]} = Some rm ->
  find (fun s => bool_decide (order s = SubmitAssessment.step_order payload)) (get_steps rm)
    = Some step ->
  ~ (1 < SubmitAssessment.step_order payload /\
     SubmitAssessment.step_order payload - 1 ∉
       completed_steps_of st (SubmitAssessment.user_id payload)
         (SubmitAssessment.domain payload)) ->
  answerIndex <$> questions step = Some <$> SubmitAssessment.answers payload ->
  1 <= Z.of_nat (length (questions step)) < 7505999378950828 ->
  exists st' result,
    submit_assessment payload st = (st', Return (result, "Passed")) /\
    result !! "score" = Some (VInt (Z.of_nat (length (questions step)))) /\
    result !! "total" = Some (VInt (Z.of_nat (length (questions step)))) /\
    result !! "passed" = Some (VBool true).
Proof.
  intros Hrm Hstep Hgate Hall Hlen.
  rewrite (submit_assessment_run payload st rm step Hrm Hstep). cbv zeta.
  rewrite (proj2 (gate_open_spec _ _)) by (by rewrite progress_of_doc_completed).
  assert (length (answerIndex <$> questions step) = length (questions step)) as Hcs
    by apply length_fmap.
  assert (score_of (answerIndex <$> questions step) (SubmitAssessment.answers payload) =
          Z.of_nat (length (questions step))) as Hscore.
  { rewrite score_of_spec, spec_score_count, Hall, count_match_all.
    by rewrite <- Hcs, Hall, length_fmap. }
  rewrite Hscore, Hcs, passed_of_exact by lia.
  rewrite (proj2 (Z.leb_le _ _)) by (apply spec_pass_mark_le; lia).
  eexists _, _. split; [reflexivity|]. apply result_doc_fields.
Qed.

(** ** Progress after a graded submission *)

Lemma find_app_cases {A} (p : A -> bool) (l1 l2 : list A) :
  find p (l1 ++ l2) = match find p l1 with Some x => Some x | None => find p l2 end.
Proof. induction l1 as [|a l1 IH]; cbn [app find]; [done|]. by destruct (p a). Qed.

Lemma pass_update_scores (step_order score : Z) (d : document) (m : gmap string Z) :
  d !! "scores" = Some (VScores m) ->
  pass_update step_order score d !! "scores" =
  Some (VScores (<[pretty step_order := score]> m)).
Proof.
  intros Hm. unfold pass_update, mongo_set_nested, mongo_addToSet.
  repeat case_match; by simplify_map_eq.
Qed.

Lemma scores_ok_scores (d : document) :
  scores_ok d -> exists m, d !! "scores" = Some (VScores m).
Proof. unfold scores_ok. destruct (d !! "scores") as [[]|]; try done. by eexists. Qed.

Lemma scores_ok_pass_update (step_order score : Z) (d : document) :
  scores_ok d -> scores_ok (pass_update step_order score d).
Proof.
  intros [m Hm]%scores_ok_scores. unfold scores_ok.
  by rewrite (pass_update_scores _ _ _ _ Hm).
Qed.

Lemma fresh_progress_scores_ok (user_id domain : string) (oid : ObjectId) :
  scores_ok (fresh_progress user_id domain oid).
Proof.
  unfold scores_ok.
  by assert (fresh_progress user_id domain oid !! "scores" = Some (VScores ∅)) as ->
    by (unfold fresh_progress, Progress_model_dump; by simplify_map_eq).
Qed.

Lemma progress_of_scores_wf (st : Store) (user_id domain : string) :
  scores_wf (db_progress st) ->
  scores_wf (db_progress (progress_of st user_id domain).1).
Proof.
  intros Hwf. unfold progress_of. destruct (find_one _ _); [done|].
  cbn [fst db_progress set_progress]. apply Forall_app. split; [done|].
  apply Forall_singleton, fresh_progress_scores_ok.
Qed.

Lemma progress_of_doc_scores (st : Store) (user_id domain : string) :
  get_scores (progress_of st user_id domain).2 = scores_of st user_id domain.
Proof.
  unfold progress_of, scores_of. destruct (find_one _ _); [done|].
  apply fresh_progress_scores.
Qed.

Lemma update_one_Forall (P : document -> Prop) (coll : collection) (fresh : ObjectId)
    (flt d : document) (f : document -> document) (upsert : bool) :
  find_one coll flt = Some d ->
  (forall x, P x -> P (f x)) ->
  Forall P coll -> Forall P (update_one coll fresh flt f upsert).
Proof.
  intros Hfind Hf. unfold update_one.
  destruct (update_first_Some _ f _ _ Hfind) as (pre & post & -> & _ & ->).
  rewrite !Forall_app, !Forall_cons. intros (Hp & Hd & Hq). by auto.
Qed.

(** The progress documents of the other pairs are where they were. *)
Lemma update_one_pass_other (coll : collection) (fresh : ObjectId)
    (user_id domain u d : string) (step_order score : Z) (prog : document) :
  find_one coll (progress_filter user_id domain) = Some prog ->
  (u, d) <> (user_id, domain) ->
  find_one (update_one coll fresh (progress_filter user_id domain)
              (pass_update step_order score) true) (progress_filter u d) =
  find_one coll (progress_filter u d).
Proof.
  intros Hfind Hne. unfold update_one.
  apply find_one_Some in Hfind as Hm. destruct Hm as [_ Hm].
  destruct (update_first_Some _ (pass_update step_order score) _ _ Hfind)
    as (pre & post & -> & _ & ->).
  assert (forall x, matches (progress_filter user_id domain) x = true ->
                    matches (progress_filter u d) x = false) as Hoff.
  { intros x [Hx1 Hx2]%matches_progress_filter.
    destruct (matches (progress_filter u d) x) eqn:Hx; [|done].
    apply matches_progress_filter in Hx as [Hx3 Hx4]. congruence. }
  unfold find_one. rewrite !find_app_cases. cbn [find].
  rewrite (Hoff prog Hm), (Hoff _ (pass_update_matches step_order score _ _ _ Hm)).
  done.
Qed.

(** The same for the documents of another user, whatever the domain. *)
Lemma update_one_pass_filter (coll : collection) (fresh : ObjectId)
    (user_id domain u : string) (step_order score : Z) (prog : document) :
  find_one coll (progress_filter user_id domain) = Some prog ->
  u <> user_id ->
  List.filter (matches {["user_id" := VStr u]})
    (update_one coll fresh (progress_filter user_id domain)
       (pass_update step_order score) true) =
  List.filter (matches {["user_id" := VStr u]}) coll.
Proof.
  intros Hfind Hne. unfold update_one.
  apply find_one_Some in Hfind as Hm. destruct Hm as [_ Hm].
  destruct (update_first_Some _ (pass_update step_order score) _ _ Hfind)
    as (pre & post & -> & _ & ->).
  assert (forall x, matches (progress_filter user_id domain) x = true ->
                    matches {["user_id" := VStr u]} x = false) as Hoff.
  { intros x [Hx1 Hx2]%matches_progress_filter.
    destruct (matches {["user_id" := VStr u]} x) eqn:Hx; [|done].
    apply matches_singleton in Hx. congruence. }
  rewrite !List.filter_app. cbn [List.filter].
  rewrite (Hoff prog Hm), (Hoff _ (pass_update_matches step_order score _ _ _ Hm)).
  done.
Qed.

Lemma graded_store_rest (payload : SubmitAssessment.t) (st : Store) (score total : Z)
    (passed : bool) :
  db_user (graded_store payload st score total passed) = db_user st /\
  db_roadmap (graded_store payload st score total passed) = db_roadmap st /\
  db_assessmentresult (graded_store payload st score total passed) =
    db_assessmentresult st ++ [result_doc payload score total passed (db_next_oid st)].
Proof. unfold graded_store. by destruct passed. Qed.

Lemma graded_store_progress (payload : SubmitAssessment.t) (st : Store) (score total : Z)
    (passed : bool) :
  db_progress (graded_store payload st score total passed) =
  if passed then
    update_one (db_progress st) (S (db_next_oid st))
      (progress_filter (SubmitAssessment.user_id payload) (SubmitAssessment.domain payload))
      (pass_update (SubmitAssessment.step_order payload) score) true
  else db_progress st.
Proof. unfold graded_store. by destruct passed. Qed.

(** X19: a passing submission stores its score under the step order, as text,
    among the scores of the submitter in the domain, and leaves the completed
    steps and the scores of every other user and domain as they were. *)
Theorem submit_assessment_pass_records (payload : SubmitAssessment.t) (st st' : Store)
    (result : document) (msg : string) :
  submit_assessment payload st = (st', Return (result, msg)) ->
  result !! "passed" = Some (VBool true) ->
  scores_wf (db_progress st) ->
  let user_id := SubmitAssessment.user_id payload in
  let domain := SubmitAssessment.domain payload in
  let N := SubmitAssessment.step_order payload in
  (exists score,
     result !! "score" = Some (VInt score) /\
     scores_of st' user_id domain = <[pretty N := score]> (scores_of st user_id domain)) /\
  (forall u d, (u, d) <> (user_id, domain) ->
     completed_steps_of st' u d = completed_steps_of st u d /\
     scores_of st' u d = scores_of st u d).
Proof.
  intros Hsub Hpass Hwf user_id domain N.
  apply submit_assessment_Return in Hsub
    as (rm & step & passed & _ & _ & _ & _ & -> & -> & _).
  fold user_id domain in Hpass |- *.
  set (po := progress_of st user_id domain) in *.
  set (score := score_of _ _) in *. set (total := Z.of_nat _) in *.
  destruct (result_doc_fields payload score total passed (db_next_oid po.1))
    as (Hscore & _ & Hp).
  rewrite Hp in Hpass. injection Hpass as ->.
  pose proof (progress_of_find st user_id domain) as Hfind. fold po in Hfind.
  pose proof (graded_store_progress payload po.1 score total true) as Hdb.
  cbn match in Hdb. fold user_id domain N in Hdb.
  split.
  - exists score. split; [exact Hscore|].
    unfold scores_of at 1. rewrite Hdb.
    destruct (update_one_pass (db_progress po.1) (S (db_next_oid po.1)) user_id domain
                N score po.2 Hfind) as [-> _].
    assert (scores_ok po.2) as [m Hm]%scores_ok_scores.
    { pose proof (progress_of_scores_wf st user_id domain Hwf) as Hwf1. fold po in Hwf1.
      apply find_one_Some in Hfind as [Hin _].
      unfold scores_wf in Hwf1. rewrite Forall_forall in Hwf1. by apply Hwf1. }
    rewrite <- (progress_of_doc_scores st user_id domain). fold po.
    unfold get_scores. by rewrite (pass_update_scores _ _ _ _ Hm), Hm.
  - intros u d Hne.
    rewrite <- (progress_of_completed st user_id domain u d).
    rewrite <- (progress_of_scores st user_id domain u d). fold po.
    unfold completed_steps_of, scores_of. rewrite Hdb.
    by rewrite (update_one_pass_other _ _ _ _ _ _ _ _ _ Hfind Hne).
Qed.

Lemma graded_pass_completed (payload : SubmitAssessment.t) (st : Store) (score total : Z)
    (prog : document) :
  let user_id := SubmitAssessment.user_id payload in
  let domain := SubmitAssessment.domain payload in
  find_one (db_progress st) (progress_filter user_id domain) = Some prog ->
  progress_ok prog ->
  SubmitAssessment.step_order payload ∈
    completed_steps_of (graded_store payload st score total true) user_id domain.
Proof.
  intros user_id domain Hfind (l & Hl & _)%progress_ok_completed.
  unfold completed_steps_of. rewrite graded_store_progress. cbn match.
  destruct (update_one_pass (db_progress st) (S (db_next_oid st)) user_id domain
              (SubmitAssessment.step_order payload) score prog Hfind) as [Hf _].
  cbv zeta in Hf. subst user_id domain. rewrite Hf.
  unfold get_ints. rewrite (pass_update_completed _ _ _ _ Hl).
  destruct (bool_decide_reflect (SubmitAssessment.step_order payload ∈ l)); [done|].
  apply elem_of_app. right. by left.
Qed.

(** X20: after a pass of step N the same user is never refused at the gate of
    step N+1 of the domain; after a fail of a step N that was not completed
    before, a submission for an existing step N+1 is refused with 403 and
    leaves the store as it is. *)
Theorem submit_assessment_next_step (payload next : SubmitAssessment.t) (st st' : Store)
    (result : document) (msg : string) :
  submit_assessment payload st = (st', Return (result, msg)) ->
  progress_wf (db_progress st) ->
  SubmitAssessment.user_id next = SubmitAssessment.user_id payload ->
  SubmitAssessment.domain next = SubmitAssessment.domain payload ->
  SubmitAssessment.step_order next = SubmitAssessment.step_order payload + 1 ->
  let forbidden := http 403 "Complete previous step first" in
  (msg = "Passed" ->
   forall st'', submit_assessment next st' <> (st'', Raise forbidden)) /\
  (msg = "Failed" ->
   orders_from_one st ->
   SubmitAssessment.step_order payload ∉
     completed_steps_of st (SubmitAssessment.user_id payload)
       (SubmitAssessment.domain payload) ->
   (forall rm, find_one (db_roadmap st)
                 {["domain" := VStr (SubmitAssessment.domain payload)]} = Some rm ->
      exists s, s ∈ get_steps rm /\ order s = SubmitAssessment.step_order payload + 1) ->
   submit_assessment next st' = (st', Raise forbidden)).
Proof.
  intros Hsub Hwf Hu Hd HN forbidden.
  apply submit_assessment_Return in Hsub
    as (rm & step & passed & Hrm & Hstep & _ & _ & -> & _ & ->).
  set (user_id := SubmitAssessment.user_id payload) in *.
  set (domain := SubmitAssessment.domain payload) in *.
  set (N := SubmitAssessment.step_order payload) in *.
  set (po := progress_of st user_id domain) in *.
  set (score := score_of _ _) in *. set (total := Z.of_nat _) in *.
  set (st' := graded_store payload po.1 score total passed).
  pose proof (progress_of_find st user_id domain) as Hfind. fold po in Hfind.
  rewrite (submit_assessment_cases next st'), Hu, Hd, HN. fold user_id domain N.
  destruct (graded_store_rest payload po.1 score total passed) as (_ & Hrm' & _).
  fold st' in Hrm'. destruct (progress_of_rest st user_id domain) as (_ & Hrm1 & _).
  fold po in Hrm1. rewrite Hrm', Hrm1, Hrm.
  split.
  - intros Hmsg. destruct passed; [|done]. intros st''.
    destruct (find (fun s => bool_decide (order s = N + 1)) (get_steps rm)); [|done].
    cbv zeta.
    assert (gate_closed (progress_of st' user_id domain).2 (N + 1) = false) as ->.
    { apply gate_open_spec. rewrite progress_of_doc_completed. intros [_ Hnot].
      apply Hnot. replace (N + 1 - 1) with N by lia.
      apply (graded_pass_completed payload po.1 score total po.2 Hfind).
      pose proof (progress_of_wf st user_id domain Hwf) as Hwf1. fold po in Hwf1.
      apply find_one_Some in Hfind as [Hin _].
      unfold progress_wf in Hwf1. rewrite Forall_forall in Hwf1. by apply Hwf1. }
    by destruct (passed_of _ _).
  - intros Hmsg Hord Hnot Hnext. destruct passed; [done|].
    destruct (Hnext rm eq_refl) as (s & Hs & Hos).
    destruct (find (fun s => bool_decide (order s = N + 1)) (get_steps rm))
      as [step'|] eqn:Hstep'.
    2:{ exfalso. apply list_elem_of_In in Hs.
        pose proof (find_none _ _ Hstep' s Hs) as Hf. cbv beta in Hf.
        by rewrite bool_decide_eq_true_2 in Hf. }
    cbv zeta.
    assert (find_one (db_progress st') (progress_filter user_id domain) = Some po.2)
      as Hfind' by (unfold st'; by rewrite graded_store_progress).
    assert (progress_of st' user_id domain = (st', po.2)) as ->
      by (unfold progress_of; by rewrite Hfind').
    cbn [fst snd].
    assert (gate_closed po.2 (N + 1) = true) as ->; [|done].
    apply gate_closed_spec. unfold po. rewrite progress_of_doc_completed.
    pose proof (found_step_order st _ rm step N Hord Hrm Hstep).
    split; [lia|]. by replace (N + 1 - 1) with N by lia.
Qed.

(** ** [to_str_id] and the dashboard *)

Section DashboardMore.
Context `{Externals}.

Lemma to_str_id_falsy (d : document) :
  truthy (d !! "_id") = false -> to_str_id (Some d) = Some d.
Proof. intros Hf. unfold to_str_id. by rewrite Hf, andb_false_r. Qed.

Lemma to_str_id_truthy (d : document) (v : value) :
  d !! "_id" = Some v -> truthy (Some v) = true ->
  to_str_id (Some d) = Some (<["id" := VStr (py_str v)]> (delete "_id" d)).
Proof.
  intros Hid Hv. unfold to_str_id. rewrite Hid, Hv.
  assert (truthy_doc (Some d) = true) as ->; [|done].
  cbn [truthy_doc]. apply negb_true_iff, bool_decide_eq_false.
  intros ->. by rewrite lookup_empty in Hid.
Qed.

(** X21: [to_str_id] keeps every field other than [_id] and [id]; a truthy
    [_id] is removed and [str(_id)] stored under [id]: the text of an
    [ObjectId], a string itself, an integer in decimal, and for a list or a
    dictionary what [str] gives for it; a document without a truthy [_id] is
    returned as it is; converting twice is converting once. *)
Theorem to_str_id_spec (d : document) :
  exists d',
    to_str_id (Some d) = Some d' /\
    (forall k, k <> "id" -> k <> "_id" -> d' !! k = d !! k) /\
    (truthy (d !! "_id") = true ->
     d' !! "_id" = None /\
     exists v, d !! "_id" = Some v /\ d' !! "id" = Some (VStr (py_str v))) /\
    (forall o, d !! "_id" = Some (VOid o) ->
       d' !! "_id" = None /\ d' !! "id" = Some (VStr (ObjectId_str o))) /\
    (forall s, d !! "_id" = Some (VStr s) -> s <> "" ->
       d' !! "_id" = None /\ d' !! "id" = Some (VStr s)) /\
    (forall z, d !! "_id" = Some (VInt z) -> z <> 0 ->
       d' !! "_id" = None /\ d' !! "id" = Some (VStr (pretty z))) /\
    (forall v, d !! "_id" = Some v -> truthy (Some v) = true ->
       match v with
       | VInts _ | VScores _ | VSteps _ =>
           d' !! "_id" = None /\ d' !! "id" = Some (VStr (container_str v))
       | _ => True
       end) /\
    (truthy (d !! "_id") = false -> d' = d) /\
    to_str_id (to_str_id (Some d)) = to_str_id (Some d).
Proof.
  assert (exists d',
            to_str_id (Some d) = Some d' /\
            (forall k, k <> "id" -> k <> "_id" -> d' !! k = d !! k) /\
            (forall v, d !! "_id" = Some v -> truthy (Some v) = true ->
               d' !! "_id" = None /\ d' !! "id" = Some (VStr (py_str v))) /\
            (truthy (d !! "_id") = false -> d' = d) /\
            to_str_id (Some d') = Some d') as (d' & Hrun & Hkeep & Hid & Hfalsy & Hidem).
  { destruct (truthy (d !! "_id")) eqn:Ht.
    - destruct (d !! "_id") as [v|] eqn:Hv; [|done].
      rewrite (to_str_id_truthy d v Hv Ht). eexists. split; [reflexivity|].
      split; [intros k Hk1 Hk2; by rewrite lookup_insert_ne, lookup_delete_ne|].
      assert ((<["id" := VStr (py_str v)]> (delete "_id" d)) !! "_id" = None) as Hnone
        by (by rewrite lookup_insert_ne, lookup_delete_eq).
      split; [|split; [done|]].
      + intros v' [= <-] _. split; [done|]. by rewrite lookup_insert_eq.
      + apply to_str_id_falsy. by rewrite Hnone.
    - rewrite (to_str_id_falsy d Ht). exists d. split; [done|]. split; [done|].
      split; [|split; [done|by apply to_str_id_falsy]].
      intros v Hv Hv'. rewrite Hv in Ht. congruence. }
  exists d'. split; [exact Hrun|]. split; [exact Hkeep|]. split; [|split; [|split; [|split]]].
  - intros Ht. destruct (d !! "_id") as [v|] eqn:Hv; [|done].
    destruct (Hid v eq_refl Ht) as [Hnone Hd']. split; [exact Hnone|]. by exists v.
  - intros o Ho. by apply (Hid (VOid o)).
  - intros s Hs Hne. apply (Hid (VStr s) Hs). cbn [truthy].
    by rewrite bool_decide_eq_false_2.
  - intros z Hz Hne. apply (Hid (VInt z) Hz). cbn [truthy].
    apply negb_true_iff, Z.eqb_neq, Hne.
  - split; [|split; [exact Hfalsy|by rewrite Hrun]].
    intros v Hv Ht. destruct (Hid v Hv Ht) as [Hnone Hd']. by destruct v.
Qed.

Lemma to_str_id_doc_lookup_other (d : document) (k : string) :
  k <> "id" -> k <> "_id" -> to_str_id_doc d !! k = d !! k.
Proof.
  intros Hk1 Hk2. unfold to_str_id_doc. destruct (to_str_id_is_Some d) as [d' Hd'].
  rewrite Hd'. cbn [default from_option id]. by eapply to_str_id_lookup_other.
Qed.

Lemma dashboard_run (st : Store) (user_id : string) :
  dashboard user_id st =
  (st, Return (to_str_id_doc <$> find_all (db_assessmentresult st)
                                   {["user_id" := VStr user_id]},
               to_str_id_doc <$> find_all (db_progress st) {["user_id" := VStr user_id]})).
Proof. reflexivity. Qed.

Lemma find_all_elem_of (coll : collection) (flt d : document) :
  d ∈ find_all coll flt <-> d ∈ coll /\ matches flt d = true.
Proof.
  unfold find_all. rewrite !list_elem_of_In. apply filter_In.
Qed.

Lemma listed_own (coll : collection) (user_id : string) :
  Forall (fun r : document => r !! "user_id" = Some (VStr user_id))
    (to_str_id_doc <$> find_all coll {["user_id" := VStr user_id]}) /\
  (forall d, d ∈ coll -> d !! "user_id" = Some (VStr user_id) ->
     to_str_id_doc d ∈ to_str_id_doc <$> find_all coll {["user_id" := VStr user_id]}).
Proof.
  split.
  - apply Forall_fmap, Forall_forall. intros d [_ Hm%matches_singleton]%find_all_elem_of.
    cbv [compose]. by rewrite to_str_id_doc_lookup_other.
  - intros d Hd Hu. apply list_elem_of_fmap_2, find_all_elem_of.
    split; [done|]. by apply matches_singleton.
Qed.

(** X22: the dashboard never writes; it lists only documents of the user asked
    for, and every stored result and progress record of that user. *)
Theorem dashboard_own_entries (st : Store) (user_id : string) :
  exists results progresses,
    dashboard user_id st = (st, Return (results, progresses)) /\
    Forall (fun r : document => r !! "user_id" = Some (VStr user_id)) results /\
    Forall (fun p : document => p !! "user_id" = Some (VStr user_id)) progresses /\
    (forall d, d ∈ db_assessmentresult st -> d !! "user_id" = Some (VStr user_id) ->
       to_str_id_doc d ∈ results) /\
    (forall d, d ∈ db_progress st -> d !! "user_id" = Some (VStr user_id) ->
       to_str_id_doc d ∈ progresses).
Proof.
  eexists _, _. split; [apply dashboard_run|].
  destruct (listed_own (db_assessmentresult st) user_id) as [Hr1 Hr2].
  destruct (listed_own (db_progress st) user_id) as [Hp1 Hp2].
  split; [exact Hr1|]. split; [exact Hp1|]. split; [exact Hr2|exact Hp2].
Qed.

Lemma progress_of_filter_other (st : Store) (user_id domain u : string) :
  u <> user_id ->
  find_all (db_progress (progress_of st user_id domain).1) {["user_id" := VStr u]} =
  find_all (db_progress st) {["user_id" := VStr u]}.
Proof.
  intros Hne. unfold progress_of. destruct (find_one _ _); [done|].
  cbn [fst db_progress set_progress]. unfold find_all. rewrite List.filter_app.
  cbn [List.filter].
  assert (matches {["user_id" := VStr u]} (fresh_progress user_id domain (db_next_oid st))
          = false) as ->; [|by rewrite app_nil_r].
  destruct (matches _ _) eqn:Hm; [|done]. apply matches_singleton in Hm.
  pose proof (fresh_progress_matches user_id domain (db_next_oid st)) as Hf.
  apply matches_progress_filter in Hf as [Hf _]. congruence.
Qed.

(** X23: a graded submission adds its result, with the [_id] as text under
    [id], at the end of the assessments on the submitter's dashboard, and
    leaves the dashboard of every other user as it was. *)
Theorem dashboard_after_submission (payload : SubmitAssessment.t) (st st' : Store)
    (result : document) (msg : string) (u : string) :
  submit_assessment payload st = (st', Return (result, msg)) ->
  exists rs ps rs' ps',
    dashboard u st = (st, Return (rs, ps)) /\
    dashboard u st' = (st', Return (rs', ps')) /\
    (u = SubmitAssessment.user_id payload -> rs' = rs ++ [to_str_id_doc result]) /\
    (u <> SubmitAssessment.user_id payload -> rs' = rs /\ ps' = ps).
Proof.
  intros (rm & step & passed & _ & _ & _ & _ & -> & -> & _)%submit_assessment_Return.
  set (user_id := SubmitAssessment.user_id payload).
  set (domain := SubmitAssessment.domain payload).
  set (po := progress_of st user_id domain).
  set (score := score_of _ _). set (total := Z.of_nat _).
  set (result := result_doc payload score total passed (db_next_oid po.1)).
  eexists _, _, _, _. split; [apply dashboard_run|]. split; [apply dashboard_run|].
  destruct (graded_store_rest payload po.1 score total passed) as (_ & _ & Hlog).
  destruct (progress_of_rest st user_id domain) as (_ & _ & Hlog1). fold po in Hlog1.
  rewrite Hlog, Hlog1. fold result. unfold find_all at 1 3.
  rewrite List.filter_app, fmap_app. cbn [List.filter].
  destruct (result_doc_payload payload score total passed (db_next_oid po.1))
    as (Hru & _). fold result user_id in Hru.
  split.
  - intros ->. by rewrite (proj2 (matches_singleton _ _ _) Hru).
  - intros Hne.
    assert (matches {["user_id" := VStr u]} result = false) as ->.
    { destruct (matches _ _) eqn:Hm; [|done]. apply matches_singleton in Hm. congruence. }
    cbn [fmap list_fmap]. rewrite app_nil_r. split; [done|]. f_equal.
    rewrite graded_store_progress. fold user_id domain.
    rewrite <- (progress_of_filter_other st user_id domain u Hne). fold po.
    destruct passed; [|done].
    apply update_one_pass_filter with (prog := po.2); [|done].
    apply progress_of_find.
Qed.

End DashboardMore.

(** ** What no request does *)

Lemma seed_from_domains (seeds : list (string * list RoadmapStep)) (st : Store) :
  NoDup seeds.*1 ->
  (forall item, item ∈ seeds ->
     find_one (db_roadmap st) {["domain" := VStr item.1]} = None) ->
  (fun d : document => d !! "domain") <$> db_roadmap (seed_from seeds st) =
  ((fun d : document => d !! "domain") <$> db_roadmap st) ++
  ((fun item : string * list RoadmapStep => Some (VStr item.1)) <$> seeds).
Proof.
  revert st. induction seeds as [|item seeds IH]; intros st Hnd Hnone.
  - by rewrite app_nil_r.
  - cbn [fmap list_fmap] in Hnd. apply NoDup_cons in Hnd as [Hfresh Hnd].
    unfold seed_from in *. cbn [foldl]. rewrite seed_one_run.
    rewrite (Hnone item) by by left.
    rewrite IH; [|done|].
    + cbn [db_roadmap set_roadmap]. rewrite fmap_app, <- app_assoc. cbn [fmap list_fmap app].
      by rewrite (proj1 (stored_roadmap_fields _ _ _)).
    + intros item' Hin. cbn [db_roadmap set_roadmap]. rewrite find_one_app.
      rewrite (Hnone item') by by right.
      destruct (matches _ _) eqn:Hm; [|done]. apply matches_singleton in Hm.
      rewrite (proj1 (stored_roadmap_fields _ _ _)) in Hm. injection Hm as Hm.
      exfalso. apply Hfresh. rewrite Hm. by apply list_elem_of_fmap_2.
Qed.

Lemma mapM_of_fmap (coll : collection) (domains : list value) :
  (fun d : document => d !! "domain") <$> coll = Some <$> domains ->
  mapM (fun d : document => d !! "domain") coll = Some domains.
Proof.
  intros Heq. apply mapM_Some. revert domains Heq.
  induction coll as [|d coll IH]; intros [|v domains]; cbn [fmap list_fmap]; try done.
  intros [= Hd Hrest]. constructor; [done|]. by apply IH.
Qed.

Lemma store_inv_full_empty : store_inv_full empty_store.
Proof.
  split; [apply store_inv_empty|]. split; [apply Forall_nil_2|apply Forall_nil_2].
Qed.

Lemma seed_from_inv_full (st : Store) :
  store_inv_full st -> store_inv_full (seed_from SEED_ROADMAPS st).
Proof.
  intros (Hinv & Hs & Hr).
  destruct (seed_from_spec SEED_ROADMAPS st) as (added & Hrm & _ & Hpr & _ & Hadded).
  split; [by apply seed_from_inv|]. split; [by rewrite Hpr|].
  unfold roadmaps_named. rewrite Hrm. apply Forall_app. split; [done|].
  eapply Forall_impl; [exact Hadded|]. intros doc (item & _ & _ & Hd & _). by rewrite Hd.
Qed.

Lemma SEED_ROADMAPS_fields :
  (fun item : string * list RoadmapStep => Some (VStr item.1)) <$> SEED_ROADMAPS =
  Some <$> (VStr <$> SEED_ROADMAPS.*1).
Proof. reflexivity. Qed.

Lemma list_domains_store (st : Store) : (list_domains st).1 = st.
Proof. rewrite list_domains_run. by destruct (mapM _ _). Qed.

Lemma get_roadmap_store (st : Store) (domain : string) : (get_roadmap domain st).1 = st.
Proof. rewrite get_roadmap_run. by destruct (find_one _ _). Qed.

Section Reachable.
Context `{Externals}.

Lemma login_store (st : Store) (payload : LoginRequest.t) : (login payload st).1 = st.
Proof. rewrite login_run. destruct (find_one _ _); [|done]. by destruct (bool_decide _). Qed.

Lemma get_profile_store (st : Store) (user_id : string) : (get_profile user_id st).1 = st.
Proof.
  unfold get_profile. destruct (ObjectId_parse user_id); [|done]. run_handler.
  by destruct (negb _).
Qed.

Lemma register_store (st : Store) (user : User.t) :
  (register user st).1 = st \/
  (register user st).1 =
    set_user (db_user st ++ [registered_doc user (db_next_oid st)]) (S (db_next_oid st)) st.
Proof.
  rewrite register_run. destruct (bool_decide _); [|by left].
  destruct (truthy_doc _); [by left|by right].
Qed.

Lemma update_profile_store (st : Store) (user_id : string) (payload : UpdateProfile.t) :
  exists users, (update_profile user_id payload st).1 = set_user users (db_next_oid st) st.
Proof.
  unfold update_profile. destruct (ObjectId_parse user_id);
    [|exists (db_user st); by rewrite set_user_id].
  destruct (negb _); [exists (db_user st); by rewrite set_user_id|].
  run_handler. by eexists.
Qed.

Lemma change_password_store (st : Store) (payload : ChangePasswordRequest.t) :
  exists users, (change_password payload st).1 = set_user users (db_next_oid st) st.
Proof.
  unfold change_password. destruct (ObjectId_parse _);
    [|exists (db_user st); by rewrite set_user_id].
  run_handler. destruct (negb (truthy_doc _)); [exists (db_user st); by rewrite set_user_id|].
  destruct (negb (bool_decide _)); [exists (db_user st); by rewrite set_user_id|].
  by eexists.
Qed.

Lemma submit_assessment_store (st : Store) (payload : SubmitAssessment.t) :
  let po := progress_of st (SubmitAssessment.user_id payload)
              (SubmitAssessment.domain payload) in
  (submit_assessment payload st).1 = st \/
  (submit_assessment payload st).1 = po.1 \/
  exists score total passed,
    (submit_assessment payload st).1 = graded_store payload po.1 score total passed.
Proof.
  intros po. rewrite submit_assessment_cases. fold po.
  destruct (find_one _ _); [|by left]. destruct (find _ _); [|by left]. cbv zeta.
  destruct (gate_closed _ _); [right; by left|].
  destruct (passed_of _ _); [|right; by left]. right. right. by eexists _, _, _.
Qed.

(** The stores a request can leave. *)
Lemma serve_shape (req : Request) (st : Store) :
  (exists users n, serve req st = set_user users n st /\ (db_next_oid st <= n)%nat) \/
  (exists u d, serve req st = (progress_of st u d).1) \/
  (exists payload score total passed,
     req = ReqSubmitAssessment payload /\
     serve req st =
       graded_store payload
         (progress_of st (SubmitAssessment.user_id payload)
            (SubmitAssessment.domain payload)).1 score total passed).
Proof.
  assert (exists users n, st = set_user users n st /\ (db_next_oid st <= n)%nat) as Hsame.
  { exists (db_user st), (db_next_oid st). by rewrite set_user_id. }
  destruct req; cbn [serve].
  - left. destruct (register_store st user) as [-> | ->]; [apply Hsame|].
    eexists _, _. split; [done|]. lia.
  - left. rewrite login_store. apply Hsame.
  - left. destruct (change_password_store st payload) as [users ->]. by eexists _, _.
  - left. rewrite get_profile_store. apply Hsame.
  - left. destruct (update_profile_store st user_id payload) as [users ->]. by eexists _, _.
  - left. rewrite list_domains_store. apply Hsame.
  - left. rewrite get_roadmap_store. apply Hsame.
  - right. left. exists user_id, domain. by rewrite get_progress_run.
  - destruct (submit_assessment_store st payload) as [-> | [-> | (s & t & p & ->)]].
    + left. apply Hsame.
    + right. left. by eexists _, _.
    + right. right. by eexists _, _, _, _.
  - left. apply Hsame.
Qed.

Lemma serve_roadmap (req : Request) (st : Store) : db_roadmap (serve req st) = db_roadmap st.
Proof.
  destruct (serve_shape req st)
    as [(users & n & -> & Hn) | [(u & d & ->) | (payload & s & t & p & -> & ->)]].
  - done.
  - apply progress_of_rest.
  - destruct (graded_store_rest payload
      (progress_of st (SubmitAssessment.user_id payload)
         (SubmitAssessment.domain payload)).1 s t p) as (_ & -> & _).
    apply progress_of_rest.
Qed.

(** X24: no request writes the roadmaps; a request leaves the log of results
    as it was or adds one result at its end, and only a submission adds one;
    the rank of the next generated id never decreases. *)
Theorem serve_frame (req : Request) (st : Store) :
  db_roadmap (serve req st) = db_roadmap st /\
  (exists added,
     db_assessmentresult (serve req st) = db_assessmentresult st ++ added /\
     (length added <= 1)%nat /\
     (added <> [] -> exists payload, req = ReqSubmitAssessment payload)) /\
  (db_next_oid st <= db_next_oid (serve req st))%nat.
Proof.
  destruct (serve_shape req st)
    as [(users & n & -> & Hn) | [(u & d & ->) | (payload & s & t & p & -> & ->)]].
  - split; [done|]. split; [|done]. exists []. rewrite app_nil_r. split; [done|].
    split; [cbn [length]; lia|done].
  - destruct (progress_of_rest st u d) as (_ & -> & ->). split; [done|]. split.
    + exists []. rewrite app_nil_r. split; [done|]. split; [cbn [length]; lia|done].
    + apply progress_of_next_oid.
  - set (po := progress_of st _ _).
    destruct (graded_store_rest payload po.1 s t p) as (_ & -> & ->).
    destruct (progress_of_rest st (SubmitAssessment.user_id payload)
                (SubmitAssessment.domain payload)) as (_ & Hrm & Hlog).
    fold po in Hrm, Hlog. rewrite Hrm, Hlog. split; [done|]. split.
    + eexists [_]. split; [done|]. split; [done|]. intros _. by eexists.
    + pose proof (progress_of_next_oid st (SubmitAssessment.user_id payload)
                    (SubmitAssessment.domain payload)) as H1. fold po in H1.
      pose proof (graded_store_next_oid payload po.1 s t p). lia.
Qed.

(** X25: no request removes a user or changes a field of a stored user other
    than the profile fields and the digest: the values of every other field,
    among them [_id] and [email], stay in place, and only a registration
    adds a user, at the end. *)
Theorem serve_users_stable (req : Request) (st : Store) (k : string) :
  k ∉ ["first_name"; "last_name"; "phone"; "qualification"; "avatar_url"; "password_hash"] ->
  exists added,
    (fun d : document => d !! k) <$> db_user (serve req st) =
      ((fun d : document => d !! k) <$> db_user st) ++ added /\
    (added <> [] ->
     exists user, req = ReqRegister user /\
                  added = [registered_doc user (db_next_oid st) !! k]).
Proof.
  intros Hk.
  assert (k <> "password_hash") as Hk1 by (intros ->; apply Hk; compute_done).
  assert (k ∉ ["first_name"; "last_name"; "phone"; "qualification"; "avatar_url"]) as Hk2.
  { intros Hin. apply Hk.
    change (k ∈ ["first_name"; "last_name"; "phone"; "qualification"; "avatar_url"]
                  ++ ["password_hash"]).
    apply elem_of_app. by left. }
  assert (forall st', db_user st' = db_user st ->
            exists added,
              (fun d : document => d !! k) <$> db_user st' =
                ((fun d : document => d !! k) <$> db_user st) ++ added /\
              (added <> [] ->
               exists user, req = ReqRegister user /\
                            added = [registered_doc user (db_next_oid st) !! k])) as Hsame.
  { intros st' ->. exists []. by rewrite app_nil_r. }
  destruct req; cbn [serve].
  - destruct (register_store st user) as [-> | ->]; [by apply Hsame|].
    cbn [db_user set_user]. rewrite fmap_app. eexists. split; [done|]. intros _. by eexists.
  - by rewrite login_store; apply Hsame.
  - exists []. rewrite app_nil_r. split; [|done]. by apply change_password_user_fields.
  - by rewrite get_profile_store; apply Hsame.
  - exists []. rewrite app_nil_r. split; [|done]. by apply update_profile_user_fields.
  - by rewrite list_domains_store; apply Hsame.
  - by rewrite get_roadmap_store; apply Hsame.
  - rewrite get_progress_run. apply Hsame. apply progress_of_rest.
  - destruct (submit_assessment_store st payload) as [-> | [-> | (s & t & p & ->)]].
    + by apply Hsame.
    + apply Hsame. apply progress_of_rest.
    + apply Hsame. destruct (graded_store_rest payload
        (progress_of st (SubmitAssessment.user_id payload)
           (SubmitAssessment.domain payload)).1 s t p) as (-> & _).
      apply progress_of_rest.
  - by apply Hsame.
Qed.

Lemma serve_store_inv (req : Request) (st : Store) :
  store_inv st -> store_inv (serve req st).
Proof.
  intros Hinv. destruct req; cbn [serve].
  - destruct (register user st) as [st' out] eqn:E. by eapply register_inv.
  - by rewrite login_store.
  - by apply change_password_inv.
  - by rewrite get_profile_store.
  - destruct (update_profile user_id payload st) as [st' out] eqn:E.
    by eapply update_profile_inv.
  - by rewrite list_domains_store.
  - by rewrite get_roadmap_store.
  - destruct (get_progress user_id domain st) as [st' out] eqn:E.
    by eapply get_progress_inv.
  - destruct (submit_assessment payload st) as [st' out] eqn:E.
    by eapply submit_assessment_inv.
  - done.
Qed.

Lemma serve_scores_wf (req : Request) (st : Store) :
  scores_wf (db_progress st) -> scores_wf (db_progress (serve req st)).
Proof.
  intros Hwf. destruct (serve_shape req st)
    as [(users & n & -> & Hn) | [(u & d & ->) | (payload & s & t & p & -> & ->)]].
  - done.
  - by apply progress_of_scores_wf.
  - rewrite graded_store_progress.
    pose proof (progress_of_scores_wf st (SubmitAssessment.user_id payload)
                  (SubmitAssessment.domain payload) Hwf) as Hwf1.
    destruct p; [|done].
    eapply update_one_Forall; [apply progress_of_find| |exact Hwf1].
    intros x. apply scores_ok_pass_update.
Qed.

Lemma serve_inv_full (req : Request) (st : Store) :
  store_inv_full st -> store_inv_full (serve req st).
Proof.
  intros (Hinv & Hs & Hr). split; [by apply serve_store_inv|].
  split; [by apply serve_scores_wf|].
  unfold roadmaps_named. by rewrite serve_roadmap.
Qed.

(** X26: every store the program produces, by seeding at start-up and by
    requests in any order, has unique emails, user ids below the next
    generated one, completed steps without repetition, step orders from 1,
    scores held as a map and roadmaps that name their domain. *)
Theorem reachable_inv (st : Store) : reachable st -> store_inv_full st.
Proof.
  induction 1 as [|st _ IH|st req _ IH].
  - apply store_inv_full_empty.
  - by apply seed_from_inv_full.
  - by apply serve_inv_full.
Qed.

Lemma reachable_roadmap_fields (st : Store) :
  reachable st ->
  (fun d : document => d !! "domain") <$> db_roadmap st = [] \/
  (fun d : document => d !! "domain") <$> db_roadmap st =
    (fun item : string * list RoadmapStep => Some (VStr item.1)) <$> SEED_ROADMAPS.
Proof.
  induction 1 as [|st _ IH|st req _ IH].
  - by left.
  - right. destruct IH as [Hnil|Hall].
    + apply fmap_nil_inv in Hnil.
      rewrite seed_from_domains, Hnil; [done|apply SEED_ROADMAPS_domains|].
      intros item _. by rewrite Hnil.
    + rewrite seed_from_fixed; [done|]. intros item Hin.
      assert (Some (VStr item.1) ∈ (fun d : document => d !! "domain") <$> db_roadmap st)
        as (d & Hd & Hdin)%list_elem_of_fmap
        by (rewrite Hall; by apply (list_elem_of_fmap_2
              (fun item : string * list RoadmapStep => Some (VStr item.1)))).
      apply (find_one_is_Some _ _ d Hdin). by apply matches_singleton.
  - by rewrite serve_roadmap.
Qed.

(** X27: in every store the program produces, [list_domains] returns, and what
    it returns is either nothing or the predefined domains in their order. *)
Theorem reachable_list_domains (st : Store) :
  reachable st ->
  exists domains,
    list_domains st = (st, Return domains) /\
    (domains = [] \/ domains = VStr <$> SEED_ROADMAPS.*1).
Proof.
  intros Hreach. rewrite list_domains_run.
  destruct (reachable_roadmap_fields st Hreach) as [Hf|Hf].
  - exists []. rewrite (mapM_of_fmap _ [] Hf). split; [done|by left].
  - rewrite SEED_ROADMAPS_fields in Hf. exists (VStr <$> SEED_ROADMAPS.*1).
    rewrite (mapM_of_fmap _ _ Hf). split; [done|by right].
Qed.

End Reachable.

(** ** Resumes *)

Lemma find_split {A} (p : A -> bool) (l : list A) (d : A) :
  find p l = Some d ->
  exists pre post, l = pre ++ d :: post /\ find p pre = None /\ p d = true.
Proof.
  induction l as [|a l IH]; [done|]. cbn [find]. destruct (p a) eqn:Hp.
  - intros [= ->]. by exists [], l.
  - intros (pre & post & -> & Hpre & Hd)%IH. exists (a :: pre), post.
    cbn [find app]. by rewrite Hp.
Qed.

Section ResumeMore.
Import ResumeDb.
Context `{Externals} `{PyRepr}.

Lemma resume_matches_singleton (k : string) (v : value) (d : document) :
  matches {[k := v]} d = true <-> d !! k = Some v.
Proof.
  unfold matches. rewrite bool_decide_eq_true. apply map_singleton_subseteq_l.
Qed.

Lemma resume_matches_other (k : string) (v v' : value) (d : document) :
  d !! k = Some v -> v' <> v -> matches {[k := v']} d = false.
Proof.
  intros Hd Hne. destruct (matches _ _) eqn:Hm; [|done].
  apply resume_matches_singleton in Hm. congruence.
Qed.

Lemma resume_find_truthy (coll : collection) (k : string) (v : value) (d : document) :
  find_one coll {[k := v]} = Some d -> truthy_doc (Some d) = true.
Proof.
  intros [_ Hm%resume_matches_singleton]%find_some.
  cbn [truthy_doc]. apply negb_true_iff, bool_decide_eq_false.
  intros ->. by rewrite lookup_empty in Hm.
Qed.

Lemma resume_update_first_app (p : document -> bool) (f : document -> document)
    (pre post : collection) (d : document) :
  find p pre = None -> p d = true ->
  update_first p f (pre ++ d :: post) = Some (pre ++ f d :: post).
Proof.
  intros Hpre Hd. induction pre as [|x pre IH]; cbn [app update_first find] in *.
  - by rewrite Hd.
  - destruct (p x); [done|]. by rewrite IH.
Qed.

Lemma resume_dump_no_id (payload : Resume.t) : Resume_model_dump payload !! "_id" = None.
Proof. unfold Resume_model_dump. by simplify_map_eq. Qed.

Lemma resume_dump_user (payload : Resume.t) :
  Resume_model_dump payload !! "user_id" = Some (VStr (Resume.user_id payload)).
Proof. unfold Resume_model_dump. by simplify_map_eq. Qed.

Lemma resume_find_by_id_None (coll : collection) (v : value) :
  (forall d, d ∈ coll -> d !! "_id" <> Some v) ->
  find (matches {["_id" := v]}) coll = None.
Proof.
  intros Hfresh. apply find_none_forall. intros d Hd.
  destruct (matches _ d) eqn:Hm; [|done].
  apply resume_matches_singleton in Hm. by destruct (Hfresh d Hd).
Qed.

(** The run for a user who has a resume. *)
Lemma upsert_resume_existing (st : Store) (payload : Resume.t) (pre post : collection)
    (ex : document) (o : ObjectId) :
  db_resume st = pre ++ ex :: post ->
  find (matches {["user_id" := VStr (Resume.user_id payload)]}) pre = None ->
  ex !! "user_id" = Some (VStr (Resume.user_id payload)) ->
  ex !! "_id" = Some (VOid o) ->
  (forall d, d ∈ pre -> d !! "_id" <> Some (VOid o)) ->
  upsert_resume payload st =
  ({| db_resume := pre ++ mongo_set (Resume_model_dump payload) ex :: post;
      db_next_oid := db_next_oid st |},
   Return (to_str_id (Some (mongo_set (Resume_model_dump payload) ex)))).
Proof.
  intros Hdb Hpre Hu Hid Hfresh. unfold upsert_resume.
  assert (find_one (db_resume st) {["user_id" := VStr (Resume.user_id payload)]} = Some ex)
    as Hfind.
  { unfold find_one. rewrite Hdb, find_app_cases, Hpre. cbn [find].
    by rewrite (proj2 (resume_matches_singleton _ _ _) Hu). }
  rewrite Hfind, (resume_find_truthy _ _ _ _ Hfind). cbn [default from_option id].
  rewrite Hid.
  pose proof (resume_find_by_id_None pre (VOid o) Hfresh) as Hpre'.
  assert (update_one (db_resume st) {["_id" := VOid o]}
            (mongo_set (Resume_model_dump payload)) =
          pre ++ mongo_set (Resume_model_dump payload) ex :: post) as ->.
  { unfold update_one. rewrite Hdb, resume_update_first_app; [done|done|].
    by apply resume_matches_singleton. }
  unfold find_one. rewrite find_app_cases, Hpre'. cbn [find].
  rewrite (proj2 (resume_matches_singleton _ _ _)); [done|].
  unfold mongo_set. by rewrite lookup_union_r by apply resume_dump_no_id.
Qed.

(** The run for a user who has none. *)
Lemma upsert_resume_fresh (st : Store) (payload : Resume.t) :
  find_one (db_resume st) {["user_id" := VStr (Resume.user_id payload)]} = None ->
  (forall d, d ∈ db_resume st -> d !! "_id" <> Some (VOid (db_next_oid st))) ->
  upsert_resume payload st =
  ({| db_resume := db_resume st ++
                     [<["_id" := VOid (db_next_oid st)]> (Resume_model_dump payload)];
      db_next_oid := S (db_next_oid st) |},
   Return (to_str_id (Some (<["_id" := VOid (db_next_oid st)]>
                              (Resume_model_dump payload))))).
Proof.
  intros Hfind Hfresh. unfold upsert_resume. rewrite Hfind. cbn [truthy_doc].
  unfold insert_one. rewrite resume_dump_no_id. cbn [fst snd].
  unfold find_one. rewrite find_app_cases, (resume_find_by_id_None _ _ Hfresh). cbn [find].
  rewrite (proj2 (resume_matches_singleton _ _ _)); [done|]. by rewrite lookup_insert_eq.
Qed.

Lemma get_resume_run (st : Store) (user_id : string) :
  get_resume user_id st =
  match find_one (db_resume st) {["user_id" := VStr user_id]} with
  | Some d => (st, Return (to_str_id (Some d)))
  | None => (st, Raise (http 404 "Resume not found"))
  end.
Proof.
  unfold get_resume. destruct (find_one _ _) as [d|] eqn:Hfind; [|done].
  by rewrite (resume_find_truthy _ _ _ _ Hfind).
Qed.

(** What the invariant gives about the resume found for a user. *)
Lemma resume_inv_found (st : Store) (user_id : string) (ex : document) :
  resume_inv st ->
  find_one (db_resume st) {["user_id" := VStr user_id]} = Some ex ->
  exists pre post o,
    db_resume st = pre ++ ex :: post /\
    find (matches {["user_id" := VStr user_id]}) pre = None /\
    ex !! "user_id" = Some (VStr user_id) /\
    ex !! "_id" = Some (VOid o) /\
    (forall d, d ∈ pre -> d !! "_id" <> Some (VOid o)).
Proof.
  intros (Hids & Hnd & _) (pre & post & Hdb & Hpre & Hm)%find_split.
  apply resume_matches_singleton in Hm. rewrite Hdb in Hids, Hnd.
  apply Forall_app in Hids as [_ Hids]. apply Forall_cons in Hids as [(o & Ho & _) _].
  exists pre, post, o. split; [done|]. split; [done|]. split; [done|]. split; [done|].
  rewrite fmap_app in Hnd. apply NoDup_app in Hnd as (_ & Hdis & _).
  intros d Hd Hdo. apply (Hdis (Some (VOid o))).
  - rewrite <- Hdo. by apply (list_elem_of_fmap_2 (fun d : document => d !! "_id")).
  - cbn [fmap list_fmap]. rewrite Ho. by left.
Qed.

Lemma resume_inv_fresh (st : Store) (d : document) :
  resume_inv st -> d ∈ db_resume st -> d !! "_id" <> Some (VOid (db_next_oid st)).
Proof.
  intros (Hids & _) Hd. unfold id_below in Hids. rewrite Forall_forall in Hids.
  destruct (Hids d Hd) as (o & -> & Ho). intros [= ->]. lia.
Qed.

Lemma resume_omap_update (pre post : collection) (ex ex' : document) (k : string) :
  ex' !! k = ex !! k ->
  (fun d : document => d !! k) <$> (pre ++ ex' :: post) =
  (fun d : document => d !! k) <$> (pre ++ ex :: post).
Proof. intros Hk. rewrite !fmap_app. cbn [fmap list_fmap]. by rewrite Hk. Qed.

Lemma resume_omap_fmap (coll coll' : collection) (k : string) :
  (fun d : document => d !! k) <$> coll' = (fun d : document => d !! k) <$> coll ->
  omap (fun d : document => d !! k) coll' = omap (fun d : document => d !! k) coll.
Proof.
  revert coll'. induction coll as [|d coll IH]; intros [|d' coll']; try done.
  cbn [fmap list_fmap omap list_omap]. intros [= -> Hrest]. by rewrite (IH coll').
Qed.

Lemma upsert_resume_keeps_inv (st : Store) (payload : Resume.t) :
  resume_inv st -> resume_inv (upsert_resume payload st).1.
Proof.
  intros Hinv.
  destruct (find_one (db_resume st) {["user_id" := VStr (Resume.user_id payload)]})
    as [ex|] eqn:Hfind.
  - destruct (resume_inv_found st _ ex Hinv Hfind)
      as (pre & post & o & Hdb & Hpre & Hu & Hid & Hfresh).
    rewrite (upsert_resume_existing st payload pre post ex o Hdb Hpre Hu Hid Hfresh).
    destruct Hinv as (Hids & Hnd & Hus). rewrite Hdb in Hids, Hnd, Hus.
    assert (mongo_set (Resume_model_dump payload) ex !! "_id" = ex !! "_id") as Hid'
      by (unfold mongo_set; by rewrite lookup_union_r by apply resume_dump_no_id).
    assert (mongo_set (Resume_model_dump payload) ex !! "user_id" = ex !! "user_id") as Hu'.
    { unfold mongo_set. rewrite Hu. apply lookup_union_Some_l, resume_dump_user. }
    unfold resume_inv. cbn [fst db_resume db_next_oid]. split; [|split].
    + rewrite Forall_app, Forall_cons in Hids |- *. destruct Hids as (Hp & Hex & Hq).
      split; [done|]. split; [|done]. unfold id_below in Hex |- *. by rewrite Hid'.
    + by rewrite (resume_omap_update _ _ _ _ _ Hid').
    + by rewrite (resume_omap_fmap _ _ _ (resume_omap_update _ _ _ _ _ Hu')).
  - rewrite (upsert_resume_fresh st payload Hfind)
      by (intros d Hd; by apply resume_inv_fresh).
    pose proof (fun d => resume_inv_fresh st d Hinv) as Hfresh.
    destruct Hinv as (Hids & Hnd & Hus).
    unfold resume_inv. cbn [fst db_resume db_next_oid]. split; [|split].
    + apply Forall_app. split.
      * eapply Forall_impl; [exact Hids|]. intros d (o & Ho & Hlt). exists o.
        split; [done|lia].
      * apply Forall_singleton. exists (db_next_oid st). rewrite lookup_insert_eq.
        split; [done|lia].
    + rewrite fmap_app. apply NoDup_app. split; [done|]. split; [|apply NoDup_singleton].
      intros x (d & -> & Hd)%list_elem_of_fmap Hx. cbn [fmap list_fmap] in Hx.
      apply list_elem_of_singleton in Hx. rewrite lookup_insert_eq in Hx.
      by destruct (Hfresh d Hd).
    + rewrite omap_app. apply NoDup_app. split; [done|]. split.
      * intros x (d & Hd & Hx)%list_elem_of_omap Hin. cbn [omap list_omap] in Hin.
        rewrite lookup_insert_ne, resume_dump_user in Hin by done.
        apply list_elem_of_singleton in Hin. subst x.
        apply find_none with (x := d) in Hfind; [|by apply list_elem_of_In].
        by rewrite (proj2 (resume_matches_singleton _ _ _) Hx) in Hfind.
      * cbn [omap list_omap]. rewrite lookup_insert_ne, resume_dump_user by done.
        apply NoDup_singleton.
Qed.


(** X29: [upsert_resume] is idempotent: a second call with the same payload
    returns what the first returned and leaves the store of the first. *)
Theorem upsert_resume_idempotent (st : Store) (payload : Resume.t) :
  resume_inv st ->
  upsert_resume payload (upsert_resume payload st).1 =
  upsert_resume payload st.
Proof.
  intros Hinv. pose proof (upsert_resume_keeps_inv st payload Hinv) as Hinv'.
  assert (exists pre post stored o,
            upsert_resume payload st =
              ({| db_resume := pre ++ stored :: post;
                  db_next_oid := db_next_oid (upsert_resume payload st).1 |},
               Return (to_str_id (Some stored))) /\
            find (matches {["user_id" := VStr (Resume.user_id payload)]}) pre = None /\
            Resume_model_dump payload ⊆ stored /\
            stored !! "_id" = Some (VOid o))
    as (pre & post & stored & o & Hrun & Hpre & Hsub & Hid).
  { destruct (find_one (db_resume st) {["user_id" := VStr (Resume.user_id payload)]})
      as [ex|] eqn:Hfind.
    - destruct (resume_inv_found st _ ex Hinv Hfind)
        as (pre & post & o & Hdb & Hpre & Hu & Hid & Hfresh).
      rewrite (upsert_resume_existing st payload pre post ex o Hdb Hpre Hu Hid Hfresh).
      eexists pre, post, _, o. split; [reflexivity|]. split; [done|].
      split; [apply map_union_subseteq_l|].
      unfold mongo_set. by rewrite lookup_union_r by apply resume_dump_no_id.
    - assert (forall d, d ∈ db_resume st -> d !! "_id" <> Some (VOid (db_next_oid st)))
        as Hfresh by (intros d Hd; by apply resume_inv_fresh).
      rewrite (upsert_resume_fresh st payload Hfind Hfresh).
      eexists (db_resume st), [], _, (db_next_oid st). split; [reflexivity|].
      split; [done|]. split; [apply insert_subseteq, resume_dump_no_id|].
      by rewrite lookup_insert_eq. }
  rewrite Hrun in Hinv' |- *. cbn [fst] in *.
  set (st1 := {| db_resume := pre ++ stored :: post; db_next_oid := _ |}) in *.
  assert (stored !! "user_id" = Some (VStr (Resume.user_id payload))) as Hu
    by (eapply lookup_weaken; [apply resume_dump_user|done]).
  assert (find_one (db_resume st1) {["user_id" := VStr (Resume.user_id payload)]}
          = Some stored) as Hfind1.
  { unfold find_one. cbn [st1 db_resume]. rewrite find_app_cases, Hpre. cbn [find].
    by rewrite (proj2 (resume_matches_singleton _ _ _) Hu). }
  destruct (resume_inv_found st1 _ stored Hinv' Hfind1)
    as (pre1 & post1 & o1 & Hdb1 & Hpre1 & _ & Hid1 & Hfresh1).
  rewrite (upsert_resume_existing st1 payload pre1 post1 stored o1 Hdb1 Hpre1 Hu Hid1 Hfresh1).
  assert (mongo_set (Resume_model_dump payload) stored = stored) as ->
    by (unfold mongo_set; by apply map_subseteq_union).
  by rewrite <- Hdb1.
Qed.

(** X30: [upsert_resume] touches the resume of the payload's user only:
    [get_resume] for any other user has the outcome it had before; and
    [get_resume] for a user without a resume raises 404.  Neither call of
    [get_resume] writes. *)
Theorem upsert_resume_others (st : Store) (payload : Resume.t) (user_id : string) :
  resume_inv st ->
  user_id <> Resume.user_id payload ->
  let st' := (upsert_resume payload st).1 in
  get_resume user_id st' = (st', (get_resume user_id st).2) /\
  (get_resume user_id st).1 = st /\
  ((forall d, d ∈ db_resume st -> d !! "user_id" <> Some (VStr user_id)) ->
   get_resume user_id st' = (st', Raise (http 404 "Resume not found"))).
Proof.
  intros Hinv Hne st'.
  assert (find_one (db_resume st') {["user_id" := VStr user_id]} =
          find_one (db_resume st) {["user_id" := VStr user_id]}) as Hsame.
  { subst st'.
    assert (VStr user_id <> VStr (Resume.user_id payload)) as Hne' by congruence.
    destruct (find_one (db_resume st) {["user_id" := VStr (Resume.user_id payload)]})
      as [ex|] eqn:Hfind.
    - destruct (resume_inv_found st _ ex Hinv Hfind)
        as (pre & post & o & Hdb & Hpre & Hu & Hid & Hfresh).
      rewrite (upsert_resume_existing st payload pre post ex o Hdb Hpre Hu Hid Hfresh).
      cbn [fst db_resume]. rewrite Hdb. unfold find_one. rewrite !find_app_cases.
      cbn [find]. rewrite (resume_matches_other _ _ _ _ Hu Hne').
      rewrite (resume_matches_other "user_id" (VStr (Resume.user_id payload))); [done| |done].
      apply lookup_union_Some_l, resume_dump_user.
    - assert (forall d, d ∈ db_resume st -> d !! "_id" <> Some (VOid (db_next_oid st)))
        as Hfresh by (intros d Hd; by apply resume_inv_fresh).
      rewrite (upsert_resume_fresh st payload Hfind Hfresh).
      cbn [fst db_resume]. unfold find_one. rewrite find_app_cases. cbn [find].
      rewrite (resume_matches_other "user_id" (VStr (Resume.user_id payload))); [|
        by rewrite lookup_insert_ne, resume_dump_user|done].
      by destruct (find _ _). }
  rewrite !get_resume_run, Hsame. clear Hsame. split; [|split].
  - by destruct (find_one (db_resume st) _).
  - by destruct (find_one (db_resume st) _).
  - intros Hnone.
    assert (find_one (db_resume st) {["user_id" := VStr user_id]} = None) as ->; [|done].
    apply find_none_forall. intros d Hd. destruct (matches _ d) eqn:Hm; [|done].
    apply resume_matches_singleton in Hm. by destruct (Hnone d Hd).
Qed.

End ResumeMore.

(** ** The further theorems at the sample data *)

Lemma sample_register_run :
  @register sample_externals sample_user seeded_store =
  (registered_store, Return sample_response).
Proof. vm_refl. Qed.

Lemma sample_first_register_run :
  @register sample_externals sample_user empty_store =
  (sample_first_store, Return (Some sample_first_response)).
Proof. vm_refl. Qed.

Lemma ids_below_seeded : ids_below (db_next_oid seeded_store) (db_user seeded_store).
Proof. apply Forall_nil_2. Qed.

Lemma ids_below_empty : ids_below (db_next_oid empty_store) (db_user empty_store).
Proof. apply Forall_nil_2. Qed.

Lemma sample_user_allowed : User.qualification sample_user ∈ ALLOWED_QUALIFICATIONS.
Proof. compute_done. Qed.

Lemma sample_update_allowed :
  UpdateProfile.qualification sample_update ∈ ALLOWED_QUALIFICATIONS.
Proof. compute_done. Qed.

Lemma register_twice_witness :
  @register sample_externals sample_user registered_store =
  (registered_store, Raise (http 400 "Email already registered")).
Proof.
  exact (@register_twice sample_externals seeded_store registered_store sample_user
           sample_user sample_response sample_register_run ids_below_seeded eq_refl
           sample_user_allowed).
Defined.

Lemma sample_login_run :
  @login sample_externals sample_login registered_store =
  (registered_store, Return sample_response).
Proof. vm_refl. Qed.

Lemma register_then_login_witness :
  @login sample_externals sample_login registered_store =
  (registered_store, Return sample_response).
Proof.
  exact (@register_then_login sample_externals seeded_store registered_store sample_user
           sample_response sample_register_run ids_below_seeded I).
Defined.

Lemma register_then_get_profile_witness :
  sample_first_response !! "id" = Some (VStr "0") /\
  @get_profile sample_externals "0" sample_first_store =
  (sample_first_store, Return (Some sample_first_response)).
Proof.
  exact (@register_then_get_profile sample_externals empty_store sample_first_store
           sample_user sample_first_response sample_first_register_run ids_below_empty
           eq_refl).
Defined.

Lemma sample_first_user_found :
  find_one (db_user sample_first_store) {["_id" := VOid 0%nat]} = Some sample_first_user.
Proof. vm_refl. Qed.

Lemma update_profile_found_witness :
  exists pre post,
    db_user sample_first_store = pre ++ sample_first_user :: post /\
    mongo_set (UpdateProfile_model_dump sample_update) sample_first_user !! "qualification"
    = Some (VStr "MCA").
Proof.
  destruct (@update_profile_found sample_externals sample_first_store "0" sample_update
              0%nat sample_first_user eq_refl sample_update_allowed sample_first_user_found)
    as (pre & post & Hdb & _ & _ & _ & _ & Hq & _).
  exists pre, post. exact (conj Hdb Hq).
Defined.

Lemma sample_first_login_run :
  @login sample_externals sample_login sample_first_store =
  (sample_first_store, Return (Some sample_first_response)).
Proof. vm_refl. Qed.

Lemma update_profile_keeps_login_witness :
  exists r',
    @login sample_externals sample_login
      (@update_profile sample_externals "0" sample_update sample_first_store).1 =
    ((@update_profile sample_externals "0" sample_update sample_first_store).1, Return r').
Proof.
  exact (@update_profile_keeps_login sample_externals sample_first_store "0" sample_update
           sample_login (Some sample_first_response) sample_first_login_run).
Defined.

Lemma unique_emails_first : unique_emails (db_user sample_first_store).
Proof. unfold unique_emails. compute_done. Qed.

Lemma sample_first_user_digest :
  sample_first_user !! "password_hash" =
  Some (VStr (@hash_password sample_externals "secret1")).
Proof. vm_refl. Qed.

Lemma sample_first_user_email :
  sample_first_user !! "email" = Some (VStr "asha@example.com").
Proof. vm_refl. Qed.

Lemma change_password_only_digest_witness :
  exists pre post,
    db_user sample_first_store = pre ++ sample_first_user :: post /\
    @change_password sample_externals sample_change sample_first_store =
      (set_user
         (pre ++ <["password_hash" := VStr (@hash_password sample_externals "secret9")]>
                   sample_first_user :: post)
         (db_next_oid sample_first_store) sample_first_store,
       Return "Password updated").
Proof.
  exact (@change_password_only_digest sample_externals sample_first_store sample_change
           0%nat sample_first_user eq_refl sample_first_user_found sample_first_user_digest).
Defined.

Lemma change_password_then_login_witness :
  let st' := (@change_password sample_externals sample_change sample_first_store).1 in
  (exists r, @login sample_externals
               {| LoginRequest.email := "asha@example.com";
                  LoginRequest.password := "secret9" |} st' = (st', Return r)) /\
  @login sample_externals sample_login st' = (st', Raise (http 401 "Invalid credentials")).
Proof.
  destruct (@change_password_then_login sample_externals sample_first_store sample_change
              0%nat sample_first_user "asha@example.com" unique_emails_first eq_refl
              sample_first_user_found sample_first_user_digest sample_first_user_email)
    as (_ & Hnew & Hold).
  split; [exact Hnew|]. apply Hold. vm_compute. discriminate.
Defined.

Lemma sample_list_domains_run :
  list_domains seeded_store = (seeded_store, Return sample_domains).
Proof. vm_refl. Qed.

Lemma get_roadmap_iff_listed_witness :
  (exists steps, get_roadmap "backend" seeded_store = (seeded_store, Return ("backend", steps)))
  /\ get_roadmap "devops" seeded_store = (seeded_store, Raise (http 404 "Roadmap not found")).
Proof.
  destruct (get_roadmap_iff_listed seeded_store "backend" sample_domains
              sample_list_domains_run) as [Hyes _].
  destruct (get_roadmap_iff_listed seeded_store "devops" sample_domains
              sample_list_domains_run) as [_ Hno].
  split; [apply Hyes|apply Hno]; compute_done.
Defined.

Lemma sample_seed_elem : sample_seed ∈ SEED_ROADMAPS.
Proof. apply list_elem_of_lookup. exists 1%nat. vm_refl. Qed.

Lemma get_roadmap_seeded_witness :
  get_roadmap "backend" seeded_store = (seeded_store, Return ("backend", sample_seed.2)).
Proof.
  exact (get_roadmap_seeded empty_store sample_seed sample_seed_elem).
Defined.

Lemma sample_locked_run :
  submit_assessment sample_submit_locked registered_store =
  ((submit_assessment sample_submit_locked registered_store).1,
   Raise (http 403 "Complete previous step first")).
Proof. vm_refl. Qed.

Lemma submit_assessment_refused_writes_witness :
  (submit_assessment sample_submit_locked registered_store).1 <> registered_store /\
  find_one (db_progress (submit_assessment sample_submit_locked registered_store).1)
    (progress_filter "3" "frontend") =
  Some (fresh_progress "3" "frontend" (db_next_oid registered_store)).
Proof.
  destruct (submit_assessment_refused_writes sample_submit_locked registered_store
              (submit_assessment sample_submit_locked registered_store).1
              sample_locked_run) as [Hnew _].
  destruct Hnew as (_ & Hne & Hfind); [vm_refl|]. exact (conj Hne Hfind).
Defined.

Lemma submit_assessment_response_witness :
  sample_result !! "user_id" = Some (VStr "3") /\
  sample_result !! "id" = None /\
  sample_message = "Passed".
Proof.
  destruct (submit_assessment_response sample_submit_pass registered_store
              sample_graded.1 sample_result sample_message sample_graded_run)
    as (Hu & _ & _ & _ & Hid & Hmsg).
  split; [exact Hu|]. split; [exact Hid|vm_refl].
Defined.

Lemma sample_empty_run :
  submit_assessment sample_submit_empty registered_store =
  ((submit_assessment sample_submit_empty registered_store).1,
   Return (graded_result (submit_assessment sample_submit_empty registered_store),
           graded_message (submit_assessment sample_submit_empty registered_store))).
Proof. vm_refl. Qed.

Lemma submit_assessment_empty_fails_witness :
  graded_message (submit_assessment sample_submit_empty registered_store) = "Failed" /\
  graded_result (submit_assessment sample_submit_empty registered_store) !! "score"
  = Some (VInt 0).
Proof.
  destruct (submit_assessment_empty_fails sample_submit_empty registered_store
              (submit_assessment sample_submit_empty registered_store).1
              sample_roadmap (sample_step 1)
              (graded_result (submit_assessment sample_submit_empty registered_store))
              (graded_message (submit_assessment sample_submit_empty registered_store))
              sample_roadmap_found (sample_step_found 1 (or_introl eq_refl))
              (or_intror eq_refl) sample_empty_run)
    as (Hmsg & Hscore & _).
  exact (conj Hmsg Hscore).
Defined.

Lemma submit_assessment_all_correct_witness :
  exists st' result,
    submit_assessment sample_submit_all registered_store = (st', Return (result, "Passed")) /\
    result !! "score" = Some (VInt 2).
Proof.
  destruct (submit_assessment_all_correct sample_submit_all registered_store
              sample_roadmap (sample_step 1) sample_roadmap_found
              (sample_step_found 1 (or_introl eq_refl)))
    as (st' & result & Hrun & Hscore & _).
  - intros [Hlt _]. vm_compute in Hlt. discriminate.
  - vm_refl.
  - compute_done.
  - exists st', result. split; [exact Hrun|]. rewrite Hscore. vm_refl.
Defined.

Lemma sample_result_passed : sample_result !! "passed" = Some (VBool true).
Proof. vm_refl. Qed.

Lemma scores_wf_registered : scores_wf (db_progress registered_store).
Proof. apply Forall_nil_2. Qed.

Lemma progress_wf_registered : progress_wf (db_progress registered_store).
Proof. apply Forall_nil_2. Qed.

Lemma submit_assessment_pass_records_witness :
  exists score,
    sample_result !! "score" = Some (VInt score) /\
    scores_of sample_graded.1 "3" "frontend" =
      <[pretty 1 := score]> (scores_of registered_store "3" "frontend").
Proof.
  exact (proj1 (submit_assessment_pass_records sample_submit_pass registered_store
                  sample_graded.1 sample_result sample_message sample_graded_run
                  sample_result_passed scores_wf_registered)).
Defined.

Lemma submit_assessment_next_step_witness :
  sample_message = "Passed" /\
  submit_assessment sample_submit_locked sample_graded.1 <>
  (sample_graded.1, Raise (http 403 "Complete previous step first")).
Proof.
  split; [vm_refl|].
  apply (submit_assessment_next_step sample_submit_pass sample_submit_locked
           registered_store sample_graded.1 sample_result sample_message
           sample_graded_run progress_wf_registered eq_refl eq_refl eq_refl).
  vm_refl.
Defined.

Lemma dashboard_after_submission_witness :
  exists rs ps rs' ps',
    @dashboard sample_externals "3" registered_store = (registered_store, Return (rs, ps)) /\
    @dashboard sample_externals "3" sample_graded.1 = (sample_graded.1, Return (rs', ps')) /\
    rs' = rs ++ [@to_str_id_doc sample_externals sample_result].
Proof.
  destruct (@dashboard_after_submission sample_externals sample_submit_pass
              registered_store sample_graded.1 sample_result sample_message "3"
              sample_graded_run)
    as (rs & ps & rs' & ps' & H1 & H2 & Hown & _).
  exists rs, ps, rs', ps'. split; [exact H1|]. split; [exact H2|]. apply Hown. reflexivity.
Defined.

Lemma serve_users_stable_witness :
  exists added,
    (fun d : document => d !! "email") <$>
      db_user (@serve sample_externals (ReqRegister sample_user2) registered_store) =
    ((fun d : document => d !! "email") <$> db_user registered_store) ++ added.
Proof.
  destruct (@serve_users_stable sample_externals (ReqRegister sample_user2)
              registered_store "email") as (added & Heq & _).
  - compute_done.
  - exists added. exact Heq.
Defined.

Lemma reachable_registered : @reachable sample_externals registered_store.
Proof.
  exact (@reach_serve sample_externals seeded_store (ReqRegister sample_user)
           (@reach_seeded sample_externals empty_store (@reach_empty sample_externals))).
Qed.

Lemma reachable_inv_witness : store_inv_full registered_store.
Proof. exact (@reachable_inv sample_externals registered_store reachable_registered). Defined.

Lemma reachable_list_domains_witness :
  exists domains,
    list_domains registered_store = (registered_store, Return domains) /\
    (domains = [] \/ domains = VStr <$> SEED_ROADMAPS.*1).
Proof.
  exact (@reachable_list_domains sample_externals registered_store reachable_registered).
Defined.

Lemma resume_inv_empty : ResumeDb.resume_inv ResumeDb.empty_store.
Proof.
  split; [apply Forall_nil_2|]. split; apply NoDup_nil_2.
Qed.

Lemma resume_inv_sample : ResumeDb.resume_inv ResumeDb.sample_store.
Proof.
  exact (@upsert_resume_keeps_inv sample_externals ResumeDb.sample_repr
           ResumeDb.empty_store ResumeDb.sample_resume resume_inv_empty).
Qed.


Lemma upsert_resume_idempotent_witness :
  @ResumeDb.upsert_resume sample_externals ResumeDb.sample_repr ResumeDb.sample_resume2
    (@ResumeDb.upsert_resume sample_externals ResumeDb.sample_repr ResumeDb.sample_resume2
       ResumeDb.sample_store).1 =
  @ResumeDb.upsert_resume sample_externals ResumeDb.sample_repr ResumeDb.sample_resume2
    ResumeDb.sample_store.
Proof.
  exact (@upsert_resume_idempotent sample_externals ResumeDb.sample_repr
           ResumeDb.sample_store ResumeDb.sample_resume2 resume_inv_sample).
Defined.

Lemma upsert_resume_others_witness :
  let st' := (@ResumeDb.upsert_resume sample_externals ResumeDb.sample_repr
                ResumeDb.sample_resume2 ResumeDb.sample_store).1 in
  @ResumeDb.get_resume sample_externals ResumeDb.sample_repr "1" st' =
  (st', Raise (http 404 "Resume not found")).
Proof.
  destruct (@upsert_resume_others sample_externals ResumeDb.sample_repr
              ResumeDb.sample_store ResumeDb.sample_resume2 "1" resume_inv_sample)
    as (_ & _ & Hnone).
  - discriminate.
  - apply Hnone. apply Forall_forall. compute_done.
Defined.

Lemma get_profile_cases_witness :
  @get_profile sample_externals "x" registered_store =
    (registered_store, Raise (http 400 "Invalid user id")) /\
  @get_profile sample_externals "7" registered_store =
    (registered_store, Raise (http 404 "User not found")) /\
  exists resp, @get_profile sample_externals "0" sample_first_store =
                 (sample_first_store, Return (Some resp)).
Proof.
  destruct (@get_profile_cases sample_externals registered_store "x") as (H400 & _).
  destruct (@get_profile_cases sample_externals registered_store "7") as (_ & H404 & _).
  destruct (@get_profile_cases sample_externals sample_first_store "0") as (_ & _ & Hok).
  split; [apply H400; vm_refl|]. split; [apply (H404 7%nat); vm_refl|].
  eexists. apply (Hok 0%nat sample_first_user); [vm_refl|exact sample_first_user_found].
Defined.

Lemma change_password_refused_witness :
  @change_password sample_externals sample_change registered_store =
    (registered_store, Raise (http 404 "User not found")) /\
  @change_password sample_externals
    {| ChangePasswordRequest.user_id := "0"; ChangePasswordRequest.old_password := "secret2";
       ChangePasswordRequest.new_password := "secret9" |} sample_first_store =
    (sample_first_store, Raise (http 401 "Old password incorrect")).
Proof.
  destruct (@change_password_refused sample_externals registered_store sample_change)
    as (_ & H404 & _).
  destruct (@change_password_refused sample_externals sample_first_store
              {| ChangePasswordRequest.user_id := "0";
                 ChangePasswordRequest.old_password := "secret2";
                 ChangePasswordRequest.new_password := "secret9" |})
    as (_ & _ & H401).
  split; [apply (H404 0%nat); vm_refl|].
  apply (H401 0%nat sample_first_user); [vm_refl|exact sample_first_user_found|].
  vm_compute. discriminate.
Defined.

Lemma roadmaps_named_seeded : roadmaps_named seeded_store.
Proof. apply (seed_from_inv_full empty_store store_inv_full_empty). Qed.

Lemma list_domains_cases_witness :
  exists domains,
    list_domains seeded_store = (seeded_store, Return domains) /\
    Some <$> domains = (fun d : document => d !! "domain") <$> db_roadmap seeded_store.
Proof. exact (proj1 (list_domains_cases seeded_store) roadmaps_named_seeded). Defined.

Lemma submit_assessment_not_found_witness :
  submit_assessment
    {| SubmitAssessment.user_id := "3"; SubmitAssessment.domain := "devops";
       SubmitAssessment.step_order := 1; SubmitAssessment.answers := [] |} registered_store =
    (registered_store, Raise (http 404 "Roadmap not found")) /\
  submit_assessment
    {| SubmitAssessment.user_id := "3"; SubmitAssessment.domain := "frontend";
       SubmitAssessment.step_order := 9; SubmitAssessment.answers := [] |} registered_store =
    (registered_store, Raise (http 404 "Step not found")).
Proof.
  destruct (submit_assessment_not_found
              {| SubmitAssessment.user_id := "3"; SubmitAssessment.domain := "devops";
                 SubmitAssessment.step_order := 1; SubmitAssessment.answers := [] |}
              registered_store) as (Hrm & _).
  destruct (submit_assessment_not_found
              {| SubmitAssessment.user_id := "3"; SubmitAssessment.domain := "frontend";
                 SubmitAssessment.step_order := 9; SubmitAssessment.answers := [] |}
              registered_store) as (_ & Hstep & _).
  split.
  - apply Hrm. apply Forall_forall. compute_done.
  - apply (Hstep sample_roadmap sample_roadmap_found). apply Forall_forall. compute_done.
Defined.

Lemma to_str_id_spec_witness :
  exists d',
    @to_str_id sample_externals (Some sample_first_user) = Some d' /\
    d' !! "_id" = None /\ d' !! "id" = Some (VStr "0") /\
    d' !! "email" = Some (VStr "asha@example.com").
Proof.
  destruct (@to_str_id_spec sample_externals sample_first_user)
    as (d' & Hrun & Hkeep & _ & Hoid & _).
  destruct (Hoid 0%nat) as (Hnone & Hid); [vm_refl|].
  exists d'. split; [exact Hrun|]. split; [exact Hnone|]. split; [exact Hid|].
  rewrite Hkeep by discriminate. vm_refl.
Defined.

Lemma dashboard_own_entries_witness :
  exists results progresses,
    @dashboard sample_externals "3" sample_graded.1 =
      (sample_graded.1, Return (results, progresses)) /\
    @to_str_id_doc sample_externals sample_result ∈ results.
Proof.
  destruct (@dashboard_own_entries sample_externals sample_graded.1 "3")
    as (results & progresses & Hrun & _ & _ & Hall & _).
  exists results, progresses. split; [exact Hrun|]. apply Hall.
  - apply list_elem_of_lookup. exists 0%nat. vm_refl.
  - vm_refl.
Defined.

Lemma serve_frame_witness :
  db_roadmap (@serve sample_externals (ReqSubmitAssessment sample_submit_pass)
                registered_store) = db_roadmap registered_store /\
  exists added,
    db_assessmentresult (@serve sample_externals (ReqSubmitAssessment sample_submit_pass)
                           registered_store) =
    db_assessmentresult registered_store ++ added /\ (length added <= 1)%nat.
Proof.
  destruct (@serve_frame sample_externals (ReqSubmitAssessment sample_submit_pass)
              registered_store) as (Hrm & (added & Hlog & Hlen & _) & _).
  split; [exact Hrm|]. exists added. exact (conj Hlog Hlen).
Defined.
